(** * lockdown.c: the built-in lockdownd client

    A shallow embedding of [src/lockdown.c]: the request engine
    ([lockdownd_send], [lockdownd_recv], [lockdown_check_result]), the
    pairing verbs ([lockdownd_do_pair]), the session lifecycle
    ([lockdownd_start_session], [lockdownd_stop_session],
    [lockdownd_client_free]), the handshaking constructor and the
    session-scoped commands.

    The C functions thread a client structure and talk to three outside
    parties: the device (through the property list service), GnuTLS, and
    the user preference store.  Here the client is a record that is
    passed and returned, and the outside parties live in a [world]:
    scripts of the outcomes the device will deliver, a trace of what the
    client emitted, and the preference store.  A C execution that
    dereferences a null pointer, or that releases a pointer which holds
    no live object, has no result: such runs are [None]. *)

From Stdlib Require Import ZArith String List.
From Stdlib.Strings Require Import Byte.
From stdpp Require Import base option gmap strings.
Import ListNotations.
Local Open Scope Z_scope.
Local Open Scope string_scope.
Set Warnings "-register-all".

(** ** Property lists *)

(** The node types of libplist that the client builds or inspects.  A
    [plist_t] that is NULL in C is [None] of [option plist_t]. *)
Inductive plist_t : Type :=
| PLIST_BOOLEAN (b : bool)
| PLIST_UINT (n : Z)
| PLIST_STRING (s : string)
| PLIST_DATA (d : list byte)
| PLIST_ARRAY (l : list plist_t)
| PLIST_DICT (items : list (string * plist_t)).

Definition plist_new_dict : plist_t := PLIST_DICT [].

(** [plist_dict_insert_item]: appends a key and its value to a dictionary
    node, and leaves any other node alone. *)
Definition plist_dict_insert_item (node : plist_t) (key : string) (item : plist_t) : plist_t :=
  match node with
  | PLIST_DICT items => PLIST_DICT (items ++ [(key, item)])
  | _ => node
  end.

Fixpoint assoc_first (key : string) (items : list (string * plist_t)) : option plist_t :=
  match items with
  | [] => None
  | (k, v) :: rest => if String.eqb key k then Some v else assoc_first key rest
  end.

(** [plist_dict_get_item]: the value of the first entry with that key;
    NULL when the node is NULL, is not a dictionary or has no such key. *)
Definition plist_dict_get_item (node : option plist_t) (key : string) : option plist_t :=
  match node with
  | Some (PLIST_DICT items) => assoc_first key items
  | _ => None
  end.

(** [plist_get_string_val (node, &val)]: writes the string of a string
    node, and leaves [val] as it was for any other node or for NULL. *)
Definition plist_get_string_val (node : option plist_t) (val : option string) : option string :=
  match node with
  | Some (PLIST_STRING s) => Some s
  | _ => val
  end.

Definition plist_get_data_val (node : option plist_t) (val : option (list byte)) : option (list byte) :=
  match node with
  | Some (PLIST_DATA d) => Some d
  | _ => val
  end.

(** ** Error codes *)

Inductive lockdownd_error_t : Type :=
| LOCKDOWN_E_SUCCESS
| LOCKDOWN_E_INVALID_ARG
| LOCKDOWN_E_INVALID_CONF
| LOCKDOWN_E_PLIST_ERROR
| LOCKDOWN_E_PAIRING_FAILED
| LOCKDOWN_E_SSL_ERROR
| LOCKDOWN_E_START_SERVICE_FAILED
| LOCKDOWN_E_NOT_ENOUGH_DATA
| LOCKDOWN_E_MUX_ERROR
| LOCKDOWN_E_ACTIVATION_FAILED
| LOCKDOWN_E_PASSWORD_PROTECTED
| LOCKDOWN_E_NO_RUNNING_SESSION
| LOCKDOWN_E_INVALID_HOST_ID
| LOCKDOWN_E_UNKNOWN_ERROR.

Definition is_success (e : lockdownd_error_t) : bool :=
  match e with LOCKDOWN_E_SUCCESS => true | _ => false end.

Inductive userpref_error_t : Type :=
| USERPREF_E_SUCCESS
| USERPREF_E_INVALID_ARG
| USERPREF_E_INVALID_CONF
| USERPREF_E_SSL_ERROR
| USERPREF_E_UNKNOWN_ERROR.

Definition RESULT_SUCCESS : Z := 0.
Definition RESULT_FAILURE : Z := 1.

(** ** Checking a response *)

(** [lockdown_check_result (dict, query_match)], lines 60-109. *)
Definition lockdown_check_result (dict : option plist_t) (query_match : string) : Z :=
  let ret := -1 in
  match plist_dict_get_item dict "Request" with
  | None => ret
  | Some (PLIST_STRING query_value) =>
      if negb (String.eqb query_value query_match) then ret
      else
        match plist_dict_get_item dict "Result" with
        | None => ret
        | Some (PLIST_STRING result_value) =>
            if String.eqb result_value "Success" then RESULT_SUCCESS
            else if String.eqb result_value "Failure" then RESULT_FAILURE
            else ret
        | Some _ => ret
        end
  | Some _ => ret
  end.

(** [plist_dict_add_label (plist, label)], lines 118-124. *)
Definition plist_dict_add_label (plist : plist_t) (label : option string) : plist_t :=
  match label with
  | Some l =>
      match plist with
      | PLIST_DICT _ => plist_dict_insert_item plist "Label" (PLIST_STRING l)
      | _ => plist
      end
  | None => plist
  end.

(** ** The user preference store *)

(** Modelled from the spec: userpref.c is not part of the sources at
    hand.  The store holds the host id, if any, and the map from device
    uuid to device public key; [userpref_get_host_id] may find no host
    id, [userpref_set_device_public_key] stores the key under the uuid
    and [userpref_remove_device_public_key] removes the entry.  A NULL
    uuid names no entry.  The host and root key material is read through
    the functions of [pki] below. *)
Record userpref : Type := {
  host_id : option string;
  device_public_keys : gmap string (list byte)
}.

Definition userpref_get_host_id (u : userpref) : option string := host_id u.

Definition userpref_has_device_public_key (u : userpref) (uuid : option string) : bool :=
  match uuid with
  | Some k => bool_decide (is_Some (device_public_keys u !! k))
  | None => false
  end.

Definition userpref_set_device_public_key (u : userpref) (uuid : option string)
    (public_key : list byte) : userpref :=
  match uuid with
  | Some k => {| host_id := host_id u;
                 device_public_keys := <[k := public_key]> (device_public_keys u) |}
  | None => u
  end.

Definition userpref_remove_device_public_key (u : userpref) (uuid : option string) : userpref :=
  match uuid with
  | Some k => {| host_id := host_id u;
                 device_public_keys := delete k (device_public_keys u) |}
  | None => u
  end.

(** ** The world outside the client *)

(** What one call of the property list service's receive delivers: its
    error status and the property list it stored, if any. *)
Record recv_outcome : Type := {
  recv_ok : bool;
  recv_plist : option plist_t
}.

(** What the client puts on the connection, oldest first.  A frame is
    recorded when its send is attempted, whether or not the transport
    then reports success. *)
Inductive event : Type :=
| EvSend (encrypted : bool) (p : plist_t)
| EvHandshake
| EvCloseNotify
| EvClose.

(** The scripts give the outcome of each coming call, in order; a script
    that has run out stands for a connection that has gone away, and the
    call fails. *)
Record world : Type := {
  trace : list event;
  send_results : list bool;
  incoming : list recv_outcome;
  handshakes : list bool;
  free_results : list bool;
  store : userpref
}.

Definition script_head {A : Type} (dflt : A) (l : list A) : A :=
  match l with [] => dflt | x :: _ => x end.

Definition no_reply : recv_outcome := {| recv_ok := false; recv_plist := None |}.

(** ** Computations: state passing, with undefined behaviour *)

Definition M (A : Type) : Type := world -> option (A * world).

Definition ret {A : Type} (a : A) : M A := fun w => Some (a, w).

Definition bind {A B : Type} (m : M A) (k : A -> M B) : M B :=
  fun w => match m w with
           | Some (a, w') => k a w'
           | None => None
           end.

(** A null pointer is dereferenced, or a pointer that holds no live
    object is released: the run has no result. *)
Definition undefined {A : Type} : M A := fun _ => None.

Definition get_store : M userpref := fun w => Some (store w, w).

Definition put_store (u : userpref) : M unit := fun w =>
  Some (tt, {| trace := trace w; send_results := send_results w; incoming := incoming w;
               handshakes := handshakes w; free_results := free_results w; store := u |}).

Definition emit (e : event) : M unit := fun w =>
  Some (tt, {| trace := trace w ++ [e]; send_results := send_results w;
               incoming := incoming w; handshakes := handshakes w;
               free_results := free_results w; store := store w |}).

Declare Scope lockdown_scope.
Delimit Scope lockdown_scope with lockdown.
Notation "x <- m ;; k" := (bind m (fun x => k))
  (at level 100, m at next level, right associativity) : lockdown_scope.
Notation "m ;;; k" := (bind m (fun _ => k))
  (at level 100, right associativity) : lockdown_scope.
Local Open Scope lockdown_scope.

(** The property list service: one send, one receive, the TLS handshake,
    and releasing the service client. *)
Definition property_list_service_send (encrypted : bool) (p : plist_t) : M bool := fun w =>
  Some (script_head false (send_results w),
        {| trace := trace w ++ [EvSend encrypted p]; send_results := tail (send_results w);
           incoming := incoming w; handshakes := handshakes w;
           free_results := free_results w; store := store w |}).

Definition property_list_service_receive : M recv_outcome := fun w =>
  Some (script_head no_reply (incoming w),
        {| trace := trace w; send_results := send_results w; incoming := tail (incoming w);
           handshakes := handshakes w; free_results := free_results w; store := store w |}).

Definition gnutls_handshake : M bool := fun w =>
  Some (script_head false (handshakes w),
        {| trace := trace w ++ [EvHandshake]; send_results := send_results w;
           incoming := incoming w; handshakes := tail (handshakes w);
           free_results := free_results w; store := store w |}).

Definition property_list_service_client_free : M bool := fun w =>
  Some (script_head false (free_results w),
        {| trace := trace w ++ [EvClose]; send_results := send_results w;
           incoming := incoming w; handshakes := handshakes w;
           free_results := tail (free_results w); store := store w |}).

(** ** The client *)

(** What a pointer to a GnuTLS object holds: null, the address of a
    live object, or the address of an object that was released.  The
    client never clears [ssl_session] or [ssl_certificate] after the
    release (lines 276-281), so a released address stays in the field
    and still tests as non-null. *)
Inductive gnutls_handle : Type :=
| HANDLE_NULL
| HANDLE_LIVE
| HANDLE_RELEASED.

(** [struct lockdownd_client_int].  [parent] is set by the constructor
    and never null afterwards. *)
Record lockdownd_client : Type := {
  ssl_session : gnutls_handle;
  ssl_certificate : gnutls_handle;
  ssl_enabled : bool;
  session_id : option string;
  uuid : option string;
  label : option string
}.

Definition set_session_id (c : lockdownd_client) (s : option string) : lockdownd_client :=
  {| ssl_session := ssl_session c; ssl_certificate := ssl_certificate c;
     ssl_enabled := ssl_enabled c; session_id := s; uuid := uuid c; label := label c |}.

Definition set_ssl_enabled (c : lockdownd_client) (b : bool) : lockdownd_client :=
  {| ssl_session := ssl_session c; ssl_certificate := ssl_certificate c;
     ssl_enabled := b; session_id := session_id c; uuid := uuid c; label := label c |}.

Definition set_uuid (c : lockdownd_client) (u : option string) : lockdownd_client :=
  {| ssl_session := ssl_session c; ssl_certificate := ssl_certificate c;
     ssl_enabled := ssl_enabled c; session_id := session_id c; uuid := u; label := label c |}.

(** [lockdownd_client_set_label], lines 390-398. *)
Definition lockdownd_client_set_label (c : lockdownd_client) (l : option string) : lockdownd_client :=
  {| ssl_session := ssl_session c; ssl_certificate := ssl_certificate c;
     ssl_enabled := ssl_enabled c; session_id := session_id c; uuid := uuid c; label := l |}.

(** ** Sending and receiving *)

(** [lockdownd_send (client, plist)], lines 442-462, for a non-null
    client and plist. *)
Definition lockdownd_send (c : lockdownd_client) (plist : plist_t) : M lockdownd_error_t :=
  if negb (ssl_enabled c) then
    ok <- property_list_service_send false plist ;;
    ret (if ok then LOCKDOWN_E_SUCCESS else LOCKDOWN_E_UNKNOWN_ERROR)
  else
    ok <- property_list_service_send true plist ;;
    ret (if ok then LOCKDOWN_E_SUCCESS else LOCKDOWN_E_SSL_ERROR).

(** [lockdownd_recv (client, &plist)], lines 407-430, called with
    [*plist] null; the result carries what [*plist] holds on return. *)
Definition lockdownd_recv (c : lockdownd_client) : M (lockdownd_error_t * option plist_t) :=
  r <- property_list_service_receive ;;
  if negb (ssl_enabled c) then
    let e := if recv_ok r then LOCKDOWN_E_SUCCESS else LOCKDOWN_E_UNKNOWN_ERROR in
    ret (match recv_plist r with None => LOCKDOWN_E_PLIST_ERROR | Some _ => e end,
         recv_plist r)
  else if negb (recv_ok r) then ret (LOCKDOWN_E_SSL_ERROR, recv_plist r)
  else ret (match recv_plist r with
            | None => LOCKDOWN_E_PLIST_ERROR
            | Some _ => LOCKDOWN_E_SUCCESS
            end, recv_plist r).

(** ** TLS *)

(** [lockdownd_ssl_start_session], lines 204-254.
    [gnutls_certificate_allocate_credentials] and [gnutls_init] store
    the address of a new object in the client, over whatever the field
    held. *)
Definition lockdownd_ssl_start_session (c : lockdownd_client)
    : M (lockdownd_error_t * lockdownd_client) :=
  let c1 := {| ssl_session := HANDLE_LIVE; ssl_certificate := HANDLE_LIVE;
               ssl_enabled := ssl_enabled c;
               session_id := session_id c; uuid := uuid c; label := label c |} in
  return_me <- gnutls_handshake ;;
  if negb return_me then ret (LOCKDOWN_E_SSL_ERROR, c1)
  else ret (LOCKDOWN_E_SUCCESS, set_ssl_enabled c1 true).

(** [gnutls_bye (session, GNUTLS_SHUT_RDWR)]: the close notify goes out
    on a live session; on any other pointer the call has no result. *)
Definition gnutls_bye (session : gnutls_handle) : M unit :=
  match session with
  | HANDLE_LIVE => emit EvCloseNotify
  | _ => undefined
  end.

(** [gnutls_deinit] and [gnutls_certificate_free_credentials]: a live
    object is released and the caller's pointer keeps its address;
    releasing anything else, so an object a second time, has no
    result. *)
Definition gnutls_deinit (session : gnutls_handle) : M gnutls_handle :=
  match session with
  | HANDLE_LIVE => ret HANDLE_RELEASED
  | _ => undefined
  end.

Definition gnutls_certificate_free_credentials (sc : gnutls_handle) : M gnutls_handle :=
  match sc with
  | HANDLE_LIVE => ret HANDLE_RELEASED
  | _ => undefined
  end.

(** [lockdownd_ssl_stop_session], lines 264-291, for a non-null client:
    the close notify when TLS is on, then the release of the session
    and of the credentials, each when its pointer is not null. *)
Definition lockdownd_ssl_stop_session (c : lockdownd_client)
    : M (lockdownd_error_t * lockdownd_client) :=
  (if ssl_enabled c then gnutls_bye (ssl_session c) else ret tt) ;;;
  session <- match ssl_session c with
             | HANDLE_NULL => ret HANDLE_NULL
             | h => gnutls_deinit h
             end ;;
  certificate <- match ssl_certificate c with
                 | HANDLE_NULL => ret HANDLE_NULL
                 | h => gnutls_certificate_free_credentials h
                 end ;;
  ret (LOCKDOWN_E_SUCCESS,
       {| ssl_session := session; ssl_certificate := certificate; ssl_enabled := false;
          session_id := None; uuid := uuid c; label := label c |}).

(** ** Session teardown *)

(** [lockdownd_stop_session (client, session_id)], lines 304-347. *)
Definition lockdownd_stop_session (c : lockdownd_client) (sid : option string)
    : M (lockdownd_error_t * lockdownd_client) :=
  match sid with
  | None => ret (LOCKDOWN_E_INVALID_ARG, c)
  | Some s =>
      let dict := plist_new_dict in
      let dict := plist_dict_add_label dict (label c) in
      let dict := plist_dict_insert_item dict "Request" (PLIST_STRING "StopSession") in
      let dict := plist_dict_insert_item dict "SessionID" (PLIST_STRING s) in
      _ <- lockdownd_send c dict ;;
      r <- lockdownd_recv c ;;
      let dict := snd r in
      match dict with
      | None => ret (LOCKDOWN_E_PLIST_ERROR, c)
      | Some _ =>
          let e := if Z.eqb (lockdown_check_result dict "StopSession") RESULT_SUCCESS
                   then LOCKDOWN_E_SUCCESS else LOCKDOWN_E_UNKNOWN_ERROR in
          r' <- lockdownd_ssl_stop_session c ;;
          ret (e, snd r')
      end
  end.

(** [if (client->session_id) lockdownd_stop_session (client,
    client->session_id);], the statement that opens both
    [lockdownd_client_free] (line 361) and [lockdownd_start_session]
    (line 1258); the code that it returns is dropped there. *)
Definition stop_running_session (c : lockdownd_client)
    : M (lockdownd_error_t * lockdownd_client) :=
  match session_id c with
  | Some s => lockdownd_stop_session c (Some s)
  | None => ret (LOCKDOWN_E_SUCCESS, c)
  end.

(** [lockdownd_goodbye], lines 1069-1099. *)
Definition lockdownd_goodbye (c : lockdownd_client) : M lockdownd_error_t :=
  let dict := plist_new_dict in
  let dict := plist_dict_add_label dict (label c) in
  let dict := plist_dict_insert_item dict "Request" (PLIST_STRING "Goodbye") in
  _ <- lockdownd_send c dict ;;
  r <- lockdownd_recv c ;;
  let dict := snd r in
  match dict with
  | None => ret LOCKDOWN_E_PLIST_ERROR
  | Some _ =>
      if Z.eqb (lockdown_check_result dict "Goodbye") RESULT_SUCCESS
      then ret LOCKDOWN_E_SUCCESS else ret (fst r)
  end.

(** [lockdownd_client_free], lines 355-381, for a non-null client. *)
Definition lockdownd_client_free (c : lockdownd_client) : M lockdownd_error_t :=
  r <- stop_running_session c ;;
  let c := snd r in
  _ <- lockdownd_goodbye c ;;
  freed <- property_list_service_client_free ;;
  ret (if freed then LOCKDOWN_E_SUCCESS else LOCKDOWN_E_UNKNOWN_ERROR).

(** ** Queries and values *)

(** [lockdownd_query_type (client, &type)], lines 472-508, for a
    non-null [type]; [ty] is what [*type] holds at the call and the
    result carries what it holds on return. *)
Definition lockdownd_query_type (c : lockdownd_client) (ty : option string)
    : M (lockdownd_error_t * option string) :=
  let dict := plist_new_dict in
  let dict := plist_dict_add_label dict (label c) in
  let dict := plist_dict_insert_item dict "Request" (PLIST_STRING "QueryType") in
  _ <- lockdownd_send c dict ;;
  r <- lockdownd_recv c ;;
  let dict := snd r in
  if negb (is_success (fst r)) then ret (fst r, ty)
  else if Z.eqb (lockdown_check_result dict "QueryType") RESULT_SUCCESS
  then ret (LOCKDOWN_E_SUCCESS, plist_get_string_val (plist_dict_get_item dict "Type") ty)
  else ret (LOCKDOWN_E_UNKNOWN_ERROR, ty).

Definition add_optional_string (dict : plist_t) (key : string) (v : option string) : plist_t :=
  match v with
  | Some s => plist_dict_insert_item dict key (PLIST_STRING s)
  | None => dict
  end.

(** [lockdownd_get_value (client, domain, key, &value)], lines 519-570;
    the result carries what [*value], null at the call, holds on return. *)
Definition lockdownd_get_value (c : lockdownd_client) (domain key : option string)
    : M (lockdownd_error_t * option plist_t) :=
  let dict := plist_new_dict in
  let dict := plist_dict_add_label dict (label c) in
  let dict := add_optional_string dict "Domain" domain in
  let dict := add_optional_string dict "Key" key in
  let dict := plist_dict_insert_item dict "Request" (PLIST_STRING "GetValue") in
  e <- lockdownd_send c dict ;;
  if negb (is_success e) then ret (e, None)
  else
    r <- lockdownd_recv c ;;
    let dict := snd r in
    let e := fst r in
    if negb (is_success e) then ret (e, None)
    else
      let e := if Z.eqb (lockdown_check_result dict "GetValue") RESULT_SUCCESS
               then LOCKDOWN_E_SUCCESS else e in
      if negb (is_success e) then ret (e, None)
      else ret (e, plist_dict_get_item dict "Value").

(** [lockdownd_get_device_public_key], lines 710-729.  The datum is
    [None] when its data pointer is null. *)
Definition lockdownd_get_device_public_key (c : lockdownd_client)
    : M (lockdownd_error_t * option (list byte)) :=
  r <- lockdownd_get_value c None (Some "DevicePublicKey") ;;
  if negb (is_success (fst r)) then ret (fst r, None)
  else ret (fst r, plist_get_data_val (snd r) None).

(** [lockdownd_set_value], lines 581-627, for a non-null value. *)
Definition lockdownd_set_value (c : lockdownd_client) (domain key : option string)
    (value : plist_t) : M lockdownd_error_t :=
  let dict := plist_new_dict in
  let dict := plist_dict_add_label dict (label c) in
  let dict := add_optional_string dict "Domain" domain in
  let dict := add_optional_string dict "Key" key in
  let dict := plist_dict_insert_item dict "Request" (PLIST_STRING "SetValue") in
  let dict := plist_dict_insert_item dict "Value" value in
  e <- lockdownd_send c dict ;;
  if negb (is_success e) then ret e
  else
    r <- lockdownd_recv c ;;
    let dict := snd r in
    let e := fst r in
    if negb (is_success e) then ret e
    else ret (if Z.eqb (lockdown_check_result dict "SetValue") RESULT_SUCCESS
              then LOCKDOWN_E_SUCCESS else e).

(** [lockdownd_remove_value], lines 639-684. *)
Definition lockdownd_remove_value (c : lockdownd_client) (domain key : option string)
    : M lockdownd_error_t :=
  let dict := plist_new_dict in
  let dict := plist_dict_add_label dict (label c) in
  let dict := add_optional_string dict "Domain" domain in
  let dict := add_optional_string dict "Key" key in
  let dict := plist_dict_insert_item dict "Request" (PLIST_STRING "RemoveValue") in
  e <- lockdownd_send c dict ;;
  if negb (is_success e) then ret e
  else
    r <- lockdownd_recv c ;;
    let dict := snd r in
    let e := fst r in
    if negb (is_success e) then ret e
    else ret (if Z.eqb (lockdown_check_result dict "RemoveValue") RESULT_SUCCESS
              then LOCKDOWN_E_SUCCESS else e).

(** [lockdownd_enter_recovery], lines 1033-1059. *)
Definition lockdownd_enter_recovery (c : lockdownd_client) : M lockdownd_error_t :=
  let dict := plist_new_dict in
  let dict := plist_dict_add_label dict (label c) in
  let dict := plist_dict_insert_item dict "Request" (PLIST_STRING "EnterRecovery") in
  _ <- lockdownd_send c dict ;;
  r <- lockdownd_recv c ;;
  ret (if Z.eqb (lockdown_check_result (snd r) "EnterRecovery") RESULT_SUCCESS
       then LOCKDOWN_E_SUCCESS else fst r).

(** ** Certificates *)

(** GnuTLS, libtasn1 and the key material of the preference store, as
    [lockdownd_gen_pair_cert] uses them.  None of them changes the store
    or touches the connection. *)
Record pki : Type := {
  (** [gnutls_pem_base64_decode_alloc] on the device key, line 1119:
      the DER bytes it allocates, or nothing when it fails *)
  pem_base64_decode : list byte -> option (list byte);
  (** lines 1121-1147: libtasn1's decoding of the DER bytes; the modulus
      and the exponent when every step succeeded *)
  rsa_public_key_decode : list byte -> option (list byte * list byte);
  (** [gnutls_x509_privkey_import_rsa_raw] on modulus and exponent *)
  privkey_import_rsa_raw : list byte -> list byte -> bool;
  (** Modelled from the spec: [userpref_get_keys_and_certs], a read of
      the store *)
  userpref_get_keys_and_certs : userpref -> userpref_error_t;
  (** lines 1174-1189: the device certificate, signed and in PEM *)
  sign_device_cert : userpref -> list byte -> list byte -> list byte;
  (** Modelled from the spec: [userpref_get_certs_as_pem], the root and
      the host certificate *)
  userpref_get_certs_as_pem : userpref -> userpref_error_t * (list byte * list byte)
}.

Record pair_certs : Type := {
  device_cert : option (list byte);
  host_cert : option (list byte);
  root_cert : option (list byte)
}.

Definition no_certs : pair_certs :=
  {| device_cert := None; host_cert := None; root_cert := None |}.

Definition lockdown_of_userpref (uret : userpref_error_t) (e : lockdownd_error_t)
    : lockdownd_error_t :=
  match uret with
  | USERPREF_E_INVALID_ARG => LOCKDOWN_E_INVALID_ARG
  | USERPREF_E_INVALID_CONF => LOCKDOWN_E_INVALID_CONF
  | USERPREF_E_SSL_ERROR => LOCKDOWN_E_SSL_ERROR
  | _ => e
  end.

Definition datum_size (d : list byte) : Z := Z.of_nat (length d).

(** [lockdownd_gen_pair_cert], lines 1106-1237, for non-null output
    pointers; the outputs are those of the caller, null at the call.
    [der_pub_key] is declared without a value (line 1118) and only a
    successful PEM decoding writes it, while line 1234 releases
    [der_pub_key.data] on every path: when the decoding fails the call
    releases a pointer that was never set, and the run has no result. *)
Definition lockdownd_gen_pair_cert (E : pki) (public_key : option (list byte)) (u : userpref)
    : option (lockdownd_error_t * pair_certs) :=
  match public_key with
  | None => Some (LOCKDOWN_E_INVALID_ARG, no_certs)
  | Some pem =>
      match pem_base64_decode E pem with
      | None => None
      | Some der_pub_key =>
          match rsa_public_key_decode E der_pub_key with
          | None => Some (LOCKDOWN_E_UNKNOWN_ERROR, no_certs)
          | Some (modulus, exponent) =>
              if negb (Z.eqb (datum_size modulus) 0) && negb (Z.eqb (datum_size exponent) 0)
              then
                if privkey_import_rsa_raw E modulus exponent then
                  match userpref_get_keys_and_certs E u with
                  | USERPREF_E_SUCCESS =>
                      let dev_pem := sign_device_cert E u modulus exponent in
                      let r := userpref_get_certs_as_pem E u in
                      match fst r with
                      | USERPREF_E_SUCCESS =>
                          Some (LOCKDOWN_E_SUCCESS,
                                {| device_cert := Some dev_pem;
                                   host_cert := Some (snd (snd r));
                                   root_cert := Some (fst (snd r)) |})
                      | uret => Some (lockdown_of_userpref uret LOCKDOWN_E_SUCCESS, no_certs)
                      end
                  | uret => Some (lockdown_of_userpref uret LOCKDOWN_E_SUCCESS, no_certs)
                  end
                else Some (LOCKDOWN_E_SUCCESS, no_certs)
              else Some (LOCKDOWN_E_SUCCESS, no_certs)
          end
      end
  end.

(** [plist_new_data (datum.data, datum.size)]: a null datum has size 0. *)
Definition plist_new_data (d : option (list byte)) : plist_t :=
  match d with
  | Some bytes => PLIST_DATA bytes
  | None => PLIST_DATA []
  end.

(** [plist_new_string] duplicates its argument: a null argument is a
    null pointer dereference. *)
Definition plist_new_string (s : option string) : M plist_t :=
  match s with
  | Some v => ret (PLIST_STRING v)
  | None => undefined
  end.

(** ** Pairing *)

(** [lockdownd_do_pair (client, host_id, verb)], lines 880-976.  The
    pair record is inserted into the request before it is filled; the
    request that is sent holds the filled record. *)
Definition lockdownd_do_pair (E : pki) (c : lockdownd_client) (host_id : option string)
    (verb : string) : M lockdownd_error_t :=
  r <- lockdownd_get_device_public_key c ;;
  let public_key := snd r in
  if negb (is_success (fst r)) then ret (fst r)
  else
    u <- get_store ;;
    g <- (match lockdownd_gen_pair_cert E public_key u with
          | Some g => ret g
          | None => undefined
          end) ;;
    if negb (is_success (fst g)) then ret (fst g)
    else
      let host_id_loc := match host_id with
                         | Some h => Some h
                         | None => userpref_get_host_id u
                         end in
      let dict := plist_new_dict in
      let dict_record := plist_new_dict in
      let dict := plist_dict_add_label dict (label c) in
      let dict_record := plist_dict_insert_item dict_record "DeviceCertificate"
                           (plist_new_data (device_cert (snd g))) in
      let dict_record := plist_dict_insert_item dict_record "HostCertificate"
                           (plist_new_data (host_cert (snd g))) in
      hid <- plist_new_string host_id_loc ;;
      let dict_record := plist_dict_insert_item dict_record "HostID" hid in
      let dict_record := plist_dict_insert_item dict_record "RootCertificate"
                           (plist_new_data (root_cert (snd g))) in
      let dict := plist_dict_insert_item dict "PairRecord" dict_record in
      let dict := plist_dict_insert_item dict "Request" (PLIST_STRING verb) in
      e <- lockdownd_send c dict ;;
      if negb (is_success e) then ret e
      else
        r <- lockdownd_recv c ;;
        let dict := snd r in
        let e := fst r in
        if negb (is_success e) then ret e
        else
          let e := if negb (Z.eqb (lockdown_check_result dict verb) RESULT_SUCCESS)
                   then LOCKDOWN_E_PAIRING_FAILED else e in
          if is_success e then
            u <- get_store ;;
            (if String.eqb "Unpair" verb
             then put_store (userpref_remove_device_public_key u (uuid c))
             else match public_key with
                  | Some key => put_store (userpref_set_device_public_key u (uuid c) key)
                  | None => ret tt
                  end) ;;;
            ret e
          else
            match plist_dict_get_item dict "Error" with
            | Some error_node =>
                match plist_get_string_val (Some error_node) None with
                | Some value =>
                    if String.eqb value "PasswordProtected"
                    then ret LOCKDOWN_E_PASSWORD_PROTECTED else ret e
                | None => ret e
                end
            | None => ret e
            end.

Definition lockdownd_pair (E : pki) (c : lockdownd_client) (host_id : option string)
    : M lockdownd_error_t :=
  lockdownd_do_pair E c host_id "Pair".

Definition lockdownd_validate_pair (E : pki) (c : lockdownd_client) (host_id : option string)
    : M lockdownd_error_t :=
  lockdownd_do_pair E c host_id "ValidatePair".

Definition lockdownd_unpair (E : pki) (c : lockdownd_client) (host_id : option string)
    : M lockdownd_error_t :=
  lockdownd_do_pair E c host_id "Unpair".

(** ** Starting a session *)

(** What [lockdownd_start_session] returns and leaves behind: the error
    code, the client, and what it writes to [*session_id] and
    [*ssl_enabled] when the caller passes these pointers ([None]: nothing
    is written). *)
Record start_session_result : Type := {
  ss_error : lockdownd_error_t;
  ss_client : lockdownd_client;
  ss_session_id : option string;
  ss_ssl_enabled : option bool
}.

Definition ss_fail (e : lockdownd_error_t) (c : lockdownd_client) : start_session_result :=
  {| ss_error := e; ss_client := c; ss_session_id := None; ss_ssl_enabled := None |}.

(** [lockdownd_start_session], lines 1249-1327, for a non-null client. *)
Definition lockdownd_start_session (c : lockdownd_client) (host_id : option string)
    : M start_session_result :=
  r0 <- stop_running_session c ;;
  let c := snd r0 in
  let dict := plist_new_dict in
  let dict := plist_dict_add_label dict (label c) in
  hid <- plist_new_string host_id ;;
  let dict := plist_dict_insert_item dict "HostID" hid in
  let dict := plist_dict_insert_item dict "Request" (PLIST_STRING "StartSession") in
  e <- lockdownd_send c dict ;;
  if negb (is_success e) then ret (ss_fail e c)
  else
    r <- lockdownd_recv c ;;
    let dict := snd r in
    let e := fst r in
    match dict with
    | None => ret (ss_fail LOCKDOWN_E_PLIST_ERROR c)
    | Some _ =>
        if Z.eqb (lockdown_check_result dict "StartSession") RESULT_FAILURE then
          match plist_dict_get_item dict "Error" with
          | Some (PLIST_STRING error) =>
              if String.eqb error "InvalidHostID"
              then ret (ss_fail LOCKDOWN_E_INVALID_HOST_ID c)
              else ret (ss_fail e c)
          | _ => ret (ss_fail e c)
          end
        else
          let use_ssl := match plist_dict_get_item dict "EnableSessionSSL" with
                         | Some (PLIST_BOOLEAN b) => b
                         | _ => false
                         end in
          let c := set_session_id c
                     (plist_get_string_val (plist_dict_get_item dict "SessionID")
                                           (session_id c)) in
          if use_ssl then
            r1 <- lockdownd_ssl_start_session c ;;
            ret {| ss_error := fst r1; ss_client := snd r1;
                   ss_session_id := session_id c; ss_ssl_enabled := Some use_ssl |}
          else
            ret {| ss_error := LOCKDOWN_E_SUCCESS; ss_client := set_ssl_enabled c false;
                   ss_session_id := session_id c; ss_ssl_enabled := Some use_ssl |}
    end.

(** ** Constructors *)

(** The device handle, as the client uses it: whether a connection to
    port 0xf27e can be made, and what [iphone_device_get_uuid] returns
    (its code read as a [lockdownd_error_t], as the source does) and
    stores. *)
Record iphone_device : Type := {
  connectable : bool;
  device_get_uuid : lockdownd_error_t * option string
}.

(** [lockdownd_client_new (device, &client, label)], lines 763-794; the
    result carries what [*client] holds on return. *)
Definition lockdownd_client_new (device : iphone_device) (lbl : option string)
    : lockdownd_error_t * option lockdownd_client :=
  if negb (connectable device) then (LOCKDOWN_E_MUX_ERROR, None)
  else
    let client_loc := {| ssl_session := HANDLE_NULL; ssl_certificate := HANDLE_NULL;
                         ssl_enabled := false; session_id := None;
                         uuid := None; label := None |} in
    (* if (label != NULL) strdup(label);  the copy is dropped *)
    (LOCKDOWN_E_SUCCESS, Some client_loc).

(** [lockdownd_client_new_with_handshake], lines 806-868. *)
Definition lockdownd_client_new_with_handshake (E : pki) (device : iphone_device)
    (lbl : option string) : M (lockdownd_error_t * option lockdownd_client) :=
  match snd (lockdownd_client_new device lbl) with
  | None => undefined
  | Some client_loc =>
      q <- lockdownd_query_type client_loc None ;;
      (if is_success (fst q)
       then match snd q with Some _ => ret tt | None => undefined end
       else ret tt) ;;;
      let e := fst (device_get_uuid device) in
      let client_loc := set_uuid client_loc (snd (device_get_uuid device)) in
      u <- get_store ;;
      let host_id := userpref_get_host_id u in
      let e := if is_success e && negb (bool_decide (is_Some host_id))
               then LOCKDOWN_E_INVALID_CONF else e in
      _ <- (if is_success e && negb (userpref_has_device_public_key u (uuid client_loc))
            then lockdownd_pair E client_loc host_id
            else ret e) ;;
      e <- lockdownd_validate_pair E client_loc host_id ;;
      r <- (if is_success e then
              s <- lockdownd_start_session client_loc host_id ;;
              ret (if is_success (ss_error s) then LOCKDOWN_E_SUCCESS
                   else LOCKDOWN_E_SSL_ERROR, ss_client s)
            else ret (e, client_loc)) ;;
      if is_success (fst r) then ret (LOCKDOWN_E_SUCCESS, Some (snd r))
      else
        _ <- lockdownd_client_free (snd r) ;;
        ret (fst r, None)
  end.

(** ** Services and activation *)

Definition uint64_of (n : Z) : Z := n mod 2 ^ 64.
Definition uint32_of (n : Z) : Z := n mod 2 ^ 32.
Definition int_of_uint32 (n : Z) : Z := if Z.ltb n (2 ^ 31) then n else n - 2 ^ 32.

(** [lockdownd_start_service (client, service, port)], lines 1337-1399.
    [port] is [None] for a null pointer, else what [*port] holds; the
    result carries what [*port] holds on return. *)
Definition lockdownd_start_service (c : lockdownd_client) (service : option string)
    (port : option Z) : M (lockdownd_error_t * option Z) :=
  match service, port with
  | Some svc, Some _ =>
      u <- get_store ;;
      match userpref_get_host_id u with
      | None => ret (LOCKDOWN_E_INVALID_CONF, port)
      | Some _ =>
          match session_id c with
          | None => ret (LOCKDOWN_E_NO_RUNNING_SESSION, port)
          | Some _ =>
              let dict := plist_new_dict in
              let dict := plist_dict_add_label dict (label c) in
              let dict := plist_dict_insert_item dict "Request" (PLIST_STRING "StartService") in
              let dict := plist_dict_insert_item dict "Service" (PLIST_STRING svc) in
              e <- lockdownd_send c dict ;;
              if negb (is_success e) then ret (e, port)
              else
                r <- lockdownd_recv c ;;
                let dict := snd r in
                if negb (is_success (fst r)) then ret (fst r, port)
                else
                  match dict with
                  | None => ret (LOCKDOWN_E_PLIST_ERROR, port)
                  | Some _ =>
                      if Z.eqb (lockdown_check_result dict "StartService") RESULT_SUCCESS then
                        match plist_dict_get_item dict "Port" with
                        | Some (PLIST_UINT n) =>
                            let port_value := uint64_of n in
                            if negb (Z.eqb port_value 0)
                            then ret (LOCKDOWN_E_SUCCESS,
                                      Some (int_of_uint32 (uint32_of port_value)))
                            else ret (LOCKDOWN_E_UNKNOWN_ERROR, port)
                        | _ => ret (LOCKDOWN_E_UNKNOWN_ERROR, port)
                        end
                      else ret (LOCKDOWN_E_START_SERVICE_FAILED, port)
                  end
          end
      end
  | _, _ => ret (LOCKDOWN_E_INVALID_ARG, port)
  end.

(** [lockdownd_activate (client, activation_record)], lines 1413-1450. *)
Definition lockdownd_activate (c : lockdownd_client) (activation_record : option plist_t)
    : M lockdownd_error_t :=
  match session_id c with
  | None => ret LOCKDOWN_E_NO_RUNNING_SESSION
  | Some _ =>
      match activation_record with
      | None => ret LOCKDOWN_E_INVALID_ARG
      | Some record =>
          let dict := plist_new_dict in
          let dict := plist_dict_add_label dict (label c) in
          let dict := plist_dict_insert_item dict "Request" (PLIST_STRING "Activate") in
          let dict := plist_dict_insert_item dict "ActivationRecord" record in
          _ <- lockdownd_send c dict ;;
          r <- lockdownd_recv c ;;
          let dict := snd r in
          match dict with
          | None => ret LOCKDOWN_E_PLIST_ERROR
          | Some _ =>
              if Z.eqb (lockdown_check_result dict "Activate") RESULT_SUCCESS
              then ret LOCKDOWN_E_SUCCESS else ret LOCKDOWN_E_ACTIVATION_FAILED
          end
      end
  end.

(** [lockdownd_deactivate (client)], lines 1460-1493. *)
Definition lockdownd_deactivate (c : lockdownd_client) : M lockdownd_error_t :=
  match session_id c with
  | None => ret LOCKDOWN_E_NO_RUNNING_SESSION
  | Some _ =>
      let dict := plist_new_dict in
      let dict := plist_dict_add_label dict (label c) in
      let dict := plist_dict_insert_item dict "Request" (PLIST_STRING "Deactivate") in
      _ <- lockdownd_send c dict ;;
      r <- lockdownd_recv c ;;
      let dict := snd r in
      match dict with
      | None => ret LOCKDOWN_E_PLIST_ERROR
      | Some _ =>
          if Z.eqb (lockdown_check_result dict "Deactivate") RESULT_SUCCESS
          then ret LOCKDOWN_E_SUCCESS else ret LOCKDOWN_E_UNKNOWN_ERROR
      end
  end.

(** ** The other value getters *)

(** [lockdownd_get_device_uuid (client, &uuid)], lines 690-704; [out]
    is what [*uuid] holds at the call and the result carries what it
    holds on return. *)
Definition lockdownd_get_device_uuid (c : lockdownd_client) (out : option string)
    : M (lockdownd_error_t * option string) :=
  r <- lockdownd_get_value c None (Some "UniqueDeviceID") ;;
  if negb (is_success (fst r)) then ret (fst r, out)
  else ret (fst r, plist_get_string_val (snd r) out).

(** [lockdownd_get_device_name (client, &device_name)], lines 738-753. *)
Definition lockdownd_get_device_name (c : lockdownd_client) (out : option string)
    : M (lockdownd_error_t * option string) :=
  r <- lockdownd_get_value c None (Some "DeviceName") ;;
  if negb (is_success (fst r)) then ret (fst r, out)
  else ret (fst r, plist_get_string_val (snd r) out).

(** ** The GnuTLS pull callback *)

(** One call of [iphone_device_recv]: the code it returns and the bytes
    it stored in the receive buffer. *)
Record device_recv_t : Type := {
  recv_res : Z;
  recv_bytes : list byte
}.

(** How a call of [lockdownd_ssl_read] ends: it returns a value and
    leaves bytes in the caller's buffer, with the rest of the
    connection's script still to come; or the device stored more bytes
    than the receive buffer holds, and the run is undefined; or the
    script has run out and the call still waits in
    [iphone_device_recv]. *)
Inductive ssl_read_result : Type :=
| SslReadReturns (n : Z) (buffer : list byte) (rest : list device_recv_t)
| SslReadUndefined
| SslReadWaits (buffer : list byte).

(** The do-while loop of lines 168-188.  [alloc] is the size of
    [recv_buffer], [this_len] the count asked for, [tbytes] the read
    count and [filled] the bytes copied to [buffer] so far. *)
Fixpoint ssl_read_loop (length alloc this_len tbytes : Z) (filled : list byte)
    (conn : list device_recv_t) : ssl_read_result :=
  match conn with
  | [] => SslReadWaits filled
  | r :: rest =>
      if negb (Z.eqb (recv_res r) 0) then SslReadReturns (recv_res r) filled rest
      else
        let bytes := datum_size (recv_bytes r) in
        if Z.ltb (uint32_of this_len) bytes || Z.ltb alloc bytes then SslReadUndefined
        else
          let tbytes := uint64_of (tbytes + bytes) in
          let filled := (filled ++ recv_bytes r)%list in
          if Z.leb length tbytes then SslReadReturns tbytes filled rest
          else ssl_read_loop length alloc (int_of_uint32 (uint32_of (length - tbytes)))
                 tbytes filled rest
  end.

(** [lockdownd_ssl_read (transport, buffer, length)], lines 153-195.
    [this_len] is [length] cut to an int; a negative one is no size to
    allocate a buffer with. *)
Definition lockdownd_ssl_read (length : Z) (conn : list device_recv_t) : ssl_read_result :=
  let this_len := int_of_uint32 (uint32_of length) in
  if Z.ltb this_len 0 then SslReadUndefined
  else ssl_read_loop length this_len this_len 0 [] conn.

(** ** Pieces of a run, named for the statements below *)

Definition after_send (encrypted : bool) (p : plist_t) (w : world) : world :=
  {| trace := trace w ++ [EvSend encrypted p]; send_results := tail (send_results w);
     incoming := incoming w; handshakes := handshakes w;
     free_results := free_results w; store := store w |}.

Definition after_recv (w : world) : world :=
  {| trace := trace w; send_results := send_results w; incoming := tail (incoming w);
     handshakes := handshakes w; free_results := free_results w; store := store w |}.

Definition send_code (c : lockdownd_client) (ok : bool) : lockdownd_error_t :=
  if ok then LOCKDOWN_E_SUCCESS
  else if ssl_enabled c then LOCKDOWN_E_SSL_ERROR else LOCKDOWN_E_UNKNOWN_ERROR.

Definition recv_code (c : lockdownd_client) (r : recv_outcome) : lockdownd_error_t :=
  if ssl_enabled c then
    if recv_ok r
    then match recv_plist r with Some _ => LOCKDOWN_E_SUCCESS | None => LOCKDOWN_E_PLIST_ERROR end
    else LOCKDOWN_E_SSL_ERROR
  else
    match recv_plist r with
    | Some _ => if recv_ok r then LOCKDOWN_E_SUCCESS else LOCKDOWN_E_UNKNOWN_ERROR
    | None => LOCKDOWN_E_PLIST_ERROR
    end.

Definition device_public_key_request (c : lockdownd_client) : plist_t :=
  plist_dict_insert_item
    (plist_dict_insert_item (plist_dict_add_label plist_new_dict (label c))
       "Key" (PLIST_STRING "DevicePublicKey"))
    "Request" (PLIST_STRING "GetValue").

Definition pair_request (c : lockdownd_client) (g : pair_certs) (h verb : string) : plist_t :=
  plist_dict_insert_item
    (plist_dict_insert_item (plist_dict_add_label plist_new_dict (label c))
       "PairRecord"
       (PLIST_DICT [("DeviceCertificate", plist_new_data (device_cert g));
                    ("HostCertificate", plist_new_data (host_cert g));
                    ("HostID", PLIST_STRING h);
                    ("RootCertificate", plist_new_data (root_cert g))]))
    "Request" (PLIST_STRING verb).

Definition with_store (w : world) (u : userpref) : world :=
  {| trace := trace w; send_results := send_results w; incoming := incoming w;
     handshakes := handshakes w; free_results := free_results w; store := u |}.

(** Whether the reply carries the given string under "Error". *)
Definition error_is (reply : plist_t) (s : string) : bool :=
  match plist_dict_get_item (Some reply) "Error" with
  | Some (PLIST_STRING v) => String.eqb v s
  | _ => false
  end.

Definition ok_reply (d : plist_t) : recv_outcome :=
  {| recv_ok := true; recv_plist := Some d |}.

Definition query_type_request (c : lockdownd_client) : plist_t :=
  plist_dict_insert_item (plist_dict_add_label plist_new_dict (label c))
    "Request" (PLIST_STRING "QueryType").

Definition stop_session_request (c : lockdownd_client) (s : string) : plist_t :=
  plist_dict_insert_item
    (plist_dict_insert_item (plist_dict_add_label plist_new_dict (label c))
       "Request" (PLIST_STRING "StopSession"))
    "SessionID" (PLIST_STRING s).

Definition after_emit (e : event) (w : world) : world :=
  {| trace := trace w ++ [e]; send_results := send_results w; incoming := incoming w;
     handshakes := handshakes w; free_results := free_results w; store := store w |}.

Definition goodbye_request (c : lockdownd_client) : plist_t :=
  plist_dict_insert_item (plist_dict_add_label plist_new_dict (label c))
    "Request" (PLIST_STRING "Goodbye").

Definition after_free (w : world) : world :=
  {| trace := trace w ++ [EvClose]; send_results := send_results w; incoming := incoming w;
     handshakes := handshakes w; free_results := tail (free_results w); store := store w |}.

Definition sizes_sum (chunks : list (list byte)) : Z :=
  fold_right (fun chunk n => datum_size chunk + n) 0 chunks.

(** A call of [iphone_device_recv] that succeeds and stores the chunk. *)
Definition delivered (chunk : list byte) : device_recv_t :=
  {| recv_res := 0; recv_bytes := chunk |}.

(** The request of a verb that takes no field. *)
Definition simple_request (c : lockdownd_client) (verb : string) : plist_t :=
  plist_dict_insert_item (plist_dict_add_label plist_new_dict (label c))
    "Request" (PLIST_STRING verb).

(** The request of GetValue and RemoveValue, and the head of SetValue's. *)
Definition value_request (c : lockdownd_client) (verb : string) (domain key : option string)
    : plist_t :=
  plist_dict_insert_item
    (add_optional_string
       (add_optional_string (plist_dict_add_label plist_new_dict (label c)) "Domain" domain)
       "Key" key)
    "Request" (PLIST_STRING verb).

Definition start_session_request (c : lockdownd_client) (h : string) : plist_t :=
  plist_dict_insert_item
    (plist_dict_insert_item (plist_dict_add_label plist_new_dict (label c))
       "HostID" (PLIST_STRING h))
    "Request" (PLIST_STRING "StartSession").

Definition start_service_request (c : lockdownd_client) (svc : string) : plist_t :=
  plist_dict_insert_item
    (plist_dict_insert_item (plist_dict_add_label plist_new_dict (label c))
       "Request" (PLIST_STRING "StartService"))
    "Service" (PLIST_STRING svc).

Definition activate_request (c : lockdownd_client) (record : plist_t) : plist_t :=
  plist_dict_insert_item (simple_request c "Activate") "ActivationRecord" record.

(** The property list is a request for the verb and carries the label,
    if there is one. *)
Definition request_of (p : plist_t) (verb : string) (lbl : option string) : Prop :=
  plist_dict_get_item (Some p) "Request" = Some (PLIST_STRING verb) /\
  plist_dict_get_item (Some p) "Label" = PLIST_STRING <$> lbl.

(** The run has a result, and what it put on the connection is one
    frame: a request for the verb, with the client's label, encrypted
    exactly when the client has TLS enabled. *)
Definition sends_one {A : Type} (run : option (A * world)) (c : lockdownd_client)
    (w : world) (verb : string) : Prop :=
  exists r w' p,
    run = Some (r, w') /\
    trace w' = (trace w ++ [EvSend (ssl_enabled c) p])%list /\
    request_of p verb (label c).

Definition with_sends (w : world) (sends : list bool) : world :=
  {| trace := trace w; send_results := sends; incoming := incoming w;
     handshakes := handshakes w; free_results := free_results w; store := store w |}.

Definition after_handshake (w : world) : world :=
  {| trace := trace w ++ [EvHandshake]; send_results := send_results w;
     incoming := incoming w; handshakes := tail (handshakes w);
     free_results := free_results w; store := store w |}.

(** The client once [lockdownd_ssl_start_session] has set up its
    GnuTLS session and credentials. *)
Definition tls_allocated (c : lockdownd_client) : lockdownd_client :=
  {| ssl_session := HANDLE_LIVE; ssl_certificate := HANDLE_LIVE; ssl_enabled := ssl_enabled c;
     session_id := session_id c; uuid := uuid c; label := label c |}.

Definition is_live (h : gnutls_handle) : bool :=
  match h with HANDLE_LIVE => true | _ => false end.

Definition is_released (h : gnutls_handle) : bool :=
  match h with HANDLE_RELEASED => true | _ => false end.

(** The GnuTLS objects of the client can be torn down: neither was
    released before, and the session is live when TLS is on. *)
Definition handles_intact (c : lockdownd_client) : bool :=
  negb (is_released (ssl_session c)) && negb (is_released (ssl_certificate c))
  && (negb (ssl_enabled c) || is_live (ssl_session c)).

(** TLS is on only with a live GnuTLS session. *)
Definition tls_on_is_live (c : lockdownd_client) : Prop :=
  ssl_enabled c = true -> ssl_session c = HANDLE_LIVE.

(** What a pointer of the client holds after the teardown. *)
Definition after_release (h : gnutls_handle) : gnutls_handle :=
  match h with HANDLE_NULL => HANDLE_NULL | _ => HANDLE_RELEASED end.

(** The client as [lockdownd_ssl_stop_session] leaves it. *)
Definition tls_stopped (c : lockdownd_client) : lockdownd_client :=
  {| ssl_session := after_release (ssl_session c);
     ssl_certificate := after_release (ssl_certificate c);
     ssl_enabled := false; session_id := None; uuid := uuid c; label := label c |}.

(** The host id a pairing verb puts in its request. *)
Definition host_id_for (hid : option string) (u : userpref) : option string :=
  match hid with Some x => Some x | None => userpref_get_host_id u end.

(** What the answer to StartSession asks for under EnableSessionSSL. *)
Definition wants_ssl (reply : plist_t) : bool :=
  match plist_dict_get_item (Some reply) "EnableSessionSSL" with
  | Some (PLIST_BOOLEAN b) => b
  | _ => false
  end.

(** ** Concrete devices, stores and replies for the examples *)

Definition demo_pki : pki :=
  {| pem_base64_decode := fun pem => Some pem;
     rsa_public_key_decode := fun der => Some (der, der);
     privkey_import_rsa_raw := fun _ _ => true;
     userpref_get_keys_and_certs := fun _ => USERPREF_E_SUCCESS;
     sign_device_cert := fun _ modulus _ => modulus;
     userpref_get_certs_as_pem := fun _ => (USERPREF_E_SUCCESS, ([], [])) |}.

Definition demo_key : list byte := list_byte_of_string "RSA PUBLIC KEY".

Definition demo_client : lockdownd_client :=
  {| ssl_session := HANDLE_NULL; ssl_certificate := HANDLE_NULL; ssl_enabled := false;
     session_id := None; uuid := Some "1111-2222"; label := None |}.

Definition demo_store : userpref :=
  {| host_id := Some "HOST-1"; device_public_keys := ∅ |}.

Definition empty_store : userpref :=
  {| host_id := None; device_public_keys := ∅ |}.

Definition script (sends : list bool) (replies : list recv_outcome) (u : userpref) : world :=
  {| trace := []; send_results := sends; incoming := replies;
     handshakes := []; free_results := []; store := u |}.

Definition reply_of (request : string) (result : string) (fields : list (string * plist_t))
    : plist_t :=
  PLIST_DICT (("Request", PLIST_STRING request) :: ("Result", PLIST_STRING result) :: fields).

Definition key_reply : plist_t :=
  reply_of "GetValue" "Success" [("Value", PLIST_DATA demo_key)].

Definition refused_reply (verb error : string) : plist_t :=
  reply_of verb "Failure" [("Error", PLIST_STRING error)].

Definition session_client : lockdownd_client :=
  {| ssl_session := HANDLE_NULL; ssl_certificate := HANDLE_NULL; ssl_enabled := false;
     session_id := Some "S1"; uuid := Some "1111-2222"; label := None |}.

Definition port_reply (n : Z) : plist_t :=
  reply_of "StartService" "Success" [("Port", PLIST_UINT n)].

Definition stray_reply : plist_t := reply_of "GetValue" "Success" [].

Definition tls_client : lockdownd_client :=
  {| ssl_session := HANDLE_LIVE; ssl_certificate := HANDLE_LIVE; ssl_enabled := true;
     session_id := Some "S1"; uuid := Some "1111-2222"; label := None |}.

Definition session_reply (sid : string) (use_ssl : bool) : plist_t :=
  reply_of "StartSession" "Success"
    [("SessionID", PLIST_STRING sid); ("EnableSessionSSL", PLIST_BOOLEAN use_ssl)].

Definition handshake_failure_world : world :=
  {| trace := []; send_results := [true]; incoming := [ok_reply (session_reply "S1" true)];
     handshakes := [false]; free_results := []; store := demo_store |}.

Definition bare_session_reply : plist_t := reply_of "StartSession" "Success" [].

Definition demo_device : iphone_device :=
  {| connectable := true; device_get_uuid := (LOCKDOWN_E_SUCCESS, Some "1111-2222") |}.

Definition new_client : lockdownd_client :=
  {| ssl_session := HANDLE_NULL; ssl_certificate := HANDLE_NULL; ssl_enabled := false;
     session_id := None; uuid := None; label := None |}.

Definition query_type_reply : plist_t :=
  reply_of "QueryType" "Success" [("Type", PLIST_STRING "com.apple.mobile.lockdown")].

(** The device refuses Pair and then ValidatePair with the given errors. *)
Definition locked_device_world (pair_error validate_error : string) : world :=
  script [true; true; true; true; true; true]
    [ok_reply query_type_reply;
     ok_reply key_reply; ok_reply (refused_reply "Pair" pair_error);
     ok_reply key_reply; ok_reply (refused_reply "ValidatePair" validate_error)]
    demo_store.

(** The device refuses Pair, then accepts ValidatePair and StartSession. *)
Definition relenting_device_world : world :=
  script [true; true; true; true; true; true]
    [ok_reply query_type_reply;
     ok_reply key_reply; ok_reply (refused_reply "Pair" "PasswordProtected");
     ok_reply key_reply; ok_reply (reply_of "ValidatePair" "Success" []);
     ok_reply (session_reply "S1" false)]
    demo_store.

(** GnuTLS does not take the raw key. *)
Definition refusing_pki : pki :=
  {| pem_base64_decode := fun pem => Some pem;
     rsa_public_key_decode := fun der => Some (der, der);
     privkey_import_rsa_raw := fun _ _ => false;
     userpref_get_keys_and_certs := fun _ => USERPREF_E_SUCCESS;
     sign_device_cert := fun _ modulus _ => modulus;
     userpref_get_certs_as_pem := fun _ => (USERPREF_E_SUCCESS, ([], [])) |}.

Definition paired_store : userpref :=
  {| host_id := Some "HOST-1"; device_public_keys := {["1111-2222" := demo_key]} |}.

(** A device that answers the handshake of a host it knows, and asks
    for TLS or not. *)
Definition known_device_world (use_ssl : bool) : world :=
  {| trace := []; send_results := [true; true; true; true];
     incoming := [ok_reply query_type_reply; ok_reply key_reply;
                  ok_reply (reply_of "ValidatePair" "Success" []);
                  ok_reply (session_reply "S1" use_ssl)];
     handshakes := [true]; free_results := [true]; store := paired_store |}.

(** A device that answers the handshake of a host it does not know. *)
Definition fresh_device_world (use_ssl : bool) : world :=
  {| trace := []; send_results := [true; true; true; true; true; true];
     incoming := [ok_reply query_type_reply;
                  ok_reply key_reply; ok_reply (reply_of "Pair" "Success" []);
                  ok_reply key_reply; ok_reply (reply_of "ValidatePair" "Success" []);
                  ok_reply (session_reply "S1" use_ssl)];
     handshakes := [true]; free_results := [true]; store := demo_store |}.

(** A device that accepts ValidatePair and refuses StartSession. *)
Definition refusing_session_world (error : string) : world :=
  {| trace := []; send_results := [true; true; true; true; true];
     incoming := [ok_reply query_type_reply; ok_reply key_reply;
                  ok_reply (reply_of "ValidatePair" "Success" []);
                  ok_reply (refused_reply "StartSession" error)];
     handshakes := []; free_results := [true]; store := paired_store |}.

Definition tls_session_world : world :=
  {| trace := []; send_results := [true]; incoming := [ok_reply (session_reply "S1" true)];
     handshakes := [true]; free_results := []; store := demo_store |}.

(** GnuTLS does not take the key of the device as PEM. *)
Definition undecodable_pki : pki :=
  {| pem_base64_decode := fun _ => None;
     rsa_public_key_decode := fun der => Some (der, der);
     privkey_import_rsa_raw := fun _ _ => true;
     userpref_get_keys_and_certs := fun _ => USERPREF_E_SUCCESS;
     sign_device_cert := fun _ modulus _ => modulus;
     userpref_get_certs_as_pem := fun _ => (USERPREF_E_SUCCESS, ([], [])) |}.

(** The DER bytes of the key are no RSA public key. *)
Definition garbled_pki : pki :=
  {| pem_base64_decode := fun pem => Some pem;
     rsa_public_key_decode := fun _ => None;
     privkey_import_rsa_raw := fun _ _ => true;
     userpref_get_keys_and_certs := fun _ => USERPREF_E_SUCCESS;
     sign_device_cert := fun _ modulus _ => modulus;
     userpref_get_certs_as_pem := fun _ => (USERPREF_E_SUCCESS, ([], [])) |}.

(** A client in a plain session whose TLS objects were released when an
    earlier TLS session was stopped. *)
Definition restarted_client : lockdownd_client :=
  {| ssl_session := HANDLE_RELEASED; ssl_certificate := HANDLE_RELEASED; ssl_enabled := false;
     session_id := Some "S2"; uuid := Some "1111-2222"; label := None |}.

(** * Properties *)

#[local] Arguments String.eqb : simpl never.
#[local] Arguments lockdown_check_result : simpl never.
#[local] Arguments plist_dict_get_item : simpl never.
#[local] Arguments lockdownd_gen_pair_cert : simpl never.
#[local] Arguments Z.eqb : simpl never.

Ltac reduce_with H := unfold ret; repeat (progress (simpl; rewrite ?H)).

(** ** One send, one receive *)

Lemma lockdownd_send_eq (c : lockdownd_client) (p : plist_t) (w : world) :
  lockdownd_send c p w =
  Some (send_code c (script_head false (send_results w)), after_send (ssl_enabled c) p w).
Proof.
  unfold lockdownd_send, send_code, bind, ret, property_list_service_send, after_send.
  destruct (ssl_enabled c); simpl; destruct (script_head false (send_results w)); reflexivity.
Qed.

Lemma lockdownd_recv_eq (c : lockdownd_client) (w : world) :
  lockdownd_recv c w =
  Some ((recv_code c (script_head no_reply (incoming w)),
         recv_plist (script_head no_reply (incoming w))), after_recv w).
Proof.
  unfold lockdownd_recv, recv_code, bind, ret, property_list_service_receive, after_recv.
  simpl. destruct (ssl_enabled c); simpl.
  - destruct (recv_ok _); simpl; [destruct (recv_plist _)|]; reflexivity.
  - destruct (recv_plist _); reflexivity.
Qed.

Lemma recv_code_success (c : lockdownd_client) (r : recv_outcome) :
  is_success (recv_code c r) = true ->
  exists d, r = {| recv_ok := true; recv_plist := Some d |}.
Proof.
  unfold recv_code. destruct r as [ok [d|]]; simpl;
    destruct (ssl_enabled c), ok; simpl; try discriminate; eauto.
Qed.

Lemma script_head_cons {A : Type} (dflt x : A) (l : list A) :
  script_head dflt l = x -> x <> dflt -> exists rest, l = x :: rest.
Proof.
  destruct l as [|y rest]; simpl; intros H Hne; [congruence|].
  subst. eauto.
Qed.

Lemma is_success_true (e : lockdownd_error_t) :
  is_success e = true -> e = LOCKDOWN_E_SUCCESS.
Proof. destruct e; simpl; congruence. Qed.

(** The reply that a successful receive consumed. *)
Lemma recv_success_reply (c : lockdownd_client) (w : world) :
  is_success (recv_code c (script_head no_reply (incoming w))) = true ->
  exists d rest,
    incoming w = {| recv_ok := true; recv_plist := Some d |} :: rest /\
    incoming (after_recv w) = rest.
Proof.
  intros H. destruct (recv_code_success _ _ H) as [d Hd].
  destruct (script_head_cons _ _ _ Hd) as [rest Hrest]; [discriminate|].
  exists d, rest. split; [assumption|]. simpl. rewrite Hrest. reflexivity.
Qed.

(** ** What each operation does with one exchange *)

Lemma get_value_eq (c : lockdownd_client) (domain key : option string) (w : world) :
  lockdownd_get_value c domain key w =
  let w1 := after_send (ssl_enabled c) (value_request c "GetValue" domain key) w in
  let r := script_head no_reply (incoming w) in
  if script_head false (send_results w)
  then Some (if is_success (recv_code c r)
             then (LOCKDOWN_E_SUCCESS, plist_dict_get_item (recv_plist r) "Value")
             else (recv_code c r, None), after_recv w1)
  else Some ((send_code c false, None), w1).
Proof.
  unfold lockdownd_get_value, bind. rewrite lockdownd_send_eq.
  destruct (script_head false (send_results w)); simpl.
  - rewrite lockdownd_recv_eq. simpl.
    destruct (is_success (recv_code c _)) eqn:Hr; simpl; [|reflexivity].
    apply is_success_true in Hr. rewrite Hr.
    destruct (_ =? _)%Z; reflexivity.
  - unfold send_code. destruct (ssl_enabled c); reflexivity.
Qed.

Lemma set_value_eq (c : lockdownd_client) (domain key : option string) (value : plist_t)
    (w : world) :
  lockdownd_set_value c domain key value w =
  let w1 := after_send (ssl_enabled c)
              (plist_dict_insert_item (value_request c "SetValue" domain key) "Value" value)
              w in
  let r := script_head no_reply (incoming w) in
  if script_head false (send_results w)
  then Some (if is_success (recv_code c r) then LOCKDOWN_E_SUCCESS else recv_code c r,
             after_recv w1)
  else Some (send_code c false, w1).
Proof.
  unfold lockdownd_set_value, bind. rewrite lockdownd_send_eq.
  destruct (script_head false (send_results w)); simpl.
  - rewrite lockdownd_recv_eq. simpl.
    destruct (is_success (recv_code c _)) eqn:Hr; simpl; [|reflexivity].
    apply is_success_true in Hr. rewrite Hr.
    destruct (_ =? _)%Z; reflexivity.
  - unfold send_code. destruct (ssl_enabled c); reflexivity.
Qed.

Lemma remove_value_eq (c : lockdownd_client) (domain key : option string) (w : world) :
  lockdownd_remove_value c domain key w =
  let w1 := after_send (ssl_enabled c) (value_request c "RemoveValue" domain key) w in
  let r := script_head no_reply (incoming w) in
  if script_head false (send_results w)
  then Some (if is_success (recv_code c r) then LOCKDOWN_E_SUCCESS else recv_code c r,
             after_recv w1)
  else Some (send_code c false, w1).
Proof.
  unfold lockdownd_remove_value, bind. rewrite lockdownd_send_eq.
  destruct (script_head false (send_results w)); simpl.
  - rewrite lockdownd_recv_eq. simpl.
    destruct (is_success (recv_code c _)) eqn:Hr; simpl; [|reflexivity].
    apply is_success_true in Hr. rewrite Hr.
    destruct (_ =? _)%Z; reflexivity.
  - unfold send_code. destruct (ssl_enabled c); reflexivity.
Qed.

Lemma goodbye_eq (c : lockdownd_client) (w : world) :
  lockdownd_goodbye c w =
  let r := script_head no_reply (incoming w) in
  Some (match recv_plist r with
        | None => LOCKDOWN_E_PLIST_ERROR
        | Some _ =>
            if Z.eqb (lockdown_check_result (recv_plist r) "Goodbye") RESULT_SUCCESS
            then LOCKDOWN_E_SUCCESS else recv_code c r
        end, after_recv (after_send (ssl_enabled c) (simple_request c "Goodbye") w)).
Proof.
  unfold lockdownd_goodbye, bind. rewrite lockdownd_send_eq, lockdownd_recv_eq. simpl.
  destruct (recv_plist (script_head no_reply (incoming w))); [|reflexivity].
  destruct (_ =? _)%Z; reflexivity.
Qed.

Lemma enter_recovery_eq (c : lockdownd_client) (w : world) :
  lockdownd_enter_recovery c w =
  let r := script_head no_reply (incoming w) in
  Some (if Z.eqb (lockdown_check_result (recv_plist r) "EnterRecovery") RESULT_SUCCESS
        then LOCKDOWN_E_SUCCESS else recv_code c r,
        after_recv (after_send (ssl_enabled c) (simple_request c "EnterRecovery") w)).
Proof.
  unfold lockdownd_enter_recovery, bind, ret.
  rewrite lockdownd_send_eq, lockdownd_recv_eq. reflexivity.
Qed.

Lemma deactivate_eq (c : lockdownd_client) (sid : string) (w : world) :
  session_id c = Some sid ->
  lockdownd_deactivate c w =
  let r := script_head no_reply (incoming w) in
  Some (match recv_plist r with
        | None => LOCKDOWN_E_PLIST_ERROR
        | Some _ =>
            if Z.eqb (lockdown_check_result (recv_plist r) "Deactivate") RESULT_SUCCESS
            then LOCKDOWN_E_SUCCESS else LOCKDOWN_E_UNKNOWN_ERROR
        end, after_recv (after_send (ssl_enabled c) (simple_request c "Deactivate") w)).
Proof.
  intros Hs. unfold lockdownd_deactivate, bind. rewrite Hs.
  rewrite lockdownd_send_eq, lockdownd_recv_eq. simpl.
  destruct (recv_plist (script_head no_reply (incoming w))); [|reflexivity].
  destruct (_ =? _)%Z; reflexivity.
Qed.

Lemma activate_eq (c : lockdownd_client) (sid : string) (record : plist_t) (w : world) :
  session_id c = Some sid ->
  lockdownd_activate c (Some record) w =
  let r := script_head no_reply (incoming w) in
  Some (match recv_plist r with
        | None => LOCKDOWN_E_PLIST_ERROR
        | Some _ =>
            if Z.eqb (lockdown_check_result (recv_plist r) "Activate") RESULT_SUCCESS
            then LOCKDOWN_E_SUCCESS else LOCKDOWN_E_ACTIVATION_FAILED
        end, after_recv (after_send (ssl_enabled c) (activate_request c record) w)).
Proof.
  intros Hs. unfold lockdownd_activate, bind. rewrite Hs.
  rewrite lockdownd_send_eq, lockdownd_recv_eq. simpl.
  destruct (recv_plist (script_head no_reply (incoming w))); [|reflexivity].
  destruct (_ =? _)%Z; reflexivity.
Qed.

Lemma send_code_false_not_success (c : lockdownd_client) :
  is_success (send_code c false) = false.
Proof. unfold send_code. destruct (ssl_enabled c); reflexivity. Qed.

(** ** The two exchanges of a pairing verb *)

Lemma recv_code_ok (c : lockdownd_client) (d : plist_t) :
  recv_code c (ok_reply d) = LOCKDOWN_E_SUCCESS.
Proof. unfold recv_code. simpl. destruct (ssl_enabled c); reflexivity. Qed.

Lemma get_device_public_key_exchange (c : lockdownd_client) (w : world)
    (d1 : plist_t) (ss : list bool) (rs : list recv_outcome) :
  send_results w = true :: ss ->
  incoming w = ok_reply d1 :: rs ->
  lockdownd_get_device_public_key c w =
  Some ((LOCKDOWN_E_SUCCESS,
         plist_get_data_val (plist_dict_get_item (Some d1) "Value") None),
        after_recv (after_send (ssl_enabled c) (device_public_key_request c) w)).
Proof.
  intros Hs Hr.
  unfold lockdownd_get_device_public_key, lockdownd_get_value, bind.
  rewrite lockdownd_send_eq, Hs. simpl.
  rewrite lockdownd_recv_eq. simpl. rewrite Hr. simpl.
  fold (ok_reply d1). rewrite recv_code_ok. simpl.
  destruct (_ =? _)%Z; reflexivity.
Qed.

(** The codes [lockdownd_gen_pair_cert] can return, and what a success
    of it needs. *)
Lemma gen_pair_cert_code (E : pki) (public_key : option (list byte)) (u : userpref)
    (e : lockdownd_error_t) (g : pair_certs) :
  lockdownd_gen_pair_cert E public_key u = Some (e, g) ->
  e <> LOCKDOWN_E_PLIST_ERROR /\
  (e = LOCKDOWN_E_SUCCESS -> exists pem, public_key = Some pem).
Proof.
  unfold lockdownd_gen_pair_cert.
  destruct public_key as [pem|].
  2: { intros H. injection H as <- _. split; [discriminate|]. discriminate. }
  intros H. split; [|eauto].
  destruct (pem_base64_decode E pem) as [der|]; [|discriminate].
  destruct (rsa_public_key_decode E der) as [[modulus exponent]|].
  2: { injection H as <- _. discriminate. }
  destruct (_ && _).
  2: { injection H as <- _. discriminate. }
  destruct (privkey_import_rsa_raw E modulus exponent).
  2: { injection H as <- _. discriminate. }
  destruct (userpref_get_keys_and_certs E u);
    try (injection H as <- _; discriminate).
  destruct (fst (userpref_get_certs_as_pem E u));
    injection H as <- _; discriminate.
Qed.

Lemma gen_pair_cert_undefined (E : pki) (public_key : option (list byte)) (u : userpref) :
  lockdownd_gen_pair_cert E public_key u = None <->
  exists pem, public_key = Some pem /\ pem_base64_decode E pem = None.
Proof.
  unfold lockdownd_gen_pair_cert. split.
  - destruct public_key as [pem|]; [|discriminate].
    destruct (pem_base64_decode E pem) as [der|] eqn:Hd; [|eauto].
    destruct (rsa_public_key_decode E der) as [[modulus exponent]|]; [|discriminate].
    destruct (_ && _); [|discriminate].
    destruct (privkey_import_rsa_raw E modulus exponent); [|discriminate].
    destruct (userpref_get_keys_and_certs E u); try discriminate.
    destruct (fst (userpref_get_certs_as_pem E u)); discriminate.
  - intros (pem & -> & ->). reflexivity.
Qed.

(** What a pairing verb does once the device has sent a key. *)
Lemma do_pair_eq (E : pki) (c : lockdownd_client) (hid : option string) (verb : string)
    (w : world) (d1 : plist_t) (key : list byte) (ss : list bool) (rs : list recv_outcome) :
  send_results w = true :: ss ->
  incoming w = ok_reply d1 :: rs ->
  plist_get_data_val (plist_dict_get_item (Some d1) "Value") None = Some key ->
  let w1 := after_recv (after_send (ssl_enabled c) (device_public_key_request c) w) in
  lockdownd_do_pair E c hid verb w =
  match lockdownd_gen_pair_cert E (Some key) (store w) with
  | None => None
  | Some (e, g) =>
      if negb (is_success e) then Some (e, w1)
      else
        match host_id_for hid (store w) with
        | None => None
        | Some h =>
            let w2 := after_send (ssl_enabled c) (pair_request c g h verb) w1 in
            let r := script_head no_reply rs in
            if negb (script_head false ss) then Some (send_code c false, w2)
            else if negb (is_success (recv_code c r)) then Some (recv_code c r, after_recv w2)
            else if Z.eqb (lockdown_check_result (recv_plist r) verb) RESULT_SUCCESS
            then Some (LOCKDOWN_E_SUCCESS,
                       with_store (after_recv w2)
                         (if String.eqb "Unpair" verb
                          then userpref_remove_device_public_key (store w) (uuid c)
                          else userpref_set_device_public_key (store w) (uuid c) key))
            else Some (match recv_plist r with
                       | Some reply =>
                           if error_is reply "PasswordProtected"
                           then LOCKDOWN_E_PASSWORD_PROTECTED
                           else LOCKDOWN_E_PAIRING_FAILED
                       | None => LOCKDOWN_E_PAIRING_FAILED
                       end, after_recv w2)
        end
  end.
Proof.
  intros Hs Hr Hkey w1. subst w1.
  unfold lockdownd_do_pair, bind.
  rewrite (get_device_public_key_exchange c w d1 ss rs Hs Hr).
  rewrite Hkey. unfold get_store. simpl.
  destruct (lockdownd_gen_pair_cert E (Some key) (store w)) as [[e g]|]; [|reflexivity].
  unfold ret at 1. cbn [fst snd].
  destruct (is_success e) eqn:He; cbn [negb]; [|reflexivity].
  unfold host_id_for.
  destruct (match hid with Some x => Some x | None => userpref_get_host_id (store w) end)
    as [h|]; [|reflexivity].
  simpl. rewrite lockdownd_send_eq. simpl. rewrite Hs. simpl.
  destruct (script_head false ss) eqn:Hs2.
  2: { cbn [negb]. rewrite send_code_false_not_success. reflexivity. }
  simpl. rewrite lockdownd_recv_eq. simpl. rewrite Hr. simpl.
  destruct (is_success (recv_code c (script_head no_reply rs))) eqn:Hrc; simpl; [|reflexivity].
  apply is_success_true in Hrc. rewrite Hrc.
  destruct (_ =? RESULT_SUCCESS)%Z; simpl.
  - destruct ("Unpair" =? verb); reflexivity.
  - unfold error_is.
    destruct (recv_plist (script_head no_reply rs)) as [reply|]; [|reflexivity].
    destruct (plist_dict_get_item (Some reply) "Error") as [[]|]; simpl; try reflexivity.
    destruct (_ =? "PasswordProtected"); reflexivity.
Qed.

Lemma do_pair_exchange (E : pki) (c : lockdownd_client) (hid : option string)
    (verb : string) (w : world) (h : string) (d1 reply : plist_t) (key : list byte)
    (g : pair_certs) (ss : list bool) (rs : list recv_outcome) :
  send_results w = true :: true :: ss ->
  incoming w = ok_reply d1 :: ok_reply reply :: rs ->
  plist_get_data_val (plist_dict_get_item (Some d1) "Value") None = Some key ->
  lockdownd_gen_pair_cert E (Some key) (store w) = Some (LOCKDOWN_E_SUCCESS, g) ->
  match hid with Some x => Some x | None => userpref_get_host_id (store w) end = Some h ->
  let w2 := after_recv
              (after_send (ssl_enabled c) (pair_request c g h verb)
                 (after_recv (after_send (ssl_enabled c) (device_public_key_request c) w))) in
  lockdownd_do_pair E c hid verb w =
  if Z.eqb (lockdown_check_result (Some reply) verb) RESULT_SUCCESS
  then Some (LOCKDOWN_E_SUCCESS,
             with_store w2
               (if String.eqb "Unpair" verb
                then userpref_remove_device_public_key (store w) (uuid c)
                else userpref_set_device_public_key (store w) (uuid c) key))
  else Some (if error_is reply "PasswordProtected"
             then LOCKDOWN_E_PASSWORD_PROTECTED
             else LOCKDOWN_E_PAIRING_FAILED, w2).
Proof.
  intros Hs Hr Hkey Hg Hh w2. subst w2.
  rewrite (do_pair_eq E c hid verb w d1 key (true :: ss) (ok_reply reply :: rs) Hs Hr Hkey).
  cbv zeta. rewrite Hg. unfold host_id_for. rewrite Hh.
  cbn [is_success negb script_head]. rewrite recv_code_ok.
  cbn [is_success negb ok_reply recv_plist]. reflexivity.
Qed.

(** ** The pairing verbs and the trust store *)

Lemma script_head_true (l : list bool) :
  script_head false l = true -> exists rest, l = true :: rest.
Proof. intros H. apply (script_head_cons false true l H). discriminate. Qed.

(** A pairing verb whose GetValue exchange fails returns the error of
    that exchange. *)
Lemma do_pair_key_failure (E : pki) (c : lockdownd_client) (hid : option string)
    (verb : string) (w : world) (e : lockdownd_error_t) (key : option (list byte))
    (w1 : world) :
  lockdownd_get_device_public_key c w = Some ((e, key), w1) ->
  e <> LOCKDOWN_E_SUCCESS ->
  lockdownd_do_pair E c hid verb w = Some (e, w1) /\ store w1 = store w.
Proof.
  intros Hk He.
  assert (Hf : is_success e = false) by (destruct e; try reflexivity; congruence).
  split.
  - unfold lockdownd_do_pair, bind. rewrite Hk. cbn [fst snd]. rewrite Hf. reflexivity.
  - unfold lockdownd_get_device_public_key, bind in Hk.
    rewrite get_value_eq in Hk. cbv zeta in Hk.
    destruct (script_head false (send_results w)).
    + destruct (is_success (recv_code c _)); cbn [fst snd is_success negb] in Hk.
      * unfold ret in Hk. injection Hk as <- _ _. congruence.
      * destruct (is_success (recv_code c _)); unfold ret in Hk; cbn [negb] in Hk;
          injection Hk as _ _ <-; reflexivity.
    + cbn [fst snd] in Hk. rewrite send_code_false_not_success in Hk.
      unfold ret in Hk. injection Hk as _ _ <-. reflexivity.
Qed.

(** A pairing verb for whose key no certificates are made returns the
    error of [lockdownd_gen_pair_cert] after the GetValue exchange, and
    has no result when that call has none. *)
Lemma do_pair_cert_failure (E : pki) (c : lockdownd_client) (hid : option string)
    (verb : string) (w : world) (d1 : plist_t) (ss : list bool) (rs : list recv_outcome) :
  send_results w = true :: ss ->
  incoming w = ok_reply d1 :: rs ->
  let key := plist_get_data_val (plist_dict_get_item (Some d1) "Value") None in
  match lockdownd_gen_pair_cert E key (store w) with
  | None => lockdownd_do_pair E c hid verb w = None
  | Some (e, g) =>
      e <> LOCKDOWN_E_SUCCESS ->
      lockdownd_do_pair E c hid verb w =
      Some (e, after_recv (after_send (ssl_enabled c) (device_public_key_request c) w))
  end.
Proof.
  intros Hs Hr key. subst key.
  unfold lockdownd_do_pair, bind.
  rewrite (get_device_public_key_exchange c w d1 ss rs Hs Hr).
  unfold get_store. simpl.
  destruct (lockdownd_gen_pair_cert E _ (store w)) as [[e g]|]; [|reflexivity].
  intros He. unfold ret at 1. cbn [fst snd].
  destruct e; try reflexivity. congruence.
Qed.



(** Pair and then Unpair, both accepted by the device: the key that
    Pair stored is gone. *)
Example pair_then_unpair :
  match lockdownd_do_pair demo_pki demo_client None "Pair"
          (script [true; true; true; true]
             [ok_reply key_reply; ok_reply (reply_of "Pair" "Success" []);
              ok_reply key_reply; ok_reply (reply_of "Unpair" "Success" [])]
             demo_store) with
  | Some (e1, w1) =>
      e1 = LOCKDOWN_E_SUCCESS /\
      device_public_keys (store w1) !! "1111-2222" = Some demo_key /\
      match lockdownd_do_pair demo_pki demo_client None "Unpair" w1 with
      | Some (e2, w2) =>
          e2 = LOCKDOWN_E_SUCCESS /\ device_public_keys (store w2) !! "1111-2222" = None
      | None => False
      end
  | None => False
  end.
Proof. vm_compute. repeat split. Qed.

(** ** The error of a refused pairing verb *)

(** C3, as the code has it.  When the request of a pairing verb is
    answered with Result=Failure, the call returns PasswordProtected if
    the answer's Error is the string "PasswordProtected" and
    PairingFailed otherwise, also when the Error is "InvalidHostID"; the
    store is as it was. *)
Theorem do_pair_failure_error (E : pki) (c : lockdownd_client) (hid : option string)
    (verb : string) (w : world) (h : string) (d1 reply : plist_t) (key : list byte)
    (g : pair_certs) (ss : list bool) (rs : list recv_outcome) :
  send_results w = true :: true :: ss ->
  incoming w = ok_reply d1 :: ok_reply reply :: rs ->
  plist_get_data_val (plist_dict_get_item (Some d1) "Value") None = Some key ->
  lockdownd_gen_pair_cert E (Some key) (store w) = Some (LOCKDOWN_E_SUCCESS, g) ->
  match hid with Some x => Some x | None => userpref_get_host_id (store w) end = Some h ->
  lockdown_check_result (Some reply) verb = RESULT_FAILURE ->
  exists w',
    lockdownd_do_pair E c hid verb w =
      Some (if error_is reply "PasswordProtected"
            then LOCKDOWN_E_PASSWORD_PROTECTED
            else LOCKDOWN_E_PAIRING_FAILED, w') /\
    (error_is reply "InvalidHostID" = true ->
     error_is reply "PasswordProtected" = false) /\
    store w' = store w.
Proof.
  intros Hs Hr Hkey Hg Hh Hc.
  pose proof (do_pair_exchange E c hid verb w h d1 reply key g ss rs Hs Hr Hkey Hg Hh) as Hx.
  simpl in Hx. rewrite Hc in Hx. change (RESULT_FAILURE =? RESULT_SUCCESS)%Z with false in Hx.
  eexists. split; [exact Hx|]. split; [|reflexivity].
  unfold error_is. destruct (plist_dict_get_item (Some reply) "Error") as [[]|]; try discriminate.
  intros Hi. apply String.eqb_eq in Hi. subst. reflexivity.
Qed.

Lemma do_pair_failure_error_witness :
  exists w',
    lockdownd_do_pair demo_pki demo_client None "Pair"
      (script [true; true]
         [ok_reply key_reply; ok_reply (refused_reply "Pair" "PasswordProtected")]
         demo_store) =
      Some (LOCKDOWN_E_PASSWORD_PROTECTED, w') /\
    store w' = demo_store.
Proof.
  destruct (do_pair_failure_error demo_pki demo_client None "Pair"
              (script [true; true]
                 [ok_reply key_reply; ok_reply (refused_reply "Pair" "PasswordProtected")]
                 demo_store)
              "HOST-1" key_reply (refused_reply "Pair" "PasswordProtected") demo_key
              {| device_cert := Some demo_key; host_cert := Some []; root_cert := Some [] |}
              [] [])
    as (w' & Hrun & _ & Hstore); try reflexivity.
  exists w'. split; [exact Hrun | exact Hstore].
Defined.

(** C3, as the claim has it, fails: a Pair refused with Error
    "InvalidHostID" returns PairingFailed. *)
Lemma do_pair_invalid_host_id_counterexample :
  lockdown_check_result (Some (refused_reply "Pair" "InvalidHostID")) "Pair" = RESULT_FAILURE /\
  fst <$> lockdownd_do_pair demo_pki demo_client None "Pair"
            (script [true; true]
               [ok_reply key_reply; ok_reply (refused_reply "Pair" "InvalidHostID")]
               demo_store) = Some LOCKDOWN_E_PAIRING_FAILED /\
  LOCKDOWN_E_PAIRING_FAILED <> LOCKDOWN_E_INVALID_HOST_ID.
Proof. split; [reflexivity|]. split; [vm_compute; reflexivity | discriminate]. Qed.

(** ** Commands that need a session *)

(** C4, as the code has it.  On a client without a session id,
    [lockdownd_activate] and [lockdownd_deactivate] return
    NoRunningSession, and so does [lockdownd_start_service] when it is
    given a service name and a port pointer and the store holds a host
    id; without a host id it returns InvalidConf, which it checks first.
    In every case the world is left as it was: nothing is sent. *)
Theorem no_session_no_request (c : lockdownd_client) (w : world)
    (svc : string) (port : Z) (record : option plist_t) :
  session_id c = None ->
  lockdownd_start_service c (Some svc) (Some port) w =
    Some ((match userpref_get_host_id (store w) with
           | Some _ => LOCKDOWN_E_NO_RUNNING_SESSION
           | None => LOCKDOWN_E_INVALID_CONF
           end, Some port), w) /\
  lockdownd_activate c record w = Some (LOCKDOWN_E_NO_RUNNING_SESSION, w) /\
  lockdownd_deactivate c w = Some (LOCKDOWN_E_NO_RUNNING_SESSION, w).
Proof.
  intros Hs.
  unfold lockdownd_start_service, lockdownd_activate, lockdownd_deactivate,
    bind, get_store, ret.
  rewrite Hs. destruct (userpref_get_host_id (store w)); auto.
Qed.

Lemma no_session_no_request_witness :
  lockdownd_start_service demo_client (Some "com.apple.afc") (Some 0)
    (script [true] [] demo_store) =
    Some ((LOCKDOWN_E_NO_RUNNING_SESSION, Some 0), script [true] [] demo_store) /\
  lockdownd_activate demo_client (Some plist_new_dict) (script [true] [] demo_store) =
    Some (LOCKDOWN_E_NO_RUNNING_SESSION, script [true] [] demo_store) /\
  lockdownd_deactivate demo_client (script [true] [] demo_store) =
    Some (LOCKDOWN_E_NO_RUNNING_SESSION, script [true] [] demo_store).
Proof.
  apply (no_session_no_request demo_client (script [true] [] demo_store)
           "com.apple.afc" 0 (Some plist_new_dict)).
  reflexivity.
Defined.

(** C4, as the claim has it, fails: without a host id in the store,
    [lockdownd_start_service] on a client without a session returns
    InvalidConf. *)
Lemma start_service_without_host_id_counterexample :
  session_id demo_client = None /\
  lockdownd_start_service demo_client (Some "com.apple.afc") (Some 0)
    (script [true] [] empty_store) =
    Some ((LOCKDOWN_E_INVALID_CONF, Some 0), script [true] [] empty_store) /\
  LOCKDOWN_E_INVALID_CONF <> LOCKDOWN_E_NO_RUNNING_SESSION.
Proof. split; [reflexivity|]. split; [reflexivity | discriminate]. Qed.

(** ** The port of a started service *)

Lemma start_service_exchange (c : lockdownd_client) (w : world) (svc sid h : string)
    (port : Z) (reply : plist_t) (ss : list bool) (rs : list recv_outcome) :
  session_id c = Some sid ->
  userpref_get_host_id (store w) = Some h ->
  send_results w = true :: ss ->
  incoming w = ok_reply reply :: rs ->
  exists w',
    lockdownd_start_service c (Some svc) (Some port) w =
    Some (if Z.eqb (lockdown_check_result (Some reply) "StartService") RESULT_SUCCESS
          then match plist_dict_get_item (Some reply) "Port" with
               | Some (PLIST_UINT n) =>
                   if Z.eqb (uint64_of n) 0 then (LOCKDOWN_E_UNKNOWN_ERROR, Some port)
                   else (LOCKDOWN_E_SUCCESS, Some (int_of_uint32 (uint32_of (uint64_of n))))
               | _ => (LOCKDOWN_E_UNKNOWN_ERROR, Some port)
               end
          else (LOCKDOWN_E_START_SERVICE_FAILED, Some port), w').
Proof.
  intros Hsid Hh Hs Hr.
  unfold lockdownd_start_service, bind, get_store. rewrite Hh, Hsid.
  rewrite lockdownd_send_eq, Hs. simpl.
  rewrite lockdownd_recv_eq. simpl. rewrite Hr. simpl.
  fold (ok_reply reply). rewrite recv_code_ok. simpl.
  eexists.
  destruct (_ =? RESULT_SUCCESS)%Z; [|reflexivity].
  destruct (plist_dict_get_item (Some reply) "Port") as [[]|]; try reflexivity.
  destruct (uint64_of n =? 0)%Z; reflexivity.
Qed.

Lemma port_fits (n : Z) :
  0 < n < 2 ^ 31 -> int_of_uint32 (uint32_of (uint64_of n)) = n /\ (uint64_of n =? 0)%Z = false.
Proof.
  intros Hn. unfold int_of_uint32, uint32_of, uint64_of.
  rewrite (Z.mod_small n (2 ^ 64)) by lia.
  rewrite (Z.mod_small n (2 ^ 32)) by lia.
  split; [|apply Z.eqb_neq; lia].
  destruct (Z.ltb_spec n (2 ^ 31)); lia.
Qed.

(** C5, as the code has it.  In a session, with a host id in the store,
    when the StartService request was sent and answered: a
    Result=Success answer with an unsigned integer Port that is not zero
    makes the call succeed, and the port it returns is the Port when
    that is below 2^31; a Result=Success answer with a zero Port, with
    no Port or with a Port of another type makes it return UnknownError;
    an answer that is not a Result=Success answer to StartService, so a
    Result=Failure answer, makes it return StartServiceFailed.  In the
    two failing cases the caller's port is left as it was. *)
Theorem start_service_port (c : lockdownd_client) (w : world) (svc sid h : string)
    (port : Z) (reply : plist_t) (ss : list bool) (rs : list recv_outcome) :
  session_id c = Some sid ->
  userpref_get_host_id (store w) = Some h ->
  send_results w = true :: ss ->
  incoming w = ok_reply reply :: rs ->
  exists r w',
    lockdownd_start_service c (Some svc) (Some port) w = Some (r, w') /\
    (lockdown_check_result (Some reply) "StartService" = RESULT_SUCCESS ->
     (forall n, plist_dict_get_item (Some reply) "Port" = Some (PLIST_UINT n) ->
                0 < n < 2 ^ 31 -> r = (LOCKDOWN_E_SUCCESS, Some n)) /\
     (forall n, plist_dict_get_item (Some reply) "Port" = Some (PLIST_UINT n) ->
                uint64_of n <> 0 -> fst r = LOCKDOWN_E_SUCCESS) /\
     (plist_dict_get_item (Some reply) "Port" = Some (PLIST_UINT 0) ->
      r = (LOCKDOWN_E_UNKNOWN_ERROR, Some port)) /\
     ((forall n, plist_dict_get_item (Some reply) "Port" <> Some (PLIST_UINT n)) ->
      r = (LOCKDOWN_E_UNKNOWN_ERROR, Some port))) /\
    (lockdown_check_result (Some reply) "StartService" <> RESULT_SUCCESS ->
     r = (LOCKDOWN_E_START_SERVICE_FAILED, Some port)).
Proof.
  intros Hsid Hh Hs Hr.
  destruct (start_service_exchange c w svc sid h port reply ss rs Hsid Hh Hs Hr) as [w' Hx].
  eexists. exists w'. split; [exact Hx|].
  split.
  - intros Hc. rewrite Hc. change (RESULT_SUCCESS =? RESULT_SUCCESS)%Z with true. cbv iota.
    repeat split.
    + intros n Hp Hn. rewrite Hp. destruct (port_fits n Hn) as [-> ->]. reflexivity.
    + intros n Hp Hn. rewrite Hp. apply Z.eqb_neq in Hn. rewrite Hn. reflexivity.
    + intros Hp. rewrite Hp. reflexivity.
    + intros Hp. destruct (plist_dict_get_item (Some reply) "Port") as [[]|]; try reflexivity.
      exfalso. eapply Hp. reflexivity.
  - intros Hc. apply Z.eqb_neq in Hc. rewrite Hc. reflexivity.
Qed.

Lemma start_service_port_witness :
  exists w',
    lockdownd_start_service session_client (Some "com.apple.afc") (Some 0)
      (script [true] [ok_reply (port_reply 4242)] demo_store) =
    Some ((LOCKDOWN_E_SUCCESS, Some 4242), w').
Proof.
  destruct (start_service_port session_client
              (script [true] [ok_reply (port_reply 4242)] demo_store)
              "com.apple.afc" "S1" "HOST-1" 0 (port_reply 4242) [] [])
    as (r & w' & Hrun & Hok & _); try reflexivity.
  exists w'. rewrite Hrun.
  destruct (Hok eq_refl) as (Hport & _).
  rewrite (Hport 4242 eq_refl); [reflexivity | lia].
Defined.

(** C5, as the claim has it, fails: a Result=Success answer with Port 0
    returns UnknownError, and so does one without a Port; a Port of 2^32
    is not zero, and the call succeeds with port 0. *)
Lemma start_service_zero_port_counterexample :
  fst <$> lockdownd_start_service session_client (Some "com.apple.afc") (Some 7)
            (script [true] [ok_reply (port_reply 0)] demo_store) =
    Some (LOCKDOWN_E_UNKNOWN_ERROR, Some 7) /\
  fst <$> lockdownd_start_service session_client (Some "com.apple.afc") (Some 7)
            (script [true] [ok_reply (reply_of "StartService" "Success" [])] demo_store) =
    Some (LOCKDOWN_E_UNKNOWN_ERROR, Some 7) /\
  fst <$> lockdownd_start_service session_client (Some "com.apple.afc") (Some 7)
            (script [true] [ok_reply (port_reply 4294967296)] demo_store) =
    Some (LOCKDOWN_E_SUCCESS, Some 0) /\
  LOCKDOWN_E_UNKNOWN_ERROR <> LOCKDOWN_E_START_SERVICE_FAILED.
Proof. repeat split; try (vm_compute; reflexivity). discriminate. Qed.

(** ** The shape of an accepted response *)

Lemma check_result_success (dict : option plist_t) (verb : string) :
  lockdown_check_result dict verb = RESULT_SUCCESS <->
  plist_dict_get_item dict "Request" = Some (PLIST_STRING verb) /\
  plist_dict_get_item dict "Result" = Some (PLIST_STRING "Success").
Proof.
  unfold lockdown_check_result, RESULT_SUCCESS, RESULT_FAILURE.
  destruct (plist_dict_get_item dict "Request") as [[| |q| | |]|];
    try (split; [discriminate | intros [H _]; discriminate]).
  destruct (q =? verb) eqn:Hq; simpl.
  - apply String.eqb_eq in Hq. subst q.
    destruct (plist_dict_get_item dict "Result") as [[| |r| | |]|];
      try (split; [discriminate | intros [_ H]; discriminate]).
    destruct (r =? "Success") eqn:Hr.
    + apply String.eqb_eq in Hr. subst r. split; auto.
    + split.
      * destruct (r =? "Failure"); discriminate.
      * intros [_ H]. injection H as ->. discriminate.
  - split; [discriminate|]. intros [H _]. injection H as ->.
    rewrite String.eqb_refl in Hq. discriminate.
Qed.

Lemma check_result_failure (dict : option plist_t) (verb : string) :
  lockdown_check_result dict verb = RESULT_FAILURE <->
  plist_dict_get_item dict "Request" = Some (PLIST_STRING verb) /\
  plist_dict_get_item dict "Result" = Some (PLIST_STRING "Failure").
Proof.
  unfold lockdown_check_result, RESULT_SUCCESS, RESULT_FAILURE.
  destruct (plist_dict_get_item dict "Request") as [[| |q| | |]|];
    try (split; [discriminate | intros [H _]; discriminate]).
  destruct (q =? verb) eqn:Hq; simpl.
  - apply String.eqb_eq in Hq. subst q.
    destruct (plist_dict_get_item dict "Result") as [[| |r| | |]|];
      try (split; [discriminate | intros [_ H]; discriminate]).
    destruct (r =? "Success") eqn:Hr.
    + apply String.eqb_eq in Hr. subst r. split; [discriminate|].
      intros [_ H]. discriminate.
    + destruct (r =? "Failure") eqn:Hf.
      * apply String.eqb_eq in Hf. subst r. split; auto.
      * split; [discriminate|]. intros [_ H]. injection H as ->. discriminate.
  - split; [discriminate|]. intros [H _]. injection H as ->.
    rewrite String.eqb_refl in Hq. discriminate.
Qed.

Lemma check_result_values (dict : option plist_t) (verb : string) :
  lockdown_check_result dict verb = RESULT_SUCCESS \/
  lockdown_check_result dict verb = RESULT_FAILURE \/
  lockdown_check_result dict verb = -1.
Proof.
  unfold lockdown_check_result.
  destruct (plist_dict_get_item dict "Request") as [[| |q| | |]|]; auto.
  destruct (negb (q =? verb)); auto.
  destruct (plist_dict_get_item dict "Result") as [[| |r| | |]|]; auto.
  destruct (r =? "Success"); auto. destruct (r =? "Failure"); auto.
Qed.

Lemma query_type_eq (c : lockdownd_client) (ty : option string) (w : world) :
  lockdownd_query_type c ty w =
  let r := script_head no_reply (incoming w) in
  Some (if negb (is_success (recv_code c r)) then (recv_code c r, ty)
        else if Z.eqb (lockdown_check_result (recv_plist r) "QueryType") RESULT_SUCCESS
             then (LOCKDOWN_E_SUCCESS,
                   plist_get_string_val (plist_dict_get_item (recv_plist r) "Type") ty)
             else (LOCKDOWN_E_UNKNOWN_ERROR, ty),
        after_recv (after_send (ssl_enabled c) (query_type_request c) w)).
Proof.
  unfold lockdownd_query_type, bind.
  rewrite lockdownd_send_eq, lockdownd_recv_eq. simpl.
  destruct (is_success (recv_code c _)); simpl; [|reflexivity].
  destruct (_ =? _)%Z; reflexivity.
Qed.

Lemma recv_code_plist_error (c : lockdownd_client) (r : recv_outcome) :
  recv_code c r = LOCKDOWN_E_PLIST_ERROR -> recv_plist r = None.
Proof.
  unfold recv_code.
  destruct (ssl_enabled c), (recv_ok r), (recv_plist r); congruence.
Qed.

Lemma send_code_not_plist_error (c : lockdownd_client) (ok : bool) :
  send_code c ok <> LOCKDOWN_E_PLIST_ERROR.
Proof. unfold send_code. destruct ok, (ssl_enabled c); discriminate. Qed.

(** [lockdownd_start_service] returns PlistError only when its receive
    delivered no property list. *)
Lemma start_service_plist_error (c : lockdownd_client) (svc : string) (port : Z)
    (w : world) (p : option Z) :
  fst <$> lockdownd_start_service c (Some svc) (Some port) w =
    Some (LOCKDOWN_E_PLIST_ERROR, p) ->
  recv_plist (script_head no_reply (incoming w)) = None.
Proof.
  unfold lockdownd_start_service, bind, get_store.
  destruct (userpref_get_host_id (store w)); [|discriminate].
  destruct (session_id c); [|discriminate].
  rewrite lockdownd_send_eq. cbn [fst snd].
  destruct (is_success (send_code c (script_head false (send_results w)))) eqn:Hs;
    cbn [negb].
  2: { unfold ret. intros H. injection H as H _.
       exfalso. exact (send_code_not_plist_error c (script_head false (send_results w)) H). }
  rewrite lockdownd_recv_eq. cbn [fst snd after_send incoming].
  set (r := script_head no_reply (incoming w)).
  destruct (is_success (recv_code c r)) eqn:Hr; cbn [negb].
  2: { unfold ret. intros H. injection H as H _.
       apply (recv_code_plist_error c). exact H. }
  destruct (recv_plist r) as [d|]; [|reflexivity].
  destruct (_ =? RESULT_SUCCESS)%Z; [|discriminate].
  destruct (plist_dict_get_item (Some d) "Port") as [[]|]; try discriminate.
  destruct (negb (uint64_of n =? 0)%Z); discriminate.
Qed.

(** A pairing verb returns PlistError only when one of its two
    receives delivered no property list. *)
Lemma do_pair_plist_error (E : pki) (c : lockdownd_client) (hid : option string)
    (verb : string) (w : world) :
  fst <$> lockdownd_do_pair E c hid verb w = Some LOCKDOWN_E_PLIST_ERROR ->
  recv_plist (script_head no_reply (incoming w)) = None \/
  recv_plist (script_head no_reply (tail (incoming w))) = None.
Proof.
  destruct (script_head false (send_results w)) eqn:Hs1.
  2: { destruct (do_pair_key_failure E c hid verb w (send_code c false) None
                   (after_send (ssl_enabled c) (device_public_key_request c) w))
         as [Hrun _].
       - unfold lockdownd_get_device_public_key, bind.
         rewrite get_value_eq, Hs1. cbv zeta. cbn [fst snd].
         rewrite send_code_false_not_success. reflexivity.
       - unfold send_code. destruct (ssl_enabled c); discriminate.
       - rewrite Hrun. intros H. injection H as H.
         exfalso. exact (send_code_not_plist_error c false H). }
  destruct (script_head_true _ Hs1) as [ss1 Hss1].
  destruct (is_success (recv_code c (script_head no_reply (incoming w)))) eqn:Hr1.
  2: { destruct (do_pair_key_failure E c hid verb w
                   (recv_code c (script_head no_reply (incoming w))) None
                   (after_recv (after_send (ssl_enabled c) (device_public_key_request c) w)))
         as [Hrun _].
       - unfold lockdownd_get_device_public_key, bind.
         rewrite get_value_eq, Hs1. cbv zeta. rewrite Hr1. cbn [fst snd].
         rewrite Hr1. reflexivity.
       - intros Heq. rewrite Heq in Hr1. discriminate.
       - rewrite Hrun. intros H. injection H as H.
         left. apply (recv_code_plist_error c). exact H. }
  destruct (recv_success_reply c w Hr1) as (d1 & rs & Hin & _).
  fold (ok_reply d1) in Hin.
  pose proof (do_pair_cert_failure E c hid verb w d1 ss1 rs Hss1 Hin) as Hx.
  cbv zeta in Hx.
  destruct (plist_get_data_val (plist_dict_get_item (Some d1) "Value") None)
    as [key|] eqn:Hkey.
  2: { rewrite Hx by discriminate. discriminate. }
  destruct (lockdownd_gen_pair_cert E (Some key) (store w)) as [[e g]|] eqn:Hgen.
  2: { rewrite Hx. discriminate. }
  destruct (is_success e) eqn:He.
  2: { rewrite Hx by (intros ->; discriminate).
       intros H. injection H as H.
       destruct (gen_pair_cert_code E (Some key) (store w) e g Hgen) as [Hne _].
       contradiction. }
  clear Hx.
  rewrite (do_pair_eq E c hid verb w d1 key ss1 rs Hss1 Hin Hkey). cbv zeta.
  rewrite Hgen, He. cbn [negb].
  destruct (host_id_for hid (store w)) as [h|]; [|discriminate].
  destruct (script_head false ss1); cbn [negb].
  2: { intros H. injection H as H. exfalso. exact (send_code_not_plist_error c false H). }
  destruct (is_success (recv_code c (script_head no_reply rs))) eqn:Hr2; cbn [negb].
  2: { intros H. injection H as H. right. rewrite Hin. cbn [tail].
       apply (recv_code_plist_error c). exact H. }
  destruct (_ =? RESULT_SUCCESS)%Z; [discriminate|].
  destruct (recv_plist (script_head no_reply rs)) as [reply|]; [|discriminate].
  destruct (error_is reply "PasswordProtected"); discriminate.
Qed.

(** C2, as the code has it.  [lockdown_check_result] takes a response
    as Success, or as Failure, exactly when it holds a string Request
    equal to the sent verb and a string Result equal to "Success", or to
    "Failure"; every other shape gives -1.  A property list that is
    received without a transport error and is not taken as Success
    makes the operation return an error of its own, not PlistError:
    UnknownError for QueryType and Deactivate, ActivationFailed for
    Activate, StartServiceFailed for StartService, and for a pairing
    verb PasswordProtected when the property list holds the Error
    string "PasswordProtected" and PairingFailed otherwise.  Each of
    these operations returns PlistError only when a receive of it
    delivered no property list. *)
Theorem check_result_shape (E : pki) (c : lockdownd_client) (w : world) (reply : plist_t)
    (verb : string) (rs : list recv_outcome) :
  incoming w = ok_reply reply :: rs ->
  (lockdown_check_result (Some reply) verb = RESULT_SUCCESS <->
   plist_dict_get_item (Some reply) "Request" = Some (PLIST_STRING verb) /\
   plist_dict_get_item (Some reply) "Result" = Some (PLIST_STRING "Success")) /\
  (lockdown_check_result (Some reply) verb = RESULT_FAILURE <->
   plist_dict_get_item (Some reply) "Request" = Some (PLIST_STRING verb) /\
   plist_dict_get_item (Some reply) "Result" = Some (PLIST_STRING "Failure")) /\
  (lockdown_check_result (Some reply) verb = RESULT_SUCCESS \/
   lockdown_check_result (Some reply) verb = RESULT_FAILURE \/
   lockdown_check_result (Some reply) verb = -1) /\
  (lockdown_check_result (Some reply) "QueryType" <> RESULT_SUCCESS ->
   forall ty, fst <$> lockdownd_query_type c ty w = Some (LOCKDOWN_E_UNKNOWN_ERROR, ty)) /\
  (lockdown_check_result (Some reply) "Deactivate" <> RESULT_SUCCESS ->
   session_id c <> None ->
   fst <$> lockdownd_deactivate c w = Some LOCKDOWN_E_UNKNOWN_ERROR) /\
  (lockdown_check_result (Some reply) "Activate" <> RESULT_SUCCESS ->
   session_id c <> None ->
   forall record, fst <$> lockdownd_activate c (Some record) w =
                  Some LOCKDOWN_E_ACTIVATION_FAILED) /\
  (lockdown_check_result (Some reply) "StartService" <> RESULT_SUCCESS ->
   session_id c <> None ->
   userpref_get_host_id (store w) <> None ->
   script_head false (send_results w) = true ->
   forall svc port,
     fst <$> lockdownd_start_service c (Some svc) (Some port) w =
     Some (LOCKDOWN_E_START_SERVICE_FAILED, Some port)) /\
  (lockdown_check_result (Some reply) verb <> RESULT_SUCCESS ->
   forall (hid : option string) (h : string) (d1 : plist_t) (key : list byte)
          (g : pair_certs) (ss : list bool) (w0 : world),
     send_results w0 = true :: true :: ss ->
     incoming w0 = ok_reply d1 :: incoming w ->
     plist_get_data_val (plist_dict_get_item (Some d1) "Value") None = Some key ->
     lockdownd_gen_pair_cert E (Some key) (store w0) = Some (LOCKDOWN_E_SUCCESS, g) ->
     match hid with Some x => Some x | None => userpref_get_host_id (store w0) end = Some h ->
     fst <$> lockdownd_do_pair E c hid verb w0 =
     Some (if error_is reply "PasswordProtected"
           then LOCKDOWN_E_PASSWORD_PROTECTED else LOCKDOWN_E_PAIRING_FAILED)) /\
  (forall w0 : world,
     let no_plist := recv_plist (script_head no_reply (incoming w0)) = None in
     (forall ty ty',
        fst <$> lockdownd_query_type c ty w0 = Some (LOCKDOWN_E_PLIST_ERROR, ty') ->
        no_plist) /\
     (fst <$> lockdownd_deactivate c w0 = Some LOCKDOWN_E_PLIST_ERROR -> no_plist) /\
     (forall record,
        fst <$> lockdownd_activate c record w0 = Some LOCKDOWN_E_PLIST_ERROR -> no_plist) /\
     (forall svc port p,
        fst <$> lockdownd_start_service c (Some svc) (Some port) w0 =
          Some (LOCKDOWN_E_PLIST_ERROR, p) -> no_plist) /\
     (forall hid,
        fst <$> lockdownd_do_pair E c hid verb w0 = Some LOCKDOWN_E_PLIST_ERROR ->
        no_plist \/ recv_plist (script_head no_reply (tail (incoming w0))) = None)).
Proof.
  intros Hr.
  split; [apply check_result_success|].
  split; [apply check_result_failure|].
  split; [apply check_result_values|].
  split; [|split; [|split; [|split; [|split]]]].
  - intros Hc ty. rewrite query_type_eq. simpl. rewrite Hr. simpl.
    fold (ok_reply reply). rewrite recv_code_ok. simpl.
    apply Z.eqb_neq in Hc. rewrite Hc. reflexivity.
  - intros Hc Hs. unfold lockdownd_deactivate, bind.
    destruct (session_id c); [|congruence].
    rewrite lockdownd_send_eq, lockdownd_recv_eq. simpl. rewrite Hr. simpl.
    apply Z.eqb_neq in Hc. rewrite Hc. reflexivity.
  - intros Hc Hs record. unfold lockdownd_activate, bind.
    destruct (session_id c); [|congruence].
    rewrite lockdownd_send_eq, lockdownd_recv_eq. simpl. rewrite Hr. simpl.
    apply Z.eqb_neq in Hc. rewrite Hc. reflexivity.
  - intros Hc Hsid Hh Hs svc port.
    destruct (session_id c) as [sid|] eqn:Hsid'; [|congruence].
    destruct (userpref_get_host_id (store w)) as [h|] eqn:Hh'; [|congruence].
    destruct (script_head_true _ Hs) as [ss Hss].
    destruct (start_service_exchange c w svc sid h port reply ss rs Hsid' Hh' Hss Hr)
      as [w' Hrun].
    rewrite Hrun. apply Z.eqb_neq in Hc. rewrite Hc. reflexivity.
  - intros Hc hid h d1 key g ss w0 Hs0 Hr0 Hkey Hg Hh. rewrite Hr in Hr0.
    pose proof (do_pair_exchange E c hid verb w0 h d1 reply key g ss rs Hs0 Hr0 Hkey Hg Hh)
      as Hx.
    cbv zeta in Hx. rewrite Hx. apply Z.eqb_neq in Hc. rewrite Hc. reflexivity.
  - intros w0 no_plist. subst no_plist.
    split; [|split; [|split; [|split]]].
    + intros ty ty'. rewrite query_type_eq. simpl.
      destruct (is_success (recv_code c _)) eqn:Hs; simpl.
      * destruct (_ =? _)%Z; discriminate.
      * intros H. injection H as H _. apply (recv_code_plist_error c). exact H.
    + destruct (session_id c) as [sid|] eqn:Hsid.
      * rewrite (deactivate_eq c sid w0 Hsid). cbv zeta.
        destruct (recv_plist (script_head no_reply (incoming w0))); [|reflexivity].
        destruct (_ =? _)%Z; discriminate.
      * unfold lockdownd_deactivate. rewrite Hsid. discriminate.
    + intros record.
      destruct (session_id c) as [sid|] eqn:Hsid.
      * destruct record as [record|].
        -- rewrite (activate_eq c sid record w0 Hsid). cbv zeta.
           destruct (recv_plist (script_head no_reply (incoming w0))); [|reflexivity].
           destruct (_ =? _)%Z; discriminate.
        -- unfold lockdownd_activate. rewrite Hsid. discriminate.
      * unfold lockdownd_activate. rewrite Hsid. discriminate.
    + intros svc port p. apply start_service_plist_error.
    + intros hid. apply do_pair_plist_error.
Qed.

Lemma check_result_shape_witness :
  lockdown_check_result (Some stray_reply) "QueryType" = -1 /\
  fst <$> lockdownd_query_type demo_client None
            (script [true] [ok_reply stray_reply] demo_store) =
    Some (LOCKDOWN_E_UNKNOWN_ERROR, None) /\
  fst <$> lockdownd_do_pair demo_pki demo_client None "QueryType"
            (script [true; true] [ok_reply key_reply; ok_reply stray_reply] demo_store) =
    Some LOCKDOWN_E_PAIRING_FAILED.
Proof.
  destruct (check_result_shape demo_pki demo_client
              (script [true] [ok_reply stray_reply] demo_store)
              stray_reply "QueryType" [] eq_refl)
    as (_ & _ & _ & Hq & _ & _ & _ & Hp & _).
  split; [reflexivity|].
  split; [apply Hq; discriminate|].
  apply (Hp ltac:(discriminate) None "HOST-1" key_reply demo_key
           {| device_cert := Some demo_key; host_cert := Some []; root_cert := Some [] |}
           []
           (script [true; true] [ok_reply key_reply; ok_reply stray_reply] demo_store));
    reflexivity.
Defined.

(** C2, as the claim has it, fails: a response to QueryType that echoes
    another Request makes [lockdownd_query_type] return UnknownError,
    and a response to GetValue that echoes another Request makes
    [lockdownd_get_value] return success. *)
Lemma other_shape_not_plist_error_counterexample :
  lockdown_check_result (Some stray_reply) "QueryType" = -1 /\
  fst <$> lockdownd_query_type demo_client None
            (script [true] [ok_reply stray_reply] demo_store) =
    Some (LOCKDOWN_E_UNKNOWN_ERROR, None) /\
  lockdown_check_result (Some (reply_of "QueryType" "Success" [])) "GetValue" = -1 /\
  fst <$> lockdownd_get_value demo_client None (Some "DeviceName")
            (script [true] [ok_reply (reply_of "QueryType" "Success" [])] demo_store) =
    Some (LOCKDOWN_E_SUCCESS, None) /\
  LOCKDOWN_E_UNKNOWN_ERROR <> LOCKDOWN_E_PLIST_ERROR /\
  LOCKDOWN_E_SUCCESS <> LOCKDOWN_E_PLIST_ERROR.
Proof. repeat split; try (vm_compute; reflexivity); discriminate. Qed.

(** ** Stopping a session *)

Lemma ssl_stop_session_eq (c : lockdownd_client) (w : world) :
  lockdownd_ssl_stop_session c w =
  if handles_intact c
  then Some ((LOCKDOWN_E_SUCCESS, tls_stopped c),
             if ssl_enabled c then after_emit EvCloseNotify w else w)
  else None.
Proof.
  unfold lockdownd_ssl_stop_session, handles_intact, tls_stopped, bind.
  destruct c as [session certificate enabled sid u l].
  destruct session, certificate, enabled; reflexivity.
Qed.

Lemma stop_session_eq (c : lockdownd_client) (s : string) (w : world) :
  lockdownd_stop_session c (Some s) w =
  let r := script_head no_reply (incoming w) in
  let w1 := after_recv (after_send (ssl_enabled c) (stop_session_request c s) w) in
  match recv_plist r with
  | None => Some ((LOCKDOWN_E_PLIST_ERROR, c), w1)
  | Some _ =>
      if handles_intact c
      then Some ((if Z.eqb (lockdown_check_result (recv_plist r) "StopSession") RESULT_SUCCESS
                  then LOCKDOWN_E_SUCCESS else LOCKDOWN_E_UNKNOWN_ERROR,
                  tls_stopped c),
                 if ssl_enabled c then after_emit EvCloseNotify w1 else w1)
      else None
  end.
Proof.
  unfold lockdownd_stop_session, bind.
  rewrite lockdownd_send_eq, lockdownd_recv_eq. cbn [fst snd after_send incoming]. cbv zeta.
  destruct (recv_plist (script_head no_reply (incoming w))); [|reflexivity].
  unfold bind. rewrite ssl_stop_session_eq.
  destruct (handles_intact c); reflexivity.
Qed.

(** C7, as the code has it.  When the receive that follows the
    StopSession request delivers a property list, whatever its Request
    and Result, and the GnuTLS session and credentials of the client
    were not released before (with the session live if TLS is on), the
    call leaves TLS disabled, the session id cleared and no live GnuTLS
    object in the client; the close notify is sent, after the request,
    exactly when TLS was enabled; and the call returns success exactly
    when the property list is a Result=Success answer to StopSession.
    On a client whose GnuTLS objects were released before, as an
    earlier stop leaves them, the call releases them a second time and
    has no result. *)
Theorem stop_session_disables_tls (c : lockdownd_client) (s : string) (w : world)
    (r : recv_outcome) (reply : plist_t) (rs : list recv_outcome) :
  incoming w = r :: rs ->
  recv_plist r = Some reply ->
  if handles_intact c then
    exists e c' w',
      lockdownd_stop_session c (Some s) w = Some ((e, c'), w') /\
      ssl_enabled c' = false /\
      session_id c' = None /\
      is_live (ssl_session c') = false /\
      is_live (ssl_certificate c') = false /\
      trace w' = (trace w ++ EvSend (ssl_enabled c) (stop_session_request c s)
                             :: (if ssl_enabled c then [EvCloseNotify] else []))%list /\
      (e = LOCKDOWN_E_SUCCESS <->
       lockdown_check_result (Some reply) "StopSession" = RESULT_SUCCESS)
  else lockdownd_stop_session c (Some s) w = None.
Proof.
  intros Hin Hr. rewrite stop_session_eq. cbv zeta. rewrite Hin. cbn [script_head].
  rewrite Hr.
  destruct (handles_intact c); [|reflexivity].
  do 3 eexists. split; [reflexivity|].
  cbn [tls_stopped ssl_enabled session_id ssl_session ssl_certificate].
  split; [reflexivity|]. split; [reflexivity|].
  split; [destruct (ssl_session c); reflexivity|].
  split; [destruct (ssl_certificate c); reflexivity|].
  split.
  - destruct (ssl_enabled c); simpl; [rewrite <- app_assoc|]; reflexivity.
  - destruct (_ =? _)%Z eqn:Hc.
    + split; [intros _; apply Z.eqb_eq, Hc | reflexivity].
    + split; [discriminate|]. intros Hc'. apply Z.eqb_eq in Hc'. congruence.
Qed.

Lemma stop_session_disables_tls_witness :
  (exists e c' w',
     lockdownd_stop_session tls_client (Some "S1")
       (script [true] [ok_reply (refused_reply "StopSession" "SessionInactive")] demo_store) =
       Some ((e, c'), w') /\
     ssl_enabled c' = false /\
     session_id c' = None /\
     is_live (ssl_session c') = false /\
     is_live (ssl_certificate c') = false /\
     trace w' = [EvSend true (stop_session_request tls_client "S1"); EvCloseNotify] /\
     (e = LOCKDOWN_E_SUCCESS <->
      lockdown_check_result (Some (refused_reply "StopSession" "SessionInactive"))
        "StopSession" = RESULT_SUCCESS)) /\
  lockdownd_stop_session restarted_client (Some "S2")
    (script [true] [ok_reply (reply_of "StopSession" "Success" [])] demo_store) = None.
Proof.
  split.
  - apply (stop_session_disables_tls tls_client "S1"
             (script [true] [ok_reply (refused_reply "StopSession" "SessionInactive")]
                demo_store)
             (ok_reply (refused_reply "StopSession" "SessionInactive"))
             (refused_reply "StopSession" "SessionInactive") []);
      reflexivity.
  - apply (stop_session_disables_tls restarted_client "S2"
             (script [true] [ok_reply (reply_of "StopSession" "Success" [])] demo_store)
             (ok_reply (reply_of "StopSession" "Success" []))
             (reply_of "StopSession" "Success" []) []);
      reflexivity.
Defined.

(** C7, as the claim has it, fails: when the receive delivers no
    property list, [lockdownd_stop_session] returns PlistError and the
    client is as it was, with TLS enabled, the session id in place and
    no close notify sent.  And on a client whose GnuTLS objects were
    released when an earlier session was stopped, an answered
    StopSession releases them again: the call has no result. *)
Lemma stop_session_no_reply_counterexample :
  lockdownd_stop_session tls_client (Some "S1") (script [true] [no_reply] demo_store) =
    Some ((LOCKDOWN_E_PLIST_ERROR, tls_client),
          {| trace := [EvSend true (stop_session_request tls_client "S1")];
             send_results := []; incoming := []; handshakes := []; free_results := [];
             store := demo_store |}) /\
  ssl_enabled tls_client = true /\
  session_id tls_client = Some "S1" /\
  lockdownd_stop_session restarted_client (Some "S2")
    (script [true] [ok_reply (reply_of "StopSession" "Success" [])] demo_store) = None.
Proof. repeat split. Qed.

(** ** Starting a session *)

(** C6.  Let the StartSession request go out on a connection without
    TLS, after the stop of a session that may have been running.  When
    the answer is a Result=Success answer that carries a string
    SessionID and a true EnableSessionSSL, and the TLS handshake then
    fails, the call returns SslError and leaves a client that holds the
    SessionID and has TLS disabled. *)
Theorem start_session_handshake_failure (c : lockdownd_client) (h : string) (w : world)
    (e0 : lockdownd_error_t) (c1 : lockdownd_client) (w1 : world)
    (r : recv_outcome) (reply : plist_t) (sid : string)
    (ss : list bool) (rs : list recv_outcome) :
  stop_running_session c w = Some ((e0, c1), w1) ->
  ssl_enabled c1 = false ->
  send_results w1 = true :: ss ->
  incoming w1 = r :: rs ->
  recv_plist r = Some reply ->
  lockdown_check_result (Some reply) "StartSession" = RESULT_SUCCESS ->
  plist_dict_get_item (Some reply) "SessionID" = Some (PLIST_STRING sid) ->
  plist_dict_get_item (Some reply) "EnableSessionSSL" = Some (PLIST_BOOLEAN true) ->
  script_head false (handshakes w1) = false ->
  exists s w',
    lockdownd_start_session c (Some h) w = Some (s, w') /\
    ss_error s = LOCKDOWN_E_SSL_ERROR /\
    session_id (ss_client s) = Some sid /\
    ssl_enabled (ss_client s) = false.
Proof.
  intros Hstop Hssl Hs Hin Hr Hc Hsid Hen Hh.
  unfold lockdownd_start_session, bind. rewrite Hstop. simpl.
  rewrite lockdownd_send_eq, Hs. simpl.
  rewrite lockdownd_recv_eq. simpl. rewrite Hin. simpl. rewrite Hr, Hc. simpl.
  rewrite Hen, Hsid. simpl.
  unfold lockdownd_ssl_start_session, bind, gnutls_handshake. simpl.
  rewrite Hh. simpl.
  do 2 eexists. split; [reflexivity|]. simpl. auto.
Qed.

Lemma start_session_handshake_failure_witness :
  exists s w',
    lockdownd_start_session demo_client (Some "HOST-1") handshake_failure_world =
      Some (s, w') /\
    ss_error s = LOCKDOWN_E_SSL_ERROR /\
    session_id (ss_client s) = Some "S1" /\
    ssl_enabled (ss_client s) = false.
Proof.
  apply (start_session_handshake_failure demo_client "HOST-1" handshake_failure_world
           LOCKDOWN_E_SUCCESS demo_client handshake_failure_world
           (ok_reply (session_reply "S1" true)) (session_reply "S1" true) "S1" [] []);
    reflexivity.
Defined.

(** C10, as the code has it.  On a client whose session id is null
    when the StartSession request goes out (it had none, or the stop of
    the running session cleared it), when the request was sent and the
    answer is a property list that is not a Result=Failure answer, holds
    no string SessionID and holds no EnableSessionSSL or a false one,
    the call returns success and the client's session id is still null.  On that client
    [lockdownd_activate] and [lockdownd_deactivate] then return
    NoRunningSession, and [lockdownd_start_service] returns
    NoRunningSession when the store holds a host id, and InvalidConf
    when it holds none. *)
Theorem start_session_without_session_id (c : lockdownd_client) (h : string) (w : world)
    (e0 : lockdownd_error_t) (c1 : lockdownd_client) (w1 : world)
    (r : recv_outcome) (reply : plist_t) (ss : list bool) (rs : list recv_outcome) :
  stop_running_session c w = Some ((e0, c1), w1) ->
  session_id c1 = None ->
  send_results w1 = true :: ss ->
  incoming w1 = r :: rs ->
  recv_plist r = Some reply ->
  lockdown_check_result (Some reply) "StartSession" <> RESULT_FAILURE ->
  (forall sid, plist_dict_get_item (Some reply) "SessionID" <> Some (PLIST_STRING sid)) ->
  (plist_dict_get_item (Some reply) "EnableSessionSSL" = None \/
   plist_dict_get_item (Some reply) "EnableSessionSSL" = Some (PLIST_BOOLEAN false)) ->
  exists s w',
    lockdownd_start_session c (Some h) w = Some (s, w') /\
    ss_error s = LOCKDOWN_E_SUCCESS /\
    session_id (ss_client s) = None /\
    forall (w2 : world) (record : option plist_t) (svc : string) (port : Z),
      lockdownd_activate (ss_client s) record w2 =
        Some (LOCKDOWN_E_NO_RUNNING_SESSION, w2) /\
      lockdownd_deactivate (ss_client s) w2 = Some (LOCKDOWN_E_NO_RUNNING_SESSION, w2) /\
      lockdownd_start_service (ss_client s) (Some svc) (Some port) w2 =
        Some ((match userpref_get_host_id (store w2) with
               | Some _ => LOCKDOWN_E_NO_RUNNING_SESSION
               | None => LOCKDOWN_E_INVALID_CONF
               end, Some port), w2).
Proof.
  intros Hstop Hnone Hs Hin Hr Hc Hsid Hen.
  unfold lockdownd_start_session, bind. rewrite Hstop. simpl.
  rewrite lockdownd_send_eq, Hs. simpl.
  rewrite lockdownd_recv_eq. simpl. rewrite Hin. simpl. rewrite Hr.
  apply Z.eqb_neq in Hc. rewrite Hc.
  assert (Hid : plist_get_string_val (plist_dict_get_item (Some reply) "SessionID")
                  (session_id c1) = None).
  { rewrite Hnone. destruct (plist_dict_get_item (Some reply) "SessionID") as [[]|];
      try reflexivity. exfalso. eapply Hsid. reflexivity. }
  assert (Hssl : match plist_dict_get_item (Some reply) "EnableSessionSSL" with
                 | Some (PLIST_BOOLEAN b) => b
                 | _ => false
                 end = false).
  { destruct Hen as [-> | ->]; reflexivity. }
  rewrite Hssl, Hid.
  do 2 eexists. split; [reflexivity|]. simpl.
  split; [reflexivity|]. split; [reflexivity|].
  intros w2 record svc port.
  unfold lockdownd_activate, lockdownd_deactivate, lockdownd_start_service,
    bind, get_store, ret. simpl.
  destruct (userpref_get_host_id (store w2)); auto.
Qed.

Lemma start_session_without_session_id_witness :
  exists s w',
    lockdownd_start_session demo_client (Some "HOST-1")
      (script [true] [ok_reply bare_session_reply] demo_store) = Some (s, w') /\
    ss_error s = LOCKDOWN_E_SUCCESS /\
    session_id (ss_client s) = None.
Proof.
  destruct (start_session_without_session_id demo_client "HOST-1"
              (script [true] [ok_reply bare_session_reply] demo_store)
              LOCKDOWN_E_SUCCESS demo_client
              (script [true] [ok_reply bare_session_reply] demo_store)
              (ok_reply bare_session_reply) bare_session_reply [] [])
    as (s & w' & Hrun & He & Hsid & _);
    try reflexivity; try discriminate; [left; reflexivity|].
  exists s, w'. auto.
Defined.

(** C10, as the claim has it, fails in its last part: after such a
    StartSession, [lockdownd_start_service] returns InvalidConf when the
    store holds no host id. *)
Lemma start_service_after_bare_session_counterexample :
  exists s w',
    lockdownd_start_session demo_client (Some "HOST-1")
      (script [true] [ok_reply bare_session_reply] empty_store) = Some (s, w') /\
    ss_error s = LOCKDOWN_E_SUCCESS /\
    session_id (ss_client s) = None /\
    lockdownd_start_service (ss_client s) (Some "com.apple.afc") (Some 0) w' =
      Some ((LOCKDOWN_E_INVALID_CONF, Some 0), w') /\
    LOCKDOWN_E_INVALID_CONF <> LOCKDOWN_E_NO_RUNNING_SESSION.
Proof.
  do 2 eexists. split; [vm_compute; reflexivity|].
  repeat split. discriminate.
Qed.

(** ** The label of a new client *)

(** C9 fails on the code.  [lockdownd_client_new] with a label returns
    a client whose label is null: the QueryType request that this client
    sends holds the Request field alone.  [lockdownd_client_set_label]
    is what stores a label: after it the request carries the Label. *)
Theorem client_new_drops_label (device : iphone_device) (l : string) (w : world)
    (ty : option string) :
  connectable device = true ->
  exists c,
    lockdownd_client_new device (Some l) = (LOCKDOWN_E_SUCCESS, Some c) /\
    label c = None /\
    (exists r w',
       lockdownd_query_type c ty w = Some (r, w') /\
       trace w' = (trace w ++
                   [EvSend false (PLIST_DICT [("Request", PLIST_STRING "QueryType")])])%list) /\
    (exists r w',
       lockdownd_query_type (lockdownd_client_set_label c (Some l)) ty w = Some (r, w') /\
       trace w' = (trace w ++
                   [EvSend false (PLIST_DICT [("Label", PLIST_STRING l);
                                              ("Request", PLIST_STRING "QueryType")])])%list).
Proof.
  intros Hc. unfold lockdownd_client_new. rewrite Hc. simpl.
  eexists. split; [reflexivity|]. split; [reflexivity|].
  split; rewrite query_type_eq; simpl; do 2 eexists; split; reflexivity.
Qed.

Lemma client_new_drops_label_witness :
  exists c,
    lockdownd_client_new demo_device (Some "test") = (LOCKDOWN_E_SUCCESS, Some c) /\
    label c = None.
Proof.
  destruct (client_new_drops_label demo_device "test" (script [] [] demo_store) None eq_refl)
    as (c & Hnew & Hlabel & _).
  exists c. split; [exact Hnew | exact Hlabel].
Defined.

(** ** The handshaking constructor on a locked device *)

Lemma client_free_no_session (c : lockdownd_client) (w : world) :
  session_id c = None ->
  exists e,
    lockdownd_client_free c w =
    Some (e, after_free (after_recv (after_send (ssl_enabled c) (goodbye_request c) w))).
Proof.
  intros Hs. unfold lockdownd_client_free, stop_running_session, lockdownd_goodbye, bind.
  rewrite Hs. simpl. rewrite lockdownd_send_eq, lockdownd_recv_eq. simpl.
  destruct (recv_plist (script_head no_reply (incoming w))); simpl.
  - destruct (_ =? _)%Z; simpl; eexists; reflexivity.
  - eexists; reflexivity.
Qed.

(** C8, as the code has it.  The constructor goes on to ValidatePair
    whatever Pair returned, and what it returns is decided there.  Take
    a device that can be reached and gives its uuid, a store with a host
    id and no key for the uuid, and a QueryType answer that carries a
    string Type whenever it is a Result=Success answer.  When the Pair
    request is answered with Result=Failure and Error
    "PasswordProtected", and the ValidatePair request that follows is
    answered in the same way, the constructor returns PasswordProtected
    and hands out no client: after the five requests the client says
    Goodbye and is released, and the store is as it was. *)
Theorem new_with_handshake_locked_device (E : pki) (device : iphone_device)
    (lbl : option string) (w : world) (u h : string)
    (dq dk1 dp dk2 dv : plist_t) (k1 k2 : list byte) (g1 g2 : pair_certs)
    (ss : list bool) (rs : list recv_outcome) :
  connectable device = true ->
  device_get_uuid device = (LOCKDOWN_E_SUCCESS, Some u) ->
  userpref_get_host_id (store w) = Some h ->
  device_public_keys (store w) !! u = None ->
  send_results w = true :: true :: true :: true :: true :: ss ->
  incoming w = ok_reply dq :: ok_reply dk1 :: ok_reply dp :: ok_reply dk2 :: ok_reply dv :: rs ->
  (lockdown_check_result (Some dq) "QueryType" = RESULT_SUCCESS ->
   exists t, plist_dict_get_item (Some dq) "Type" = Some (PLIST_STRING t)) ->
  plist_get_data_val (plist_dict_get_item (Some dk1) "Value") None = Some k1 ->
  lockdownd_gen_pair_cert E (Some k1) (store w) = Some (LOCKDOWN_E_SUCCESS, g1) ->
  lockdown_check_result (Some dp) "Pair" = RESULT_FAILURE ->
  error_is dp "PasswordProtected" = true ->
  plist_get_data_val (plist_dict_get_item (Some dk2) "Value") None = Some k2 ->
  lockdownd_gen_pair_cert E (Some k2) (store w) = Some (LOCKDOWN_E_SUCCESS, g2) ->
  lockdown_check_result (Some dv) "ValidatePair" = RESULT_FAILURE ->
  error_is dv "PasswordProtected" = true ->
  let c := set_uuid new_client (Some u) in
  exists w',
    lockdownd_client_new_with_handshake E device lbl w =
      Some ((LOCKDOWN_E_PASSWORD_PROTECTED, None), w') /\
    store w' = store w /\
    trace w' =
      (trace w ++
       [EvSend false (query_type_request new_client);
        EvSend false (device_public_key_request c);
        EvSend false (pair_request c g1 h "Pair");
        EvSend false (device_public_key_request c);
        EvSend false (pair_request c g2 h "ValidatePair");
        EvSend false (PLIST_DICT [("Request", PLIST_STRING "Goodbye")]);
        EvClose])%list.
Proof.
  intros Hconn Huuid Hh Hnokey Hs Hin Hty Hk1 Hg1 Hcp Hep Hk2 Hg2 Hcv Hev c.
  subst c.
  unfold lockdownd_client_new_with_handshake, lockdownd_client_new.
  rewrite Hconn. simpl. unfold bind at 1.
  rewrite query_type_eq. simpl. rewrite Hin. simpl.
  set (wq := after_recv (after_send false _ w)).
  assert (Hq : exists q,
    (if (lockdown_check_result (Some dq) "QueryType" =? RESULT_SUCCESS)%Z
     then (LOCKDOWN_E_SUCCESS,
           plist_get_string_val (plist_dict_get_item (Some dq) "Type") None)
     else (LOCKDOWN_E_UNKNOWN_ERROR, None)) = q /\
    (is_success (fst q) = true -> exists t, snd q = Some t)).
  { eexists. split; [reflexivity|].
    destruct (_ =? _)%Z eqn:Hc; simpl; [|discriminate].
    apply Z.eqb_eq in Hc. destruct (Hty Hc) as [t ->]. eauto. }
  destruct Hq as (q & -> & Hq).
  assert (Hguard : (if is_success (fst q)
                    then match snd q with Some _ => ret tt | None => undefined end
                    else ret tt) wq = Some (tt, wq)).
  { destruct (is_success (fst q)); [|reflexivity].
    destruct (Hq eq_refl) as [t ->]. reflexivity. }
  unfold bind at 1. rewrite Hguard. clear Hguard Hq q.
  rewrite Huuid. simpl.
  unfold bind at 1. unfold get_store.
  change (store wq) with (store w). rewrite Hh. simpl.
  unfold userpref_has_device_public_key. simpl. rewrite Hnokey.
  rewrite bool_decide_eq_false_2 by (intros [x Hx]; discriminate). simpl.
  unfold lockdownd_pair, lockdownd_validate_pair.
  unfold set_uuid. cbn [ssl_session ssl_certificate ssl_enabled session_id uuid label].
  unfold bind at 1.
  pose proof (do_pair_exchange E (set_uuid new_client (Some u)) (Some h) "Pair" wq h
                dk1 dp k1 g1 (true :: true :: ss) (ok_reply dk2 :: ok_reply dv :: rs)) as Hp.
  simpl in Hp. rewrite Hs, Hin in Hp. specialize (Hp eq_refl eq_refl Hk1 Hg1 eq_refl).
  rewrite Hcp, Hep in Hp. change (RESULT_FAILURE =? RESULT_SUCCESS)%Z with false in Hp.
  cbv iota in Hp.
  change (set_uuid new_client (Some u)) with
    {| ssl_session := HANDLE_NULL; ssl_certificate := HANDLE_NULL; ssl_enabled := false;
       session_id := None; uuid := Some u; label := None |} in Hp.
  rewrite Hp. clear Hp.
  set (wp := after_recv (after_send false _ (after_recv (after_send false _ wq)))).
  unfold bind at 1.
  pose proof (do_pair_exchange E (set_uuid new_client (Some u)) (Some h) "ValidatePair" wp h
                dk2 dv k2 g2 ss rs) as Hv.
  simpl in Hv. rewrite Hs, Hin in Hv. specialize (Hv eq_refl eq_refl Hk2 Hg2 eq_refl).
  rewrite Hcv, Hev in Hv. change (RESULT_FAILURE =? RESULT_SUCCESS)%Z with false in Hv.
  cbv iota in Hv.
  change (set_uuid new_client (Some u)) with
    {| ssl_session := HANDLE_NULL; ssl_certificate := HANDLE_NULL; ssl_enabled := false;
       session_id := None; uuid := Some u; label := None |} in Hv.
  rewrite Hv. clear Hv. simpl.
  set (wv := after_recv (after_send false _ (after_recv (after_send false _ wp)))).
  unfold bind at 1, ret at 1. simpl.
  unfold bind.
  destruct (client_free_no_session
              {| ssl_session := HANDLE_NULL; ssl_certificate := HANDLE_NULL;
                 ssl_enabled := false;
                 session_id := None; uuid := Some u; label := None |} wv eq_refl) as [e He].
  rewrite He. simpl.
  eexists. split; [reflexivity|]. split; [reflexivity|].
  simpl. repeat rewrite <- app_assoc. reflexivity.
Qed.

Lemma new_with_handshake_locked_device_witness :
  exists w',
    lockdownd_client_new_with_handshake demo_pki demo_device (Some "test")
      (locked_device_world "PasswordProtected" "PasswordProtected") =
      Some ((LOCKDOWN_E_PASSWORD_PROTECTED, None), w') /\
    store w' = demo_store.
Proof.
  destruct (new_with_handshake_locked_device demo_pki demo_device (Some "test")
           (locked_device_world "PasswordProtected" "PasswordProtected")
           "1111-2222" "HOST-1" query_type_reply
           key_reply (refused_reply "Pair" "PasswordProtected")
           key_reply (refused_reply "ValidatePair" "PasswordProtected")
           demo_key demo_key
           {| device_cert := Some demo_key; host_cert := Some []; root_cert := Some [] |}
           {| device_cert := Some demo_key; host_cert := Some []; root_cert := Some [] |}
           [true] [])
    as (w' & Hrun & Hstore & _);
    try reflexivity.
  - intros _. exists "com.apple.mobile.lockdown". reflexivity.
  - exists w'. split; [exact Hrun | exact Hstore].
Defined.

(** C8, as the claim has it, fails: after a Pair refused with
    "PasswordProtected", a ValidatePair refused with "InvalidHostID"
    makes the constructor return PairingFailed; and a ValidatePair that
    is accepted, with a StartSession that is accepted, makes it return
    success, hand out the client, and store the device key. *)
Lemma new_with_handshake_pair_error_lost_counterexample :
  fst <$> lockdownd_client_new_with_handshake demo_pki demo_device (Some "test")
            (locked_device_world "PasswordProtected" "InvalidHostID") =
    Some (LOCKDOWN_E_PAIRING_FAILED, None) /\
  LOCKDOWN_E_PAIRING_FAILED <> LOCKDOWN_E_PASSWORD_PROTECTED /\
  match lockdownd_client_new_with_handshake demo_pki demo_device (Some "test")
          relenting_device_world with
  | Some ((e, Some c), w') =>
      e = LOCKDOWN_E_SUCCESS /\
      session_id c = Some "S1" /\
      device_public_keys (store w') !! "1111-2222" = Some demo_key /\
      device_public_keys (store relenting_device_world) !! "1111-2222" = None
  | _ => False
  end.
Proof.
  split; [vm_compute; reflexivity|]. split; [discriminate|].
  vm_compute. repeat split.
Qed.

(** * More of lockdown.c *)

(** ** Reading through the GnuTLS pull callback *)

Lemma datum_size_nonneg (d : list byte) : 0 <= datum_size d.
Proof. unfold datum_size. lia. Qed.

Lemma sizes_sum_nonneg (chunks : list (list byte)) : 0 <= sizes_sum chunks.
Proof.
  induction chunks as [|chunk chunks IH]; simpl; [lia|].
  pose proof (datum_size_nonneg chunk). lia.
Qed.

Lemma small_count (n : Z) :
  0 <= n < 2 ^ 31 ->
  uint32_of n = n /\ uint64_of n = n /\ int_of_uint32 (uint32_of n) = n.
Proof.
  intros Hn. unfold uint32_of, uint64_of, int_of_uint32.
  rewrite (Z.mod_small n (2 ^ 32)) by lia.
  rewrite (Z.mod_small n (2 ^ 64)) by lia.
  repeat split. destruct (Z.ltb_spec n (2 ^ 31)); lia.
Qed.

(** One successful short read inside the loop. *)
Lemma ssl_read_loop_step (length tbytes : Z) (filled chunk : list byte)
    (conn : list device_recv_t) :
  0 <= tbytes ->
  tbytes + datum_size chunk <= length ->
  length < 2 ^ 31 ->
  ssl_read_loop length length (length - tbytes) tbytes filled (delivered chunk :: conn) =
  if Z.leb length (tbytes + datum_size chunk)
  then SslReadReturns (tbytes + datum_size chunk) (filled ++ chunk) conn
  else ssl_read_loop length length (length - (tbytes + datum_size chunk))
         (tbytes + datum_size chunk) (filled ++ chunk) conn.
Proof.
  intros Ht Hfit Hlen. pose proof (datum_size_nonneg chunk) as Hc.
  cbn [ssl_read_loop delivered recv_res recv_bytes]. change (0 =? 0)%Z with true. cbn [negb].
  destruct (small_count (length - tbytes)) as (-> & _ & _); [lia|].
  destruct (small_count (tbytes + datum_size chunk)) as (_ & -> & _); [lia|].
  destruct (Z.ltb_spec (length - tbytes) (datum_size chunk)); [lia|].
  destruct (Z.ltb_spec length (datum_size chunk)); [lia|]. cbn [orb].
  destruct (Z.leb_spec length (tbytes + datum_size chunk)); [reflexivity|].
  destruct (small_count (length - (tbytes + datum_size chunk))) as (_ & _ & ->); [lia|].
  reflexivity.
Qed.

Lemma ssl_read_loop_chunks (length : Z) (chunks : list (list byte)) :
  forall (tbytes : Z) (filled : list byte) (conn : list device_recv_t),
    0 <= tbytes ->
    tbytes + sizes_sum chunks < length ->
    length < 2 ^ 31 ->
    ssl_read_loop length length (length - tbytes) tbytes filled
      (map delivered chunks ++ conn) =
    ssl_read_loop length length (length - (tbytes + sizes_sum chunks))
      (tbytes + sizes_sum chunks) (filled ++ concat chunks) conn.
Proof.
  induction chunks as [|chunk chunks IH]; intros tbytes filled conn Ht Hsum Hlen.
  - simpl. rewrite Z.add_0_r, app_nil_r. reflexivity.
  - change (sizes_sum (chunk :: chunks)) with (datum_size chunk + sizes_sum chunks) in *.
    cbn [map app concat].
    pose proof (datum_size_nonneg chunk) as Hc.
    pose proof (sizes_sum_nonneg chunks) as Hs.
    rewrite ssl_read_loop_step by lia.
    destruct (Z.leb_spec length (tbytes + datum_size chunk)); [lia|].
    rewrite IH by lia.
    rewrite <- app_assoc, Z.add_assoc. reflexivity.
Qed.

Lemma ssl_read_loop_start (length : Z) (chunks : list (list byte))
    (conn : list device_recv_t) :
  0 <= length < 2 ^ 31 ->
  chunks = [] \/ sizes_sum chunks < length ->
  ssl_read_loop length length length 0 [] (map delivered chunks ++ conn) =
  ssl_read_loop length length (length - sizes_sum chunks)
    (sizes_sum chunks) (concat chunks) conn.
Proof.
  intros Hlen [-> | Hlt].
  - cbn [map app sizes_sum fold_right concat]. rewrite Z.sub_0_r. reflexivity.
  - pose proof (ssl_read_loop_chunks length chunks 0 [] conn) as H.
    rewrite Z.sub_0_r, Z.add_0_l in H. apply H; lia.
Qed.

(** X1.  [lockdownd_ssl_read] puts short reads together: when the
    device delivers the wanted bytes in several chunks, the last of
    which completes the count, the call returns the count, the buffer
    holds the chunks in order, and no further read is made. *)
Theorem ssl_read_assembles_short_reads (length : Z) (chunks : list (list byte))
    (last : list byte) (rest : list device_recv_t) :
  0 <= length < 2 ^ 31 ->
  sizes_sum chunks + datum_size last = length ->
  chunks = [] \/ sizes_sum chunks < length ->
  lockdownd_ssl_read length (map delivered (chunks ++ [last]) ++ rest) =
  SslReadReturns length (concat chunks ++ last) rest.
Proof.
  intros Hlen Hsum Hfirst. unfold lockdownd_ssl_read.
  pose proof (datum_size_nonneg last) as Hl.
  pose proof (sizes_sum_nonneg chunks) as Hs.
  destruct (small_count length Hlen) as (_ & _ & ->).
  destruct (Z.ltb_spec length 0); [lia|].
  rewrite map_app, <- app_assoc.
  rewrite ssl_read_loop_start by assumption.
  cbn [map app].
  rewrite ssl_read_loop_step by lia.
  destruct (Z.leb_spec length (sizes_sum chunks + datum_size last)); [|lia].
  rewrite Hsum. reflexivity.
Qed.

(** X2.  [lockdownd_ssl_read] gives up at the first read that fails:
    it returns the code of [iphone_device_recv], with the chunks read
    before still in the buffer; and while the chunks delivered so far
    fall short of the count and no read fails, it goes on reading. *)
Theorem ssl_read_stops_at_error (length : Z) (chunks : list (list byte)) :
  0 <= length < 2 ^ 31 ->
  chunks = [] \/ sizes_sum chunks < length ->
  (forall res junk rest,
     res <> 0 ->
     lockdownd_ssl_read length
       (map delivered chunks ++ {| recv_res := res; recv_bytes := junk |} :: rest) =
     SslReadReturns res (concat chunks) rest) /\
  lockdownd_ssl_read length (map delivered chunks) = SslReadWaits (concat chunks).
Proof.
  intros Hlen Hfirst. unfold lockdownd_ssl_read.
  pose proof (sizes_sum_nonneg chunks) as Hs.
  destruct (small_count length Hlen) as (_ & _ & ->).
  destruct (Z.ltb_spec length 0); [lia|].
  split.
  - intros res junk rest Hres. rewrite ssl_read_loop_start by assumption.
    cbn [ssl_read_loop recv_res]. apply Z.eqb_neq in Hres. rewrite Hres. reflexivity.
  - rewrite <- (app_nil_r (map delivered chunks)).
    rewrite ssl_read_loop_start by assumption. reflexivity.
Qed.

Lemma ssl_read_assembles_short_reads_witness :
  lockdownd_ssl_read 5
    (map delivered ([list_byte_of_string "ab"; list_byte_of_string "c"]
                    ++ [list_byte_of_string "de"]) ++ []) =
  SslReadReturns 5
    (concat [list_byte_of_string "ab"; list_byte_of_string "c"] ++ list_byte_of_string "de")
    [].
Proof.
  apply ssl_read_assembles_short_reads;
    [lia | reflexivity | right; vm_compute; reflexivity].
Defined.

Lemma ssl_read_stops_at_error_witness :
  lockdownd_ssl_read 5
    (map delivered [list_byte_of_string "ab"]
     ++ {| recv_res := -4; recv_bytes := [] |} :: []) =
  SslReadReturns (-4) (concat [list_byte_of_string "ab"]) [].
Proof.
  apply (ssl_read_stops_at_error 5 [list_byte_of_string "ab"]);
    [lia | right; vm_compute; reflexivity | discriminate].
Defined.

(** ** The requests as property lists *)

Lemma request_of_simple (c : lockdownd_client) (verb : string) :
  request_of (simple_request c verb) verb (label c).
Proof. unfold request_of, simple_request. destruct (label c); split; reflexivity. Qed.

Lemma request_of_value (c : lockdownd_client) (verb : string) (domain key : option string) :
  request_of (value_request c verb domain key) verb (label c).
Proof.
  unfold request_of, value_request.
  destruct (label c), domain, key; split; reflexivity.
Qed.

Lemma request_of_set_value (c : lockdownd_client) (domain key : option string)
    (value : plist_t) :
  request_of (plist_dict_insert_item (value_request c "SetValue" domain key) "Value" value)
    "SetValue" (label c).
Proof.
  unfold request_of, value_request.
  destruct (label c), domain, key; split; reflexivity.
Qed.

Lemma request_of_activate (c : lockdownd_client) (record : plist_t) :
  request_of (activate_request c record) "Activate" (label c).
Proof.
  unfold request_of, activate_request, simple_request.
  destruct (label c); split; reflexivity.
Qed.

(** ** Requests, labels and encryption *)

Lemma sends_one_intro {A : Type} (c : lockdownd_client) (w : world) (verb : string)
    (r : A) (p : plist_t) (w' : world) (run : option (A * world)) :
  run = Some (r, w') ->
  trace w' = (trace w ++ [EvSend (ssl_enabled c) p])%list ->
  request_of p verb (label c) ->
  sends_one run c w verb.
Proof. intros H1 H2 H3. exists r, w', p. auto. Qed.

(** X3.  After [lockdownd_client_set_label], each of QueryType,
    GetValue, SetValue, RemoveValue, Goodbye and EnterRecovery, and in a
    session Deactivate and Activate, puts exactly one frame on the
    connection, whatever the device does: a request whose Request is
    the verb and whose Label is the label that was set, with no Label
    when a null label was set; the frame is encrypted exactly when the
    client has TLS enabled. *)
Theorem requests_carry_the_label (c0 : lockdownd_client) (l : option string) (w : world)
    (ty domain key : option string) (value record : plist_t) :
  let c := lockdownd_client_set_label c0 l in
  label c = l /\
  sends_one (lockdownd_query_type c ty w) c w "QueryType" /\
  sends_one (lockdownd_get_value c domain key w) c w "GetValue" /\
  sends_one (lockdownd_set_value c domain key value w) c w "SetValue" /\
  sends_one (lockdownd_remove_value c domain key w) c w "RemoveValue" /\
  sends_one (lockdownd_goodbye c w) c w "Goodbye" /\
  sends_one (lockdownd_enter_recovery c w) c w "EnterRecovery" /\
  (session_id c <> None ->
   sends_one (lockdownd_deactivate c w) c w "Deactivate" /\
   sends_one (lockdownd_activate c (Some record) w) c w "Activate").
Proof.
  intros c. split; [reflexivity|].
  split.
  { eapply sends_one_intro; [apply query_type_eq | reflexivity |].
    apply (request_of_simple c "QueryType"). }
  split.
  { rewrite get_value_eq. cbv zeta.
    destruct (script_head false (send_results w));
      (eapply sends_one_intro; [reflexivity | reflexivity | apply request_of_value]). }
  split.
  { rewrite set_value_eq. cbv zeta.
    destruct (script_head false (send_results w));
      (eapply sends_one_intro; [reflexivity | reflexivity | apply request_of_set_value]). }
  split.
  { rewrite remove_value_eq. cbv zeta.
    destruct (script_head false (send_results w));
      (eapply sends_one_intro; [reflexivity | reflexivity | apply request_of_value]). }
  split.
  { eapply sends_one_intro; [apply goodbye_eq | reflexivity | apply request_of_simple]. }
  split.
  { eapply sends_one_intro; [apply enter_recovery_eq | reflexivity | apply request_of_simple]. }
  intros Hs. destruct (session_id c) as [sid|] eqn:Hsid; [|congruence].
  split.
  - eapply sends_one_intro;
      [apply (deactivate_eq c sid w Hsid) | reflexivity | apply request_of_simple].
  - eapply sends_one_intro;
      [apply (activate_eq c sid record w Hsid) | reflexivity | apply request_of_activate].
Qed.

(** ** A send that fails *)

(** X4.  When the send of its request fails, each of GetValue,
    SetValue, RemoveValue, StartService (in a session, with a host id
    in the store) and StartSession (with no session to stop) returns at
    once with the code of the send, UnknownError in plain mode and
    SslError under TLS: no reply is taken from the connection and the
    store is as it was.  A pairing verb sends two requests and does so
    for each: when the send of its GetValue request fails it returns
    that code and takes no reply, and when the key was fetched and the
    send of the verb's own request fails it returns that code, takes
    no second reply and leaves the store as it was. *)
Theorem failed_send_ends_the_call (E : pki) (c : lockdownd_client) (w : world)
    (domain key hid : option string) (value : plist_t) (verb svc h : string) (port : Z) :
  script_head false (send_results w) = false ->
  let failed (p : plist_t) : world := after_send (ssl_enabled c) p w in
  send_code c false <> LOCKDOWN_E_SUCCESS /\
  (forall p, incoming (failed p) = incoming w /\ store (failed p) = store w) /\
  lockdownd_get_value c domain key w =
    Some ((send_code c false, None), failed (value_request c "GetValue" domain key)) /\
  lockdownd_set_value c domain key value w =
    Some (send_code c false,
          failed (plist_dict_insert_item (value_request c "SetValue" domain key)
                    "Value" value)) /\
  lockdownd_remove_value c domain key w =
    Some (send_code c false, failed (value_request c "RemoveValue" domain key)) /\
  lockdownd_do_pair E c hid verb w =
    Some (send_code c false, failed (device_public_key_request c)) /\
  (forall (w0 : world) (d1 : plist_t) (k : list byte) (g : pair_certs) (h0 : string)
          (ss : list bool) (rs : list recv_outcome),
     send_results w0 = true :: false :: ss ->
     incoming w0 = ok_reply d1 :: rs ->
     plist_get_data_val (plist_dict_get_item (Some d1) "Value") None = Some k ->
     lockdownd_gen_pair_cert E (Some k) (store w0) = Some (LOCKDOWN_E_SUCCESS, g) ->
     match hid with Some x => Some x | None => userpref_get_host_id (store w0) end = Some h0 ->
     exists w',
       lockdownd_do_pair E c hid verb w0 = Some (send_code c false, w') /\
       incoming w' = rs /\
       store w' = store w0 /\
       trace w' = (trace w0 ++ [EvSend (ssl_enabled c) (device_public_key_request c);
                                EvSend (ssl_enabled c) (pair_request c g h0 verb)])%list) /\
  (session_id c <> None -> userpref_get_host_id (store w) <> None ->
   lockdownd_start_service c (Some svc) (Some port) w =
     Some ((send_code c false, Some port), failed (start_service_request c svc))) /\
  (session_id c = None ->
   lockdownd_start_session c (Some h) w =
     Some (ss_fail (send_code c false) c, failed (start_session_request c h))).
Proof.
  intros Hs failed. subst failed. cbv beta.
  split. { unfold send_code. destruct (ssl_enabled c); discriminate. }
  split. { intros p. split; reflexivity. }
  split. { rewrite get_value_eq, Hs. reflexivity. }
  split. { rewrite set_value_eq, Hs. reflexivity. }
  split. { rewrite remove_value_eq, Hs. reflexivity. }
  split.
  { unfold lockdownd_do_pair, lockdownd_get_device_public_key, bind.
    rewrite get_value_eq, Hs. cbv zeta. cbn [fst snd].
    rewrite send_code_false_not_success. unfold ret. cbn [negb fst snd].
    rewrite send_code_false_not_success. reflexivity. }
  split.
  { intros w0 d1 k g h0 ss rs Hs0 Hr0 Hk Hg Hh.
    rewrite (do_pair_eq E c hid verb w0 d1 k (false :: ss) rs Hs0 Hr0 Hk). cbv zeta.
    rewrite Hg. unfold host_id_for. rewrite Hh. cbn [is_success negb script_head].
    eexists. split; [reflexivity|]. simpl. rewrite Hr0.
    split; [reflexivity|]. split; [reflexivity|].
    rewrite <- app_assoc. reflexivity. }
  split.
  - intros Hsid Hh. unfold lockdownd_start_service, bind, get_store.
    destruct (userpref_get_host_id (store w)); [|congruence].
    destruct (session_id c); [|congruence].
    rewrite lockdownd_send_eq, Hs. cbn [fst snd].
    rewrite send_code_false_not_success. reflexivity.
  - intros Hsid. unfold lockdownd_start_session, stop_running_session, bind.
    rewrite Hsid. simpl. rewrite lockdownd_send_eq, Hs. cbn [fst snd].
    rewrite send_code_false_not_success. reflexivity.
Qed.

(** X5.  QueryType, StopSession, Goodbye, EnterRecovery, Deactivate
    and Activate drop the code of their send: what they return, and for
    StopSession the client they leave, is the same whether the send
    succeeded or failed, and is decided by the receive alone. *)
Theorem send_result_is_dropped (c : lockdownd_client) (w : world) (sends : list bool)
    (ty : option string) (s : string) (record : option plist_t) :
  fst <$> lockdownd_query_type c ty (with_sends w sends) =
    fst <$> lockdownd_query_type c ty w /\
  fst <$> lockdownd_stop_session c (Some s) (with_sends w sends) =
    fst <$> lockdownd_stop_session c (Some s) w /\
  fst <$> lockdownd_goodbye c (with_sends w sends) = fst <$> lockdownd_goodbye c w /\
  fst <$> lockdownd_enter_recovery c (with_sends w sends) =
    fst <$> lockdownd_enter_recovery c w /\
  fst <$> lockdownd_deactivate c (with_sends w sends) = fst <$> lockdownd_deactivate c w /\
  fst <$> lockdownd_activate c record (with_sends w sends) =
    fst <$> lockdownd_activate c record w.
Proof.
  split; [rewrite !query_type_eq; reflexivity|].
  split.
  { rewrite !stop_session_eq. cbv zeta. cbn [with_sends incoming].
    destruct (recv_plist (script_head no_reply (incoming w))); [|reflexivity].
    destruct (handles_intact c); [|reflexivity].
    destruct (ssl_enabled c); reflexivity. }
  split; [rewrite !goodbye_eq; reflexivity|].
  split; [rewrite !enter_recovery_eq; reflexivity|].
  split.
  - destruct (session_id c) as [sid|] eqn:Hsid.
    + rewrite !(deactivate_eq c sid _ Hsid). reflexivity.
    + unfold lockdownd_deactivate. rewrite Hsid. reflexivity.
  - destruct (session_id c) as [sid|] eqn:Hsid.
    + destruct record as [record|].
      * rewrite !(activate_eq c sid record _ Hsid). reflexivity.
      * unfold lockdownd_activate. rewrite Hsid. reflexivity.
    + unfold lockdownd_activate. rewrite Hsid. reflexivity.
Qed.

(** ** Replies that are not checked *)

(** X6.  Once the request was sent and a property list was received
    without a transport error, GetValue, SetValue and RemoveValue
    return success whatever the property list holds, also a
    Result=Failure or another verb's answer; GetValue hands out the
    Value of the property list, or null when it has none.  Goodbye and
    EnterRecovery do the same after a receive without error. *)
Theorem unchecked_reply_is_success (c : lockdownd_client) (w : world)
    (domain key : option string) (value reply : plist_t)
    (ss : list bool) (rs : list recv_outcome) :
  send_results w = true :: ss ->
  incoming w = ok_reply reply :: rs ->
  fst <$> lockdownd_get_value c domain key w =
    Some (LOCKDOWN_E_SUCCESS, plist_dict_get_item (Some reply) "Value") /\
  fst <$> lockdownd_set_value c domain key value w = Some LOCKDOWN_E_SUCCESS /\
  fst <$> lockdownd_remove_value c domain key w = Some LOCKDOWN_E_SUCCESS /\
  fst <$> lockdownd_goodbye c w = Some LOCKDOWN_E_SUCCESS /\
  fst <$> lockdownd_enter_recovery c w = Some LOCKDOWN_E_SUCCESS.
Proof.
  intros Hs Hr.
  rewrite get_value_eq, set_value_eq, remove_value_eq, goodbye_eq, enter_recovery_eq.
  cbv zeta. rewrite Hs, Hr. cbn [script_head]. rewrite recv_code_ok.
  cbn [is_success ok_reply recv_plist].
  repeat split; destruct (_ =? _)%Z; reflexivity.
Qed.

(** X7.  [lockdownd_get_device_uuid] and [lockdownd_get_device_name]
    return the code of GetValue.  On success they store the Value when
    it is a string; when the answer has no Value, or one that is not a
    string, they still return success and leave the caller's pointer as
    it was.  On an error they leave it as it was, too. *)
Theorem string_getters (c : lockdownd_client) (w : world) (out : option string) :
  (forall reply ss rs,
     send_results w = true :: ss ->
     incoming w = ok_reply reply :: rs ->
     fst <$> lockdownd_get_device_uuid c out w =
       Some (LOCKDOWN_E_SUCCESS,
             match plist_dict_get_item (Some reply) "Value" with
             | Some (PLIST_STRING s) => Some s
             | _ => out
             end) /\
     fst <$> lockdownd_get_device_name c out w =
       Some (LOCKDOWN_E_SUCCESS,
             match plist_dict_get_item (Some reply) "Value" with
             | Some (PLIST_STRING s) => Some s
             | _ => out
             end)) /\
  (forall e v,
     fst <$> lockdownd_get_value c None (Some "UniqueDeviceID") w = Some (e, v) ->
     e <> LOCKDOWN_E_SUCCESS ->
     fst <$> lockdownd_get_device_uuid c out w = Some (e, out)) /\
  (forall e v,
     fst <$> lockdownd_get_value c None (Some "DeviceName") w = Some (e, v) ->
     e <> LOCKDOWN_E_SUCCESS ->
     fst <$> lockdownd_get_device_name c out w = Some (e, out)).
Proof.
  split; [|split].
  - intros reply ss rs Hs Hr.
    unfold lockdownd_get_device_uuid, lockdownd_get_device_name, bind.
    rewrite !get_value_eq. cbv zeta. rewrite Hs, Hr. cbn [script_head].
    rewrite recv_code_ok. cbn [is_success fst snd negb ok_reply recv_plist].
    unfold plist_get_string_val.
    split; destruct (plist_dict_get_item (Some reply) "Value") as [[]|]; reflexivity.
  - intros e v Hv He. unfold lockdownd_get_device_uuid, bind.
    destruct (lockdownd_get_value c None (Some "UniqueDeviceID") w) as [[[e' v'] w']|];
      [|discriminate].
    injection Hv as -> ->. cbn [fst snd].
    destruct e; try reflexivity. congruence.
  - intros e v Hv He. unfold lockdownd_get_device_name, bind.
    destruct (lockdownd_get_value c None (Some "DeviceName") w) as [[[e' v'] w']|];
      [|discriminate].
    injection Hv as -> ->. cbn [fst snd].
    destruct e; try reflexivity. congruence.
Qed.

(** ** Certificates *)

(** X8.  [lockdownd_gen_pair_cert] has a result unless it is given a
    key that GnuTLS cannot decode as PEM: then it releases the pointer
    that the decoding never set, and the run is undefined.  In every
    result the three certificates come together or not at all, and only
    with success; then the device certificate is the one signed for the
    decoded key and the host and root certificates are those of the
    store.  With a null key the call returns InvalidArg, and when the
    key decodes as PEM to bytes that are no RSA public key it returns
    UnknownError. *)
Theorem gen_pair_cert_outputs (E : pki) (public_key : option (list byte)) (u : userpref) :
  (lockdownd_gen_pair_cert E public_key u = None <->
   exists pem, public_key = Some pem /\ pem_base64_decode E pem = None) /\
  (forall e g,
     lockdownd_gen_pair_cert E public_key u = Some (e, g) ->
     device_cert g <> None \/ host_cert g <> None \/ root_cert g <> None ->
     e = LOCKDOWN_E_SUCCESS /\
     exists pem der modulus exponent,
       public_key = Some pem /\
       pem_base64_decode E pem = Some der /\
       rsa_public_key_decode E der = Some (modulus, exponent) /\
       g = {| device_cert := Some (sign_device_cert E u modulus exponent);
              host_cert := Some (snd (snd (userpref_get_certs_as_pem E u)));
              root_cert := Some (fst (snd (userpref_get_certs_as_pem E u))) |}) /\
  (public_key = None ->
   lockdownd_gen_pair_cert E public_key u = Some (LOCKDOWN_E_INVALID_ARG, no_certs)) /\
  (forall pem der,
     public_key = Some pem ->
     pem_base64_decode E pem = Some der ->
     rsa_public_key_decode E der = None ->
     lockdownd_gen_pair_cert E public_key u = Some (LOCKDOWN_E_UNKNOWN_ERROR, no_certs)).
Proof.
  split; [apply gen_pair_cert_undefined|].
  unfold lockdownd_gen_pair_cert. split; [|split].
  - intros e g.
    destruct public_key as [pem|];
      [|intros H; injection H as <- <-; simpl; intuition congruence].
    destruct (pem_base64_decode E pem) as [der|] eqn:Hp; [|discriminate].
    destruct (rsa_public_key_decode E der) as [[modulus exponent]|] eqn:Hd;
      [|intros H; injection H as <- <-; simpl; intuition congruence].
    destruct (negb (datum_size modulus =? 0)%Z && negb (datum_size exponent =? 0)%Z);
      [|intros H; injection H as <- <-; simpl; intuition congruence].
    destruct (privkey_import_rsa_raw E modulus exponent);
      [|intros H; injection H as <- <-; simpl; intuition congruence].
    destruct (userpref_get_keys_and_certs E u);
      try (intros H; injection H as <- <-; simpl; intuition congruence).
    destruct (fst (userpref_get_certs_as_pem E u));
      try (intros H; injection H as <- <-; simpl; intuition congruence).
    intros H _. injection H as <- <-. split; [reflexivity|].
    exists pem, der, modulus, exponent. auto.
  - intros ->. reflexivity.
  - intros pem der -> Hp Hd. rewrite Hp, Hd. reflexivity.
Qed.

(** X9.  A success of [lockdownd_gen_pair_cert] does not promise
    certificates: when the decoded modulus or exponent is empty, when
    GnuTLS does not take the raw key, or when the store answers with an
    error other than InvalidArg, InvalidConf and SslError, the call
    returns success and hands out no certificate.  The three named
    errors of the store are returned as the lockdown errors of the same
    name. *)
Theorem gen_pair_cert_success_without_certs (E : pki) (pem der modulus exponent : list byte)
    (u : userpref) :
  pem_base64_decode E pem = Some der ->
  rsa_public_key_decode E der = Some (modulus, exponent) ->
  let r := lockdownd_gen_pair_cert E (Some pem) u in
  (modulus = [] \/ exponent = [] \/ privkey_import_rsa_raw E modulus exponent = false ->
   r = Some (LOCKDOWN_E_SUCCESS, no_certs)) /\
  (modulus <> [] -> exponent <> [] -> privkey_import_rsa_raw E modulus exponent = true ->
   (userpref_get_keys_and_certs E u = USERPREF_E_UNKNOWN_ERROR ->
    r = Some (LOCKDOWN_E_SUCCESS, no_certs)) /\
   (userpref_get_keys_and_certs E u = USERPREF_E_INVALID_ARG ->
    r = Some (LOCKDOWN_E_INVALID_ARG, no_certs)) /\
   (userpref_get_keys_and_certs E u = USERPREF_E_INVALID_CONF ->
    r = Some (LOCKDOWN_E_INVALID_CONF, no_certs)) /\
   (userpref_get_keys_and_certs E u = USERPREF_E_SSL_ERROR ->
    r = Some (LOCKDOWN_E_SSL_ERROR, no_certs)) /\
   (userpref_get_keys_and_certs E u = USERPREF_E_SUCCESS ->
    r = Some (lockdown_of_userpref (fst (userpref_get_certs_as_pem E u)) LOCKDOWN_E_SUCCESS,
              if match fst (userpref_get_certs_as_pem E u) with
                 | USERPREF_E_SUCCESS => true
                 | _ => false
                 end
              then {| device_cert := Some (sign_device_cert E u modulus exponent);
                      host_cert := Some (snd (snd (userpref_get_certs_as_pem E u)));
                      root_cert := Some (fst (snd (userpref_get_certs_as_pem E u))) |}
              else no_certs))).
Proof.
  intros Hp Hd r. subst r. unfold lockdownd_gen_pair_cert. rewrite Hp, Hd. split.
  - intros [-> | [-> | Hi]].
    + reflexivity.
    + destruct (negb (datum_size modulus =? 0)%Z); reflexivity.
    + rewrite Hi. destruct (_ && _); reflexivity.
  - intros Hm He Hi. rewrite Hi.
    assert (Hsizes : negb (datum_size modulus =? 0)%Z && negb (datum_size exponent =? 0)%Z
                     = true).
    { unfold datum_size. destruct modulus, exponent; try congruence. reflexivity. }
    rewrite Hsizes.
    repeat split; intros ->; try reflexivity.
    destruct (fst (userpref_get_certs_as_pem E u)); reflexivity.
Qed.

(** ** More on the pairing verbs *)

(** X10.  After the GetValue exchange a pairing verb asks
    [lockdownd_gen_pair_cert] for the certificates of the key that the
    device sent.  When that call returns an error the verb returns it
    at once: the request of the verb is never sent, no further reply is
    taken and the store is as it was.  This is so with InvalidArg when
    the answer to GetValue holds no data Value.  When that call has no
    result, because the key does not decode as PEM, the verb has none
    either. *)
Theorem pairing_needs_certificates (E : pki) (c : lockdownd_client) (hid : option string)
    (verb : string) (w : world) (reply : plist_t) (ss : list bool) (rs : list recv_outcome) :
  send_results w = true :: ss ->
  incoming w = ok_reply reply :: rs ->
  let key := plist_get_data_val (plist_dict_get_item (Some reply) "Value") None in
  let w1 := after_recv (after_send (ssl_enabled c) (device_public_key_request c) w) in
  (forall e g,
     lockdownd_gen_pair_cert E key (store w) = Some (e, g) ->
     e <> LOCKDOWN_E_SUCCESS ->
     lockdownd_do_pair E c hid verb w = Some (e, w1)) /\
  (key = None -> lockdownd_do_pair E c hid verb w = Some (LOCKDOWN_E_INVALID_ARG, w1)) /\
  (forall pem,
     key = Some pem -> pem_base64_decode E pem = None ->
     lockdownd_do_pair E c hid verb w = None) /\
  trace w1 = (trace w ++ [EvSend (ssl_enabled c) (device_public_key_request c)])%list /\
  store w1 = store w /\
  incoming w1 = rs.
Proof.
  intros Hs Hr key w1. subst key w1.
  pose proof (do_pair_cert_failure E c hid verb w reply ss rs Hs Hr) as Hx.
  cbv zeta in Hx.
  split; [|split; [|split]].
  - intros e g Hg He. rewrite Hg in Hx. apply Hx, He.
  - intros Hnone. rewrite Hnone in Hx. apply Hx. discriminate.
  - intros pem Hkey Hdec. rewrite Hkey in Hx.
    assert (Hg : lockdownd_gen_pair_cert E (Some pem) (store w) = None).
    { apply gen_pair_cert_undefined. eauto. }
    rewrite Hg in Hx. exact Hx.
  - simpl. rewrite Hr. auto.
Qed.

(** X11.  When the key was fetched and the certificates were made, a
    pairing verb sends, after the GetValue request, one request that
    names the verb, carries the client's label if there is one, and
    holds a PairRecord with the device, host and root certificates of
    [lockdownd_gen_pair_cert] and the HostID: the caller's when one is
    given, else the one of the store.  Nothing else is sent, whatever
    the device answers. *)
Theorem pairing_request_record (E : pki) (c : lockdownd_client) (hid : option string)
    (verb : string) (w : world) (h : string) (d1 : plist_t) (key : list byte)
    (g : pair_certs) (s2 : bool) (ss : list bool) (rs : list recv_outcome) :
  send_results w = true :: s2 :: ss ->
  incoming w = ok_reply d1 :: rs ->
  plist_get_data_val (plist_dict_get_item (Some d1) "Value") None = Some key ->
  lockdownd_gen_pair_cert E (Some key) (store w) = Some (LOCKDOWN_E_SUCCESS, g) ->
  match hid with Some x => Some x | None => userpref_get_host_id (store w) end = Some h ->
  exists e w',
    lockdownd_do_pair E c hid verb w = Some (e, w') /\
    trace w' = (trace w ++ [EvSend (ssl_enabled c) (device_public_key_request c);
                            EvSend (ssl_enabled c) (pair_request c g h verb)])%list /\
    request_of (pair_request c g h verb) verb (label c) /\
    plist_dict_get_item (Some (pair_request c g h verb)) "PairRecord" =
      Some (PLIST_DICT [("DeviceCertificate", plist_new_data (device_cert g));
                        ("HostCertificate", plist_new_data (host_cert g));
                        ("HostID", PLIST_STRING h);
                        ("RootCertificate", plist_new_data (root_cert g))]) /\
    (forall x, hid = Some x -> h = x).
Proof.
  intros Hs Hr Hkey Hg Hh.
  assert (Hrest :
    request_of (pair_request c g h verb) verb (label c) /\
    plist_dict_get_item (Some (pair_request c g h verb)) "PairRecord" =
      Some (PLIST_DICT [("DeviceCertificate", plist_new_data (device_cert g));
                        ("HostCertificate", plist_new_data (host_cert g));
                        ("HostID", PLIST_STRING h);
                        ("RootCertificate", plist_new_data (root_cert g))]) /\
    (forall x, hid = Some x -> h = x)).
  { split; [|split].
    - unfold request_of, pair_request. destruct (label c); split; reflexivity.
    - unfold pair_request. destruct (label c); reflexivity.
    - intros x ->. congruence. }
  rewrite (do_pair_eq E c hid verb w d1 key (s2 :: ss) rs Hs Hr Hkey). cbv zeta.
  rewrite Hg. unfold host_id_for. rewrite Hh. cbn [is_success negb script_head].
  destruct s2; cbn [negb].
  - destruct (negb (is_success (recv_code c (script_head no_reply rs))));
      [|destruct (_ =? _)%Z];
      (do 2 eexists; split; [reflexivity|];
       split; [simpl; rewrite <- app_assoc; reflexivity | exact Hrest]).
  - do 2 eexists. split; [reflexivity|].
    split; [simpl; rewrite <- app_assoc; reflexivity | exact Hrest].
Qed.

(** ** More on starting a session *)

Lemma start_session_eq (c : lockdownd_client) (h : string) (w : world)
    (e0 : lockdownd_error_t) (c1 : lockdownd_client) (w1 : world)
    (r : recv_outcome) (reply : plist_t) (ss : list bool) (rs : list recv_outcome) :
  stop_running_session c w = Some ((e0, c1), w1) ->
  send_results w1 = true :: ss ->
  incoming w1 = r :: rs ->
  recv_plist r = Some reply ->
  lockdownd_start_session c (Some h) w =
  let w2 := after_recv (after_send (ssl_enabled c1) (start_session_request c1 h) w1) in
  let c2 := set_session_id c1
              (plist_get_string_val (plist_dict_get_item (Some reply) "SessionID")
                 (session_id c1)) in
  if Z.eqb (lockdown_check_result (Some reply) "StartSession") RESULT_FAILURE
  then Some (ss_fail (if error_is reply "InvalidHostID"
                      then LOCKDOWN_E_INVALID_HOST_ID else recv_code c1 r) c1, w2)
  else if wants_ssl reply
  then Some ({| ss_error := if script_head false (handshakes w1)
                            then LOCKDOWN_E_SUCCESS else LOCKDOWN_E_SSL_ERROR;
                ss_client := if script_head false (handshakes w1)
                             then set_ssl_enabled (tls_allocated c2) true
                             else tls_allocated c2;
                ss_session_id := session_id c2;
                ss_ssl_enabled := Some true |}, after_handshake w2)
  else Some ({| ss_error := LOCKDOWN_E_SUCCESS;
                ss_client := set_ssl_enabled c2 false;
                ss_session_id := session_id c2;
                ss_ssl_enabled := Some false |}, w2).
Proof.
  intros Hstop Hs Hin Hr.
  unfold lockdownd_start_session, bind. rewrite Hstop. simpl.
  rewrite lockdownd_send_eq, Hs. simpl.
  rewrite lockdownd_recv_eq. simpl. rewrite Hin. simpl. rewrite Hr.
  destruct (_ =? RESULT_FAILURE)%Z.
  - unfold error_is.
    destruct (plist_dict_get_item (Some reply) "Error") as [[]|]; try reflexivity.
    destruct (_ =? "InvalidHostID"); reflexivity.
  - unfold wants_ssl.
    destruct (plist_dict_get_item (Some reply) "EnableSessionSSL") as [[[]| | | | |]|];
      try reflexivity.
    unfold lockdownd_ssl_start_session, bind, gnutls_handshake. simpl.
    destruct (script_head false (handshakes w1)); reflexivity.
Qed.

(** X12.  A StartSession that the device refuses: with Error
    "InvalidHostID" the call returns InvalidHostId; with any other
    Error, or none, it returns the code of the receive, which is
    success when the receive had no error.  In both cases the client is
    left as it was when the request went out, without a session id from
    this answer, and nothing is written for the caller. *)
Theorem start_session_refused (c : lockdownd_client) (h : string) (w : world)
    (e0 : lockdownd_error_t) (c1 : lockdownd_client) (w1 : world)
    (r : recv_outcome) (reply : plist_t) (ss : list bool) (rs : list recv_outcome) :
  stop_running_session c w = Some ((e0, c1), w1) ->
  send_results w1 = true :: ss ->
  incoming w1 = r :: rs ->
  recv_plist r = Some reply ->
  lockdown_check_result (Some reply) "StartSession" = RESULT_FAILURE ->
  exists s w',
    lockdownd_start_session c (Some h) w = Some (s, w') /\
    ss_client s = c1 /\
    ss_session_id s = None /\
    ss_ssl_enabled s = None /\
    (error_is reply "InvalidHostID" = true -> ss_error s = LOCKDOWN_E_INVALID_HOST_ID) /\
    (error_is reply "InvalidHostID" = false -> ss_error s = recv_code c1 r) /\
    (recv_ok r = true -> recv_code c1 r = LOCKDOWN_E_SUCCESS).
Proof.
  intros Hstop Hs Hin Hr Hc.
  rewrite (start_session_eq c h w e0 c1 w1 r reply ss rs Hstop Hs Hin Hr).
  cbv zeta. rewrite Hc. change (RESULT_FAILURE =? RESULT_FAILURE)%Z with true. cbv iota.
  do 2 eexists. split; [reflexivity|]. cbn [ss_fail ss_client ss_session_id ss_ssl_enabled ss_error].
  repeat split.
  - intros ->. reflexivity.
  - intros ->. reflexivity.
  - intros Hok. unfold recv_code. rewrite Hok, Hr. destruct (ssl_enabled c1); reflexivity.
Qed.

(** X13.  A StartSession that the device accepts with a string
    SessionID: the client holds the SessionID afterwards.  When the
    answer asks for no TLS (no EnableSessionSSL, a false one, or one
    that is no boolean) the call returns success, TLS is off and no
    handshake is made.  When it asks for TLS and the handshake
    succeeds, the call returns success, the handshake follows the
    request on the connection, TLS is on, and the next frame the client
    sends is encrypted. *)
Theorem start_session_accepted (c : lockdownd_client) (h sid : string) (w : world)
    (e0 : lockdownd_error_t) (c1 : lockdownd_client) (w1 : world)
    (r : recv_outcome) (reply : plist_t) (ss : list bool) (rs : list recv_outcome) :
  stop_running_session c w = Some ((e0, c1), w1) ->
  send_results w1 = true :: ss ->
  incoming w1 = r :: rs ->
  recv_plist r = Some reply ->
  lockdown_check_result (Some reply) "StartSession" <> RESULT_FAILURE ->
  plist_dict_get_item (Some reply) "SessionID" = Some (PLIST_STRING sid) ->
  wants_ssl reply = false \/ script_head false (handshakes w1) = true ->
  exists s w',
    lockdownd_start_session c (Some h) w = Some (s, w') /\
    ss_error s = LOCKDOWN_E_SUCCESS /\
    session_id (ss_client s) = Some sid /\
    ss_session_id s = Some sid /\
    ssl_enabled (ss_client s) = wants_ssl reply /\
    ss_ssl_enabled s = Some (wants_ssl reply) /\
    trace w' = (trace w1 ++ EvSend (ssl_enabled c1) (start_session_request c1 h)
                         :: (if wants_ssl reply then [EvHandshake] else []))%list /\
    (forall p w3,
       exists e w4,
         lockdownd_send (ss_client s) p w3 = Some (e, w4) /\
         trace w4 = (trace w3 ++ [EvSend (wants_ssl reply) p])%list).
Proof.
  intros Hstop Hs Hin Hr Hc Hsid Hssl.
  rewrite (start_session_eq c h w e0 c1 w1 r reply ss rs Hstop Hs Hin Hr).
  cbv zeta. apply Z.eqb_neq in Hc. rewrite Hc, Hsid. cbn [plist_get_string_val].
  destruct (wants_ssl reply) eqn:Hw.
  - destruct Hssl as [Hssl | Hssl]; [discriminate|]. rewrite Hssl.
    do 2 eexists. split; [reflexivity|]. simpl.
    repeat split.
    + rewrite <- app_assoc. reflexivity.
    + intros p w3. rewrite lockdownd_send_eq. do 2 eexists. split; reflexivity.
  - do 2 eexists. split; [reflexivity|]. simpl. repeat split.
    intros p w3. rewrite lockdownd_send_eq. do 2 eexists. split; reflexivity.
Qed.

(** The stop that opens [lockdownd_start_session] and
    [lockdownd_client_free], on a client in a session. *)
Lemma stop_running_session_eq (c : lockdownd_client) (old : string) (w : world) :
  session_id c = Some old ->
  stop_running_session c w =
  let w1 := after_recv (after_send (ssl_enabled c) (stop_session_request c old) w) in
  match recv_plist (script_head no_reply (incoming w)) with
  | None => Some ((LOCKDOWN_E_PLIST_ERROR, c), w1)
  | Some d =>
      if handles_intact c
      then Some ((if Z.eqb (lockdown_check_result (Some d) "StopSession") RESULT_SUCCESS
                  then LOCKDOWN_E_SUCCESS else LOCKDOWN_E_UNKNOWN_ERROR,
                  tls_stopped c),
                 if ssl_enabled c then after_emit EvCloseNotify w1 else w1)
      else None
  end.
Proof.
  intros Hsid. unfold stop_running_session. rewrite Hsid, stop_session_eq. cbv zeta.
  destruct (recv_plist (script_head no_reply (incoming w))); reflexivity.
Qed.

(** [lockdownd_start_session] after the stop, whatever happens to its
    request. *)
Lemma start_session_run (c : lockdownd_client) (h : string) (w : world)
    (e0 : lockdownd_error_t) (c1 : lockdownd_client) (w1 : world) :
  stop_running_session c w = Some ((e0, c1), w1) ->
  exists s w' tail,
    lockdownd_start_session c (Some h) w = Some (s, w') /\
    (tail = [] \/ tail = [EvHandshake]) /\
    trace w' = (trace w1 ++ EvSend (ssl_enabled c1) (start_session_request c1 h) :: tail)%list /\
    (session_id (ss_client s) = session_id c1 \/
     exists reply sid,
       recv_plist (script_head no_reply (incoming w1)) = Some reply /\
       plist_dict_get_item (Some reply) "SessionID" = Some (PLIST_STRING sid) /\
       session_id (ss_client s) = Some sid) /\
    (forall ss reply,
       send_results w1 = true :: ss ->
       recv_plist (script_head no_reply (incoming w1)) = Some reply ->
       lockdown_check_result (Some reply) "StartSession" <> RESULT_FAILURE ->
       session_id (ss_client s) =
         plist_get_string_val (plist_dict_get_item (Some reply) "SessionID") (session_id c1)).
Proof.
  intros Hstop.
  destruct (script_head false (send_results w1)) eqn:Hs.
  2: { exists (ss_fail (send_code c1 false) c1),
         (after_send (ssl_enabled c1) (start_session_request c1 h) w1), [].
       split.
       { unfold lockdownd_start_session, bind. rewrite Hstop. simpl.
         rewrite lockdownd_send_eq, Hs. cbn [fst snd].
         rewrite send_code_false_not_success. reflexivity. }
       split; [auto|]. split; [reflexivity|]. split; [left; reflexivity|].
       intros ss reply Hss. rewrite Hss in Hs. discriminate. }
  destruct (script_head_true _ Hs) as [ss Hss].
  destruct (incoming w1) as [|r rs] eqn:Hin.
  { exists (ss_fail LOCKDOWN_E_PLIST_ERROR c1),
      (after_recv (after_send (ssl_enabled c1) (start_session_request c1 h) w1)), [].
    split.
    { unfold lockdownd_start_session, bind. rewrite Hstop. simpl.
      rewrite lockdownd_send_eq, Hss. simpl.
      rewrite lockdownd_recv_eq. simpl. rewrite Hin. reflexivity. }
    split; [auto|]. split; [reflexivity|]. split; [left; reflexivity|].
    intros ss' reply _ Hr. discriminate. }
  cbn [script_head].
  destruct (recv_plist r) as [reply|] eqn:Hr.
  2: { exists (ss_fail LOCKDOWN_E_PLIST_ERROR c1),
         (after_recv (after_send (ssl_enabled c1) (start_session_request c1 h) w1)), [].
       split.
       { unfold lockdownd_start_session, bind. rewrite Hstop. simpl.
         rewrite lockdownd_send_eq, Hss. simpl.
         rewrite lockdownd_recv_eq. simpl. rewrite Hin. simpl. rewrite Hr. reflexivity. }
       split; [auto|]. split; [reflexivity|]. split; [left; reflexivity|].
       intros ss' reply' _ Hr'. discriminate. }
  rewrite (start_session_eq c h w e0 c1 w1 r reply ss rs Hstop Hss Hin Hr). cbv zeta.
  assert (Hid : forall x,
            x = plist_get_string_val (plist_dict_get_item (Some reply) "SessionID")
                  (session_id c1) ->
            x = session_id c1 \/
            exists reply0 sid,
              Some reply = Some reply0 /\
              plist_dict_get_item (Some reply0) "SessionID" = Some (PLIST_STRING sid) /\
              x = Some sid).
  { intros x ->. unfold plist_get_string_val.
    destruct (plist_dict_get_item (Some reply) "SessionID") as [[| |sid| | |]|] eqn:Hsid;
      auto.
    right. exists reply, sid. auto. }
  destruct (_ =? RESULT_FAILURE)%Z eqn:Hc.
  { do 2 eexists. exists (@nil event). split; [reflexivity|].
    split; [auto|]. split; [reflexivity|]. split; [left; reflexivity|].
    intros ss' reply' _ Hr' Hc'. injection Hr' as <-.
    apply Z.eqb_eq in Hc. contradiction. }
  destruct (wants_ssl reply).
  - do 2 eexists. exists [EvHandshake]. split; [reflexivity|]. split; [auto|].
    split; [simpl; rewrite <- app_assoc; reflexivity|].
    split.
    + destruct (script_head false (handshakes w1)); apply Hid; reflexivity.
    + intros ss' reply' _ Hr' _. injection Hr' as <-.
      destruct (script_head false (handshakes w1)); reflexivity.
  - do 2 eexists. exists (@nil event). split; [reflexivity|]. split; [auto|].
    split; [reflexivity|].
    split; [apply Hid; reflexivity|].
    intros ss' reply' _ Hr' _. injection Hr' as <-. reflexivity.
Qed.

(** X14.  [lockdownd_start_session] on a client that holds a session
    id first sends StopSession for that id.  When that is answered with
    a property list and the GnuTLS objects of the client can be torn
    down, the old session is closed before the new one is asked for:
    the close notify follows if TLS was on, the StartSession request
    goes out unencrypted, and the client ends with the session id of
    the new answer or with none, never with the old one it held.  When
    it is answered with a property list and the GnuTLS objects were
    released before, the call releases them again and has no result.
    When the StopSession gets no property list, the StartSession
    request goes out in the mode the client was in, and the old session
    id stays unless the new answer brings another.  This holds whatever
    becomes of the StartSession request; when it is sent and answered
    with a property list that is no Result=Failure answer, the session
    id is that of the answer, if it has one. *)
Theorem start_session_stops_the_running_one (c : lockdownd_client) (h old : string)
    (w : world) (r0 : recv_outcome) (rs : list recv_outcome) :
  session_id c = Some old ->
  incoming w = r0 :: rs ->
  let stop := EvSend (ssl_enabled c) (stop_session_request c old) in
  let new_id (s : start_session_result) (kept : option string) : Prop :=
    (session_id (ss_client s) = kept \/
     exists reply sid,
       recv_plist (script_head no_reply rs) = Some reply /\
       plist_dict_get_item (Some reply) "SessionID" = Some (PLIST_STRING sid) /\
       session_id (ss_client s) = Some sid) /\
    (forall s0 ss reply,
       send_results w = s0 :: true :: ss ->
       recv_plist (script_head no_reply rs) = Some reply ->
       lockdown_check_result (Some reply) "StartSession" <> RESULT_FAILURE ->
       session_id (ss_client s) =
         plist_get_string_val (plist_dict_get_item (Some reply) "SessionID") kept) in
  match recv_plist r0 with
  | Some _ =>
      if handles_intact c then
        exists s w' tail,
          lockdownd_start_session c (Some h) w = Some (s, w') /\
          (tail = [] \/ tail = [EvHandshake]) /\
          trace w' = (trace w ++ stop :: (if ssl_enabled c then [EvCloseNotify] else [])
                              ++ EvSend false (start_session_request c h) :: tail)%list /\
          new_id s None
      else lockdownd_start_session c (Some h) w = None
  | None =>
      exists s w' tail,
        lockdownd_start_session c (Some h) w = Some (s, w') /\
        (tail = [] \/ tail = [EvHandshake]) /\
        trace w' = (trace w ++ stop :: EvSend (ssl_enabled c) (start_session_request c h)
                            :: tail)%list /\
        new_id s (Some old)
  end.
Proof.
  intros Hsid Hin stop new_id. subst stop new_id. cbv beta.
  pose proof (stop_running_session_eq c old w Hsid) as Hstop. cbv zeta in Hstop.
  rewrite Hin in Hstop. cbn [script_head] in Hstop.
  destruct (recv_plist r0) as [d0|].
  - destruct (handles_intact c).
    2: { unfold lockdownd_start_session, bind. rewrite Hstop. reflexivity. }
    destruct (start_session_run c h w _ _ _ Hstop)
      as (s & w' & tail & Hrun & Htail & Htrace & Hid & Hacc).
    exists s, w', tail. split; [exact Hrun|]. split; [exact Htail|].
    assert (Hreq : start_session_request (tls_stopped c) h = start_session_request c h)
      by reflexivity.
    rewrite Hreq in Htrace. cbn [tls_stopped ssl_enabled session_id] in Htrace, Hid, Hacc.
    split; [|split].
    + rewrite Htrace. destruct (ssl_enabled c); simpl; rewrite <- ?app_assoc; reflexivity.
    + destruct (ssl_enabled c); simpl in Hid; rewrite Hin in Hid; exact Hid.
    + intros s0 ss reply Hs Hr Hc.
      destruct (ssl_enabled c); simpl in Hacc; rewrite Hin, Hs in Hacc;
        apply (Hacc ss reply eq_refl Hr Hc).
  - destruct (start_session_run c h w _ _ _ Hstop)
      as (s & w' & tail & Hrun & Htail & Htrace & Hid & Hacc).
    exists s, w', tail. split; [exact Hrun|]. split; [exact Htail|].
    simpl in Htrace, Hid, Hacc. rewrite Hin in Hid, Hacc. rewrite Hsid in Hid, Hacc.
    split; [|split].
    + rewrite Htrace, <- app_assoc. reflexivity.
    + exact Hid.
    + intros s0 ss reply Hs Hr Hc. rewrite Hs in Hacc.
      apply (Hacc ss reply eq_refl Hr Hc).
Qed.

(** ** Releasing a client *)

(** X15.  [lockdownd_client_free] ends by saying Goodbye and releasing
    the connection, whatever the device answers, and its code is that
    of the release alone.  With a session it first sends StopSession;
    when that is answered with a property list the close notify follows
    if TLS was on and the Goodbye goes out unencrypted, when it is not
    answered the Goodbye goes out in the mode the client was in.  The
    store is not touched.  One case has no result: a client in a
    session whose GnuTLS objects were released before, as the stop of
    an earlier TLS session leaves them; when its StopSession is
    answered, the objects are released a second time. *)
Theorem client_free_teardown (c : lockdownd_client) (w : world) :
  let freed (frames : list event) : Prop :=
    exists e w',
      lockdownd_client_free c w = Some (e, w') /\
      e = (if script_head false (free_results w)
           then LOCKDOWN_E_SUCCESS else LOCKDOWN_E_UNKNOWN_ERROR) /\
      store w' = store w /\
      trace w' = (trace w ++ frames)%list in
  match session_id c with
  | None => freed [EvSend (ssl_enabled c) (simple_request c "Goodbye"); EvClose]
  | Some s =>
      match recv_plist (script_head no_reply (incoming w)) with
      | Some _ =>
          if handles_intact c
          then freed (EvSend (ssl_enabled c) (stop_session_request c s)
                      :: (if ssl_enabled c then [EvCloseNotify] else [])
                      ++ [EvSend false (simple_request c "Goodbye"); EvClose])%list
          else lockdownd_client_free c w = None
      | None =>
          freed [EvSend (ssl_enabled c) (stop_session_request c s);
                 EvSend (ssl_enabled c) (simple_request c "Goodbye"); EvClose]
      end
  end.
Proof.
  intros freed. subst freed. cbv beta.
  destruct (session_id c) as [s|] eqn:Hsid.
  - unfold lockdownd_client_free, bind.
    rewrite (stop_running_session_eq c s w Hsid). cbv zeta.
    destruct (recv_plist (script_head no_reply (incoming w))) as [d|].
    + destruct (handles_intact c); [|reflexivity].
      cbn [snd]. rewrite goodbye_eq. cbv zeta.
      unfold property_list_service_client_free, ret.
      destruct (ssl_enabled c); simpl;
        (do 2 eexists; split; [reflexivity|]; simpl;
         split; [reflexivity|]; split; [reflexivity|];
         rewrite <- !app_assoc; reflexivity).
    + cbn [snd]. rewrite goodbye_eq. cbv zeta.
      unfold property_list_service_client_free, ret. simpl.
      do 2 eexists. split; [reflexivity|]. simpl.
      split; [reflexivity|]. split; [reflexivity|].
      rewrite <- !app_assoc. reflexivity.
  - unfold lockdownd_client_free, stop_running_session, bind. rewrite Hsid.
    unfold ret at 1. cbn [snd]. rewrite goodbye_eq. cbv zeta.
    unfold property_list_service_client_free, ret. simpl.
    do 2 eexists. split; [reflexivity|]. simpl.
    split; [reflexivity|]. split; [reflexivity|].
    rewrite <- !app_assoc. reflexivity.
Qed.

(** ** More on the handshaking constructor *)

(** The constructor up to the QueryType exchange: with a device that
    can be reached and gives its uuid, and a host id in the store, what
    is left is the pairing, the session and the hand-over. *)
Lemma new_with_handshake_eq (E : pki) (device : iphone_device) (lbl : option string)
    (w : world) (u h : string) (dq : plist_t) (rs : list recv_outcome) :
  connectable device = true ->
  device_get_uuid device = (LOCKDOWN_E_SUCCESS, Some u) ->
  userpref_get_host_id (store w) = Some h ->
  incoming w = ok_reply dq :: rs ->
  (lockdown_check_result (Some dq) "QueryType" = RESULT_SUCCESS ->
   exists t, plist_dict_get_item (Some dq) "Type" = Some (PLIST_STRING t)) ->
  let c := set_uuid new_client (Some u) in
  lockdownd_client_new_with_handshake E device lbl w =
  (_ <- (if negb (userpref_has_device_public_key (store w) (Some u))
         then lockdownd_pair E c (Some h)
         else ret LOCKDOWN_E_SUCCESS) ;;
   e <- lockdownd_validate_pair E c (Some h) ;;
   r <- (if is_success e then
           s <- lockdownd_start_session c (Some h) ;;
           ret (if is_success (ss_error s) then LOCKDOWN_E_SUCCESS
                else LOCKDOWN_E_SSL_ERROR, ss_client s)
         else ret (e, c)) ;;
   if is_success (fst r) then ret (LOCKDOWN_E_SUCCESS, Some (snd r))
   else
     _ <- lockdownd_client_free (snd r) ;;
     ret (fst r, None))
    (after_recv (after_send false (query_type_request new_client) w)).
Proof.
  intros Hconn Huuid Hh Hin Hty c. subst c.
  unfold lockdownd_client_new_with_handshake, lockdownd_client_new.
  rewrite Hconn. simpl. unfold bind at 1.
  rewrite query_type_eq. simpl. rewrite Hin. simpl.
  set (wq := after_recv (after_send false _ w)).
  assert (Hq : exists q,
    (if (lockdown_check_result (Some dq) "QueryType" =? RESULT_SUCCESS)%Z
     then (LOCKDOWN_E_SUCCESS,
           plist_get_string_val (plist_dict_get_item (Some dq) "Type") None)
     else (LOCKDOWN_E_UNKNOWN_ERROR, None)) = q /\
    (is_success (fst q) = true -> exists t, snd q = Some t)).
  { eexists. split; [reflexivity|].
    destruct (_ =? _)%Z eqn:Hc; simpl; [|discriminate].
    apply Z.eqb_eq in Hc. destruct (Hty Hc) as [t ->]. eauto. }
  destruct Hq as (q & -> & Hq).
  assert (Hguard : (if is_success (fst q)
                    then match snd q with Some _ => ret tt | None => undefined end
                    else ret tt) wq = Some (tt, wq)).
  { destruct (is_success (fst q)); [|reflexivity].
    destruct (Hq eq_refl) as [t ->]. reflexivity. }
  unfold bind at 1. rewrite Hguard. clear Hguard Hq q.
  rewrite Huuid. simpl.
  unfold bind at 1. unfold get_store.
  change (store wq) with (store w). rewrite Hh. simpl.
  reflexivity.
Qed.

(** X16.  The constructor on a device whose key the store already
    holds: after QueryType it sends GetValue, ValidatePair and
    StartSession and no Pair.  When ValidatePair is accepted and
    StartSession is accepted with a SessionID (and the TLS handshake
    succeeds if TLS is asked for), it returns success and hands out a
    client that holds the device uuid and the SessionID, has TLS on
    exactly when it was asked for, and has no label, whatever label was
    passed; the store holds the key that was just fetched. *)
Theorem new_with_handshake_known_device (E : pki) (device : iphone_device)
    (lbl : option string) (w : world) (u h sid : string) (old : list byte)
    (dq dk dv ds : plist_t) (k : list byte) (g : pair_certs) (rS : recv_outcome)
    (s0 : bool) (ss : list bool) (rs : list recv_outcome) :
  connectable device = true ->
  device_get_uuid device = (LOCKDOWN_E_SUCCESS, Some u) ->
  userpref_get_host_id (store w) = Some h ->
  device_public_keys (store w) !! u = Some old ->
  send_results w = s0 :: true :: true :: true :: ss ->
  incoming w = ok_reply dq :: ok_reply dk :: ok_reply dv :: rS :: rs ->
  (lockdown_check_result (Some dq) "QueryType" = RESULT_SUCCESS ->
   exists t, plist_dict_get_item (Some dq) "Type" = Some (PLIST_STRING t)) ->
  plist_get_data_val (plist_dict_get_item (Some dk) "Value") None = Some k ->
  lockdownd_gen_pair_cert E (Some k) (store w) = Some (LOCKDOWN_E_SUCCESS, g) ->
  lockdown_check_result (Some dv) "ValidatePair" = RESULT_SUCCESS ->
  recv_plist rS = Some ds ->
  lockdown_check_result (Some ds) "StartSession" <> RESULT_FAILURE ->
  plist_dict_get_item (Some ds) "SessionID" = Some (PLIST_STRING sid) ->
  wants_ssl ds = false \/ script_head false (handshakes w) = true ->
  let c := set_uuid new_client (Some u) in
  exists c' w',
    lockdownd_client_new_with_handshake E device lbl w =
      Some ((LOCKDOWN_E_SUCCESS, Some c'), w') /\
    uuid c' = Some u /\
    session_id c' = Some sid /\
    ssl_enabled c' = wants_ssl ds /\
    label c' = None /\
    store w' = userpref_set_device_public_key (store w) (Some u) k /\
    trace w' = (trace w ++
                [EvSend false (query_type_request new_client);
                 EvSend false (device_public_key_request c);
                 EvSend false (pair_request c g h "ValidatePair");
                 EvSend false (start_session_request c h)]
                ++ (if wants_ssl ds then [EvHandshake] else []))%list.
Proof.
  intros Hconn Huuid Hh Hkey Hs Hin Hty Hk Hg Hcv HrS Hcs Hsid Hssl c.
  rewrite (new_with_handshake_eq E device lbl w u h dq _ Hconn Huuid Hh Hin Hty).
  cbv zeta. set (wq := after_recv (after_send false _ w)).
  unfold userpref_has_device_public_key. rewrite Hkey.
  rewrite bool_decide_eq_true_2 by eauto. cbn [negb].
  unfold bind at 1. unfold ret at 1. unfold lockdownd_validate_pair.
  unfold bind at 1.
  pose proof (do_pair_exchange E c (Some h) "ValidatePair" wq h dk dv k g
                (true :: ss) (rS :: rs)) as Hv.
  simpl in Hv. rewrite Hs, Hin in Hv. specialize (Hv eq_refl eq_refl Hk Hg eq_refl).
  rewrite Hcv in Hv. change (RESULT_SUCCESS =? RESULT_SUCCESS)%Z with true in Hv.
  cbv iota in Hv. fold c in Hv |- *. rewrite Hv. clear Hv.
  set (wv := with_store _ _).
  cbn [is_success]. unfold bind at 1. unfold bind at 1.
  assert (Hstop : stop_running_session c wv = Some ((LOCKDOWN_E_SUCCESS, c), wv))
    by reflexivity.
  assert (Hsv : send_results wv = true :: ss) by (subst wv wq; simpl; rewrite Hs; reflexivity).
  assert (Hiv : incoming wv = rS :: rs) by (subst wv wq; simpl; rewrite Hin; reflexivity).
  rewrite (start_session_eq c h wv LOCKDOWN_E_SUCCESS c wv rS ds ss rs Hstop Hsv Hiv HrS).
  cbv zeta. apply Z.eqb_neq in Hcs. rewrite Hcs, Hsid. cbn [plist_get_string_val].
  change (handshakes wv) with (handshakes w).
  destruct (wants_ssl ds) eqn:Hw.
  - destruct Hssl as [Hssl | Hssl]; [discriminate|]. rewrite Hssl.
    unfold ret, bind. cbn [ss_error is_success fst snd ss_client].
    do 2 eexists. split; [reflexivity|]. simpl.
    repeat split. rewrite <- !app_assoc. reflexivity.
  - unfold ret, bind. cbn [ss_error is_success fst snd ss_client].
    do 2 eexists. split; [reflexivity|]. simpl.
    repeat split. rewrite <- !app_assoc. reflexivity.
Qed.

(** X17.  The constructor on a device whose key the store does not
    hold: it sends Pair first and ValidatePair after it, each after a
    GetValue of its own.  When both are accepted and StartSession is
    accepted with a SessionID (and the TLS handshake succeeds if TLS is
    asked for), it returns success, the client holds the uuid and the
    SessionID with TLS as asked for, and the store holds under the uuid
    the key fetched for ValidatePair. *)
Theorem new_with_handshake_fresh_device (E : pki) (device : iphone_device)
    (lbl : option string) (w : world) (u h sid : string)
    (dq dk1 dp dk2 dv ds : plist_t) (k1 k2 : list byte) (g1 g2 : pair_certs)
    (rS : recv_outcome) (s0 : bool) (ss : list bool) (rs : list recv_outcome) :
  connectable device = true ->
  device_get_uuid device = (LOCKDOWN_E_SUCCESS, Some u) ->
  userpref_get_host_id (store w) = Some h ->
  device_public_keys (store w) !! u = None ->
  send_results w = s0 :: true :: true :: true :: true :: true :: ss ->
  incoming w = ok_reply dq :: ok_reply dk1 :: ok_reply dp
               :: ok_reply dk2 :: ok_reply dv :: rS :: rs ->
  (lockdown_check_result (Some dq) "QueryType" = RESULT_SUCCESS ->
   exists t, plist_dict_get_item (Some dq) "Type" = Some (PLIST_STRING t)) ->
  plist_get_data_val (plist_dict_get_item (Some dk1) "Value") None = Some k1 ->
  lockdownd_gen_pair_cert E (Some k1) (store w) = Some (LOCKDOWN_E_SUCCESS, g1) ->
  lockdown_check_result (Some dp) "Pair" = RESULT_SUCCESS ->
  plist_get_data_val (plist_dict_get_item (Some dk2) "Value") None = Some k2 ->
  lockdownd_gen_pair_cert E (Some k2)
    (userpref_set_device_public_key (store w) (Some u) k1) = Some (LOCKDOWN_E_SUCCESS, g2) ->
  lockdown_check_result (Some dv) "ValidatePair" = RESULT_SUCCESS ->
  recv_plist rS = Some ds ->
  lockdown_check_result (Some ds) "StartSession" <> RESULT_FAILURE ->
  plist_dict_get_item (Some ds) "SessionID" = Some (PLIST_STRING sid) ->
  wants_ssl ds = false \/ script_head false (handshakes w) = true ->
  let c := set_uuid new_client (Some u) in
  exists c' w',
    lockdownd_client_new_with_handshake E device lbl w =
      Some ((LOCKDOWN_E_SUCCESS, Some c'), w') /\
    uuid c' = Some u /\
    session_id c' = Some sid /\
    ssl_enabled c' = wants_ssl ds /\
    device_public_keys (store w') !! u = Some k2 /\
    host_id (store w') = Some h /\
    trace w' = (trace w ++
                [EvSend false (query_type_request new_client);
                 EvSend false (device_public_key_request c);
                 EvSend false (pair_request c g1 h "Pair");
                 EvSend false (device_public_key_request c);
                 EvSend false (pair_request c g2 h "ValidatePair");
                 EvSend false (start_session_request c h)]
                ++ (if wants_ssl ds then [EvHandshake] else []))%list.
Proof.
  intros Hconn Huuid Hh Hkey Hs Hin Hty Hk1 Hg1 Hcp Hk2 Hg2 Hcv HrS Hcs Hsid Hssl c.
  rewrite (new_with_handshake_eq E device lbl w u h dq _ Hconn Huuid Hh Hin Hty).
  cbv zeta. set (wq := after_recv (after_send false _ w)).
  unfold userpref_has_device_public_key. rewrite Hkey.
  rewrite bool_decide_eq_false_2 by (intros [x Hx]; discriminate). cbn [negb].
  unfold lockdownd_pair, lockdownd_validate_pair. unfold bind at 1.
  pose proof (do_pair_exchange E c (Some h) "Pair" wq h dk1 dp k1 g1
                (true :: true :: true :: ss)
                (ok_reply dk2 :: ok_reply dv :: rS :: rs)) as Hp.
  simpl in Hp. rewrite Hs, Hin in Hp. specialize (Hp eq_refl eq_refl Hk1 Hg1 eq_refl).
  rewrite Hcp in Hp. change (RESULT_SUCCESS =? RESULT_SUCCESS)%Z with true in Hp.
  cbv iota in Hp. fold c in Hp |- *. rewrite Hp. clear Hp.
  change ("Unpair" =? "Pair") with false. cbv iota.
  set (wp := with_store _ _).
  unfold bind at 1.
  pose proof (do_pair_exchange E c (Some h) "ValidatePair" wp h dk2 dv k2 g2
                (true :: ss) (rS :: rs)) as Hv.
  simpl in Hv. rewrite Hs, Hin in Hv. specialize (Hv eq_refl eq_refl Hk2 Hg2 eq_refl).
  rewrite Hcv in Hv. change (RESULT_SUCCESS =? RESULT_SUCCESS)%Z with true in Hv.
  cbv iota in Hv. fold c in Hv |- *. rewrite Hv. clear Hv.
  set (wv := with_store _ _).
  cbn [is_success]. unfold bind at 1. unfold bind at 1.
  assert (Hstop : stop_running_session c wv = Some ((LOCKDOWN_E_SUCCESS, c), wv))
    by reflexivity.
  assert (Hsv : send_results wv = true :: ss)
    by (subst wv wp wq; simpl; rewrite Hs; reflexivity).
  assert (Hiv : incoming wv = rS :: rs)
    by (subst wv wp wq; simpl; rewrite Hin; reflexivity).
  rewrite (start_session_eq c h wv LOCKDOWN_E_SUCCESS c wv rS ds ss rs Hstop Hsv Hiv HrS).
  cbv zeta. apply Z.eqb_neq in Hcs. rewrite Hcs, Hsid. cbn [plist_get_string_val].
  change (handshakes wv) with (handshakes w).
  destruct (wants_ssl ds) eqn:Hw.
  - destruct Hssl as [Hssl | Hssl]; [discriminate|]. rewrite Hssl.
    unfold ret, bind. cbn [ss_error is_success fst snd ss_client].
    do 2 eexists. split; [reflexivity|]. simpl.
    repeat split; try apply lookup_insert_eq; try exact Hh.
    rewrite <- !app_assoc. reflexivity.
  - unfold ret, bind. cbn [ss_error is_success fst snd ss_client].
    do 2 eexists. split; [reflexivity|]. simpl.
    repeat split; try apply lookup_insert_eq; try exact Hh.
    rewrite <- !app_assoc. reflexivity.
Qed.

(** X18.  The constructor maps every failure of StartSession to
    SslError.  On a device whose key the store holds, after an accepted
    ValidatePair: a StartSession refused with Error "InvalidHostID"
    makes the constructor return SslError, say Goodbye, release the
    client and hand out none, with the fetched key left in the store;
    a StartSession refused with another
    Error, or none, counts as started, and the constructor returns
    success with a client that holds no session id. *)
Theorem new_with_handshake_session_refused (E : pki) (device : iphone_device)
    (lbl : option string) (w : world) (u h : string) (old : list byte)
    (dq dk dv ds : plist_t) (k : list byte) (g : pair_certs)
    (s0 : bool) (ss : list bool) (rs : list recv_outcome) :
  connectable device = true ->
  device_get_uuid device = (LOCKDOWN_E_SUCCESS, Some u) ->
  userpref_get_host_id (store w) = Some h ->
  device_public_keys (store w) !! u = Some old ->
  send_results w = s0 :: true :: true :: true :: ss ->
  incoming w = ok_reply dq :: ok_reply dk :: ok_reply dv :: ok_reply ds :: rs ->
  (lockdown_check_result (Some dq) "QueryType" = RESULT_SUCCESS ->
   exists t, plist_dict_get_item (Some dq) "Type" = Some (PLIST_STRING t)) ->
  plist_get_data_val (plist_dict_get_item (Some dk) "Value") None = Some k ->
  lockdownd_gen_pair_cert E (Some k) (store w) = Some (LOCKDOWN_E_SUCCESS, g) ->
  lockdown_check_result (Some dv) "ValidatePair" = RESULT_SUCCESS ->
  lockdown_check_result (Some ds) "StartSession" = RESULT_FAILURE ->
  (error_is ds "InvalidHostID" = true ->
   exists w',
     lockdownd_client_new_with_handshake E device lbl w =
       Some ((LOCKDOWN_E_SSL_ERROR, None), w') /\
     store w' = userpref_set_device_public_key (store w) (Some u) k /\
     trace w' =
       (trace w ++
        [EvSend false (query_type_request new_client);
         EvSend false (device_public_key_request (set_uuid new_client (Some u)));
         EvSend false (pair_request (set_uuid new_client (Some u)) g h "ValidatePair");
         EvSend false (start_session_request (set_uuid new_client (Some u)) h);
         EvSend false (PLIST_DICT [("Request", PLIST_STRING "Goodbye")]);
         EvClose])%list) /\
  (error_is ds "InvalidHostID" = false ->
   exists c' w',
     lockdownd_client_new_with_handshake E device lbl w =
       Some ((LOCKDOWN_E_SUCCESS, Some c'), w') /\
     session_id c' = None /\ ssl_enabled c' = false).
Proof.
  intros Hconn Huuid Hh Hkey Hs Hin Hty Hk Hg Hcv Hcs.
  remember (lockdownd_client_new_with_handshake E device lbl w) as run eqn:Hrun.
  rewrite (new_with_handshake_eq E device lbl w u h dq _ Hconn Huuid Hh Hin Hty) in Hrun.
  cbv zeta in Hrun. set (c := set_uuid new_client (Some u)) in Hrun.
  set (wq := after_recv (after_send false _ w)) in Hrun.
  unfold userpref_has_device_public_key in Hrun. rewrite Hkey in Hrun.
  rewrite bool_decide_eq_true_2 in Hrun by eauto. cbn [negb] in Hrun.
  unfold bind at 1 in Hrun. unfold ret at 1 in Hrun. unfold lockdownd_validate_pair in Hrun.
  unfold bind at 1 in Hrun.
  pose proof (do_pair_exchange E c (Some h) "ValidatePair" wq h dk dv k g
                (true :: ss) (ok_reply ds :: rs)) as Hv.
  simpl in Hv. rewrite Hs, Hin in Hv. specialize (Hv eq_refl eq_refl Hk Hg eq_refl).
  rewrite Hcv in Hv. change (RESULT_SUCCESS =? RESULT_SUCCESS)%Z with true in Hv.
  cbv iota in Hv. fold c in Hv. rewrite Hv in Hrun. clear Hv.
  set (wv := with_store _ _) in Hrun.
  cbn [is_success] in Hrun. unfold bind at 1 in Hrun. unfold bind at 1 in Hrun.
  assert (Hstop : stop_running_session c wv = Some ((LOCKDOWN_E_SUCCESS, c), wv))
    by reflexivity.
  assert (Hsv : send_results wv = true :: ss) by (subst wv wq; simpl; rewrite Hs; reflexivity).
  assert (Hiv : incoming wv = ok_reply ds :: rs)
    by (subst wv wq; simpl; rewrite Hin; reflexivity).
  rewrite (start_session_eq c h wv LOCKDOWN_E_SUCCESS c wv (ok_reply ds) ds ss rs
             Hstop Hsv Hiv eq_refl) in Hrun.
  cbv zeta in Hrun. rewrite Hcs in Hrun.
  change (RESULT_FAILURE =? RESULT_FAILURE)%Z with true in Hrun. cbv iota in Hrun.
  set (ws := after_recv (after_send _ _ wv)) in Hrun.
  split.
  - intros Herr. rewrite Herr in Hrun.
    unfold ret at 1 in Hrun. cbn [ss_fail ss_error ss_client is_success fst snd] in Hrun.
    unfold ret at 1 in Hrun. unfold bind at 1 in Hrun. cbn [fst snd is_success] in Hrun.
    unfold bind in Hrun.
    destruct (client_free_no_session c ws eq_refl) as [e He].
    rewrite He in Hrun. unfold ret in Hrun. subst run.
    eexists. split; [reflexivity|]. split; [reflexivity|].
    simpl. repeat rewrite <- app_assoc. reflexivity.
  - intros Herr. rewrite Herr, recv_code_ok in Hrun.
    unfold ret, bind in Hrun. cbn [ss_fail ss_error ss_client is_success fst snd] in Hrun.
    subst run. do 2 eexists. split; [reflexivity|]. split; reflexivity.
Qed.

(** ** TLS and the GnuTLS session *)

(** The client has TLS on only while it holds a live session: the
    constructor starts with TLS off, [lockdownd_ssl_start_session]
    turns it on after it has stored a new session, and every release of
    the session turns it off.  So the frames that [lockdownd_send] and
    [lockdownd_recv] pass through the session under TLS always meet a
    live one; what can be left behind is the address of a released
    object in a client with TLS off. *)
Lemma tls_on_is_live_kept :
  (forall device lbl e c,
     lockdownd_client_new device lbl = (e, Some c) -> tls_on_is_live c) /\
  (forall c l, tls_on_is_live c -> tls_on_is_live (lockdownd_client_set_label c l)) /\
  (forall c sid w e c' w',
     tls_on_is_live c ->
     lockdownd_stop_session c sid w = Some ((e, c'), w') -> tls_on_is_live c') /\
  (forall c h w s w',
     tls_on_is_live c ->
     lockdownd_start_session c h w = Some (s, w') -> tls_on_is_live (ss_client s)) /\
  (forall E device lbl w e c w',
     lockdownd_client_new_with_handshake E device lbl w = Some ((e, Some c), w') ->
     tls_on_is_live c).
Proof.
  assert (Hstop : forall c sid w e c' w',
            tls_on_is_live c ->
            lockdownd_stop_session c sid w = Some ((e, c'), w') -> tls_on_is_live c').
  { intros c [s|] w e c' w' Hc.
    - rewrite stop_session_eq. cbv zeta.
      destruct (recv_plist _).
      + destruct (handles_intact c); [|discriminate].
        intros H. injection H as _ <- _. discriminate.
      + intros H. injection H as _ <- _. exact Hc.
    - intros H. injection H as _ <- _. exact Hc. }
  assert (Hstart : forall c h w s w',
            tls_on_is_live c ->
            lockdownd_start_session c h w = Some (s, w') -> tls_on_is_live (ss_client s)).
  { intros c h w s w' Hc. unfold lockdownd_start_session, bind.
    destruct (stop_running_session c w) as [[[e0 c1] w1]|] eqn:Hrun; [|discriminate].
    assert (Hc1 : tls_on_is_live c1).
    { unfold stop_running_session in Hrun. destruct (session_id c).
      - exact (Hstop _ _ _ _ _ _ Hc Hrun).
      - injection Hrun as _ <- _. exact Hc. }
    cbn [snd]. destruct h as [h|]; [|discriminate]. unfold plist_new_string, ret at 1.
    rewrite lockdownd_send_eq. cbn [fst snd].
    destruct (is_success (send_code c1 _)); cbn [negb].
    2: { intros H. injection H as <- _. exact Hc1. }
    rewrite lockdownd_recv_eq. cbn [fst snd].
    destruct (recv_plist _) as [d|].
    2: { intros H. injection H as <- _. exact Hc1. }
    destruct (_ =? RESULT_FAILURE)%Z.
    { destruct (plist_dict_get_item (Some d) "Error") as [[| |err| | |]|];
        try (intros H; injection H as <- _; exact Hc1).
      destruct (err =? "InvalidHostID"); intros H; injection H as <- _; exact Hc1. }
    destruct (match plist_dict_get_item (Some d) "EnableSessionSSL" with
              | Some (PLIST_BOOLEAN b) => b
              | _ => false
              end).
    - unfold lockdownd_ssl_start_session, bind, gnutls_handshake.
      destruct (script_head false _); intros H; injection H as <- _; intros _; reflexivity.
    - intros H. injection H as <- _. discriminate. }
  split; [|split; [|split; [exact Hstop | split; [exact Hstart|]]]].
  - intros device lbl e c. unfold lockdownd_client_new.
    destruct (connectable device); [|discriminate].
    intros H. injection H as _ <-. discriminate.
  - intros c l Hc. exact Hc.
  - intros E device lbl w e c w'.
    unfold lockdownd_client_new_with_handshake, lockdownd_client_new.
    destruct (connectable device); [|discriminate]. cbn [snd negb]. unfold bind.
    destruct (lockdownd_query_type _ _ _) as [[q wq]|]; [|discriminate].
    destruct ((if is_success (fst q)
               then match snd q with Some _ => ret tt | None => undefined end
               else ret tt) wq) as [[? wg]|]; [|discriminate].
    unfold get_store.
    match goal with
    | |- context [(if ?b then lockdownd_pair ?E0 ?c0 ?h0 else ret ?e0) wg] =>
        destruct ((if b then lockdownd_pair E0 c0 h0 else ret e0) wg) as [[? wp]|];
          [|discriminate]
    end.
    destruct (lockdownd_validate_pair _ _ _ wp) as [[ev wv]|]; [|discriminate].
    destruct (is_success ev) eqn:Hev.
    + destruct (lockdownd_start_session _ _ wv) as [[s ws]|] eqn:Hs; [|discriminate].
      unfold ret at 1. cbn [fst snd].
      destruct (is_success (ss_error s)); cbn [is_success].
      * intros H. injection H as _ <- _.
        refine (Hstart _ _ _ _ _ _ Hs). discriminate.
      * destruct (lockdownd_client_free _ _) as [[? ?]|]; discriminate.
    + unfold ret at 1. cbn [fst snd]. rewrite Hev.
      destruct (lockdownd_client_free _ _) as [[? ?]|]; discriminate.
Qed.

(** ** The codes of a receive *)

(** X19.  [lockdownd_recv] returns success exactly when the property
    list service reports no error and delivers a property list; it
    never sends.  Without TLS a receive that delivers no property list
    returns PlistError even when the service reported an error, and
    UnknownError is returned only with a property list at hand; under
    TLS an error of the service is always SslError. *)
Theorem recv_codes (c : lockdownd_client) (w : world) :
  let r := script_head no_reply (incoming w) in
  exists e w',
    lockdownd_recv c w = Some ((e, recv_plist r), w') /\
    trace w' = trace w /\ store w' = store w /\ send_results w' = send_results w /\
    incoming w' = tail (incoming w) /\
    (e = LOCKDOWN_E_SUCCESS <-> recv_ok r = true /\ recv_plist r <> None) /\
    (ssl_enabled c = false -> recv_plist r = None -> e = LOCKDOWN_E_PLIST_ERROR) /\
    (ssl_enabled c = false -> e = LOCKDOWN_E_UNKNOWN_ERROR ->
     recv_ok r = false /\ recv_plist r <> None) /\
    (ssl_enabled c = true -> recv_ok r = false -> e = LOCKDOWN_E_SSL_ERROR) /\
    (incoming w = [] -> e = if ssl_enabled c then LOCKDOWN_E_SSL_ERROR
                            else LOCKDOWN_E_PLIST_ERROR).
Proof.
  cbv zeta. rewrite lockdownd_recv_eq. do 2 eexists. split; [reflexivity|].
  unfold recv_code. cbn [after_recv trace store send_results incoming].
  repeat (split; [reflexivity|]).
  destruct (ssl_enabled c), (recv_ok (script_head no_reply (incoming w))) eqn:Hok,
           (recv_plist (script_head no_reply (incoming w))) eqn:Hp;
    repeat split; try congruence; try discriminate; try tauto;
    try (intros [? ?]; congruence);
    try (intros Hnil; rewrite Hnil in Hok, Hp; simpl in Hok, Hp; congruence).
Qed.

(** ** The theorems above at concrete inputs *)

Lemma failed_send_ends_the_call_witness :
  lockdownd_get_value demo_client None (Some "DeviceName") (script [false] [] demo_store) =
    Some ((LOCKDOWN_E_UNKNOWN_ERROR, None),
          after_send false (value_request demo_client "GetValue" None (Some "DeviceName"))
            (script [false] [] demo_store)) /\
  exists w',
    lockdownd_do_pair demo_pki demo_client None "Pair"
      (script [true; false] [ok_reply key_reply; ok_reply (reply_of "Pair" "Success" [])]
         demo_store) = Some (LOCKDOWN_E_UNKNOWN_ERROR, w') /\
    incoming w' = [ok_reply (reply_of "Pair" "Success" [])] /\
    store w' = demo_store.
Proof.
  destruct (failed_send_ends_the_call demo_pki demo_client (script [false] [] demo_store)
              None (Some "DeviceName") None plist_new_dict "Pair" "com.apple.afc" "HOST-1" 0
              eq_refl)
    as (_ & _ & Hget & _ & _ & _ & Hpair & _).
  split; [exact Hget|].
  destruct (Hpair (script [true; false]
                     [ok_reply key_reply; ok_reply (reply_of "Pair" "Success" [])] demo_store)
              key_reply demo_key
              {| device_cert := Some demo_key; host_cert := Some []; root_cert := Some [] |}
              "HOST-1" [] [ok_reply (reply_of "Pair" "Success" [])]
              eq_refl eq_refl eq_refl eq_refl eq_refl)
    as (w' & Hrun & Hin & Hst & _).
  exists w'. split; [exact Hrun|]. split; [exact Hin | exact Hst].
Defined.

Lemma unchecked_reply_is_success_witness :
  fst <$> lockdownd_set_value demo_client None (Some "DeviceName") (PLIST_STRING "phone")
            (script [true] [ok_reply (refused_reply "SetValue" "SetProhibited")] demo_store) =
  Some LOCKDOWN_E_SUCCESS.
Proof.
  destruct (unchecked_reply_is_success demo_client
              (script [true] [ok_reply (refused_reply "SetValue" "SetProhibited")] demo_store)
              None (Some "DeviceName") (PLIST_STRING "phone")
              (refused_reply "SetValue" "SetProhibited") [] [] eq_refl eq_refl)
    as (_ & Hset & _).
  exact Hset.
Defined.

Lemma gen_pair_cert_success_without_certs_witness :
  lockdownd_gen_pair_cert refusing_pki (Some demo_key) demo_store =
  Some (LOCKDOWN_E_SUCCESS, no_certs).
Proof.
  destruct (gen_pair_cert_success_without_certs refusing_pki demo_key demo_key demo_key
              demo_key demo_store eq_refl eq_refl) as [Hnone _].
  apply Hnone. right. right. reflexivity.
Defined.

Lemma pairing_needs_certificates_witness :
  fst <$> lockdownd_do_pair demo_pki demo_client None "Pair"
            (script [true; true] [ok_reply stray_reply] demo_store) =
    Some LOCKDOWN_E_INVALID_ARG /\
  fst <$> lockdownd_do_pair garbled_pki demo_client None "Pair"
            (script [true; true] [ok_reply key_reply] demo_store) =
    Some LOCKDOWN_E_UNKNOWN_ERROR /\
  lockdownd_do_pair undecodable_pki demo_client None "Pair"
    (script [true; true] [ok_reply key_reply] demo_store) = None.
Proof.
  split; [|split].
  - destruct (pairing_needs_certificates demo_pki demo_client None "Pair"
                (script [true; true] [ok_reply stray_reply] demo_store)
                stray_reply [true] [] eq_refl eq_refl) as (_ & Hnokey & _).
    rewrite (Hnokey eq_refl). reflexivity.
  - destruct (pairing_needs_certificates garbled_pki demo_client None "Pair"
                (script [true; true] [ok_reply key_reply] demo_store)
                key_reply [true] [] eq_refl eq_refl) as (Herr & _).
    rewrite (Herr LOCKDOWN_E_UNKNOWN_ERROR no_certs eq_refl); [reflexivity | discriminate].
  - destruct (pairing_needs_certificates undecodable_pki demo_client None "Pair"
                (script [true; true] [ok_reply key_reply] demo_store)
                key_reply [true] [] eq_refl eq_refl) as (_ & _ & Hundef & _).
    apply (Hundef demo_key); reflexivity.
Defined.

Lemma pairing_request_record_witness :
  exists e w',
    lockdownd_do_pair demo_pki demo_client (Some "HOST-2") "Unpair"
      (script [true; true] [ok_reply key_reply] demo_store) = Some (e, w') /\
    length (trace w') = 2%nat.
Proof.
  destruct (pairing_request_record demo_pki demo_client (Some "HOST-2") "Unpair"
              (script [true; true] [ok_reply key_reply] demo_store)
              "HOST-2" key_reply demo_key
              {| device_cert := Some demo_key; host_cert := Some []; root_cert := Some [] |}
              true [] [] eq_refl eq_refl eq_refl eq_refl eq_refl)
    as (e & w' & Hrun & Htrace & _).
  exists e, w'. split; [exact Hrun|]. rewrite Htrace. reflexivity.
Defined.

Lemma start_session_refused_witness :
  exists s w',
    lockdownd_start_session demo_client (Some "HOST-1")
      (script [true] [ok_reply (refused_reply "StartSession" "InvalidHostID")] demo_store) =
      Some (s, w') /\
    ss_error s = LOCKDOWN_E_INVALID_HOST_ID /\
    ss_client s = demo_client.
Proof.
  destruct (start_session_refused demo_client "HOST-1"
              (script [true] [ok_reply (refused_reply "StartSession" "InvalidHostID")]
                 demo_store)
              LOCKDOWN_E_SUCCESS demo_client
              (script [true] [ok_reply (refused_reply "StartSession" "InvalidHostID")]
                 demo_store)
              (ok_reply (refused_reply "StartSession" "InvalidHostID"))
              (refused_reply "StartSession" "InvalidHostID") [] [])
    as (s & w' & Hrun & Hclient & _ & _ & Herr & _); try reflexivity.
  exists s, w'. split; [exact Hrun|]. split; [apply Herr; reflexivity | exact Hclient].
Defined.

Lemma start_session_accepted_witness :
  exists s w',
    lockdownd_start_session demo_client (Some "HOST-1") tls_session_world = Some (s, w') /\
    ss_error s = LOCKDOWN_E_SUCCESS /\
    session_id (ss_client s) = Some "S1" /\
    ssl_enabled (ss_client s) = true.
Proof.
  destruct (start_session_accepted demo_client "HOST-1" "S1" tls_session_world
              LOCKDOWN_E_SUCCESS demo_client tls_session_world
              (ok_reply (session_reply "S1" true)) (session_reply "S1" true) [] [])
    as (s & w' & Hrun & Herr & Hsid & _ & Hssl & _);
    try reflexivity; try discriminate; [right; reflexivity|].
  exists s, w'. auto.
Defined.

Lemma start_session_stops_the_running_one_witness :
  (exists s w' tail,
     lockdownd_start_session tls_client (Some "HOST-1")
       (script [true; true]
          [ok_reply (reply_of "StopSession" "Success" []); ok_reply (session_reply "S2" false)]
          demo_store) = Some (s, w') /\
     trace w' = ([EvSend true (stop_session_request tls_client "S1"); EvCloseNotify;
                  EvSend false (start_session_request tls_client "HOST-1")] ++ tail)%list /\
     session_id (ss_client s) = Some "S2") /\
  lockdownd_start_session restarted_client (Some "HOST-1")
    (script [true; true]
       [ok_reply (reply_of "StopSession" "Success" []); ok_reply (session_reply "S3" false)]
       demo_store) = None.
Proof.
  split.
  - destruct (start_session_stops_the_running_one tls_client "HOST-1" "S1"
                (script [true; true]
                   [ok_reply (reply_of "StopSession" "Success" []);
                    ok_reply (session_reply "S2" false)] demo_store)
                (ok_reply (reply_of "StopSession" "Success" []))
                [ok_reply (session_reply "S2" false)] eq_refl eq_refl)
      as (s & w' & tail & Hrun & _ & Htrace & _ & Hacc).
    exists s, w', tail. split; [exact Hrun|]. split; [exact Htrace|].
    apply (Hacc true [] (session_reply "S2" false) eq_refl eq_refl).
    vm_compute. discriminate.
  - apply (start_session_stops_the_running_one restarted_client "HOST-1" "S2"
             (script [true; true]
                [ok_reply (reply_of "StopSession" "Success" []);
                 ok_reply (session_reply "S3" false)] demo_store)
             (ok_reply (reply_of "StopSession" "Success" []))
             [ok_reply (session_reply "S3" false)] eq_refl eq_refl).
Defined.

Lemma client_free_teardown_witness :
  (exists e w',
     lockdownd_client_free tls_client
       (script [true; true] [ok_reply (reply_of "StopSession" "Success" [])] demo_store) =
       Some (e, w') /\
     trace w' = [EvSend true (stop_session_request tls_client "S1"); EvCloseNotify;
                 EvSend false (simple_request tls_client "Goodbye"); EvClose]) /\
  lockdownd_client_free restarted_client
    (script [true; true] [ok_reply (reply_of "StopSession" "Success" [])] demo_store) = None.
Proof.
  split.
  - destruct (client_free_teardown tls_client
                (script [true; true] [ok_reply (reply_of "StopSession" "Success" [])]
                   demo_store))
      as (e & w' & Hrun & _ & _ & Htrace).
    exists e, w'. split; [exact Hrun | exact Htrace].
  - apply (client_free_teardown restarted_client
             (script [true; true] [ok_reply (reply_of "StopSession" "Success" [])]
                demo_store)).
Defined.

(** The client that a TLS session followed by a plain one leaves holds
    the addresses of released GnuTLS objects, and releasing that client
    is undefined once its StopSession is answered. *)
Example restart_then_free :
  match lockdownd_start_session tls_client (Some "HOST-1")
          (script [true; true; true; true]
             [ok_reply (reply_of "StopSession" "Success" []);
              ok_reply (session_reply "S2" false);
              ok_reply (reply_of "StopSession" "Success" [])]
             demo_store) with
  | Some (s, w') =>
      ss_error s = LOCKDOWN_E_SUCCESS /\
      ss_client s = restarted_client /\
      lockdownd_client_free (ss_client s) w' = None
  | None => False
  end.
Proof. vm_compute. repeat split. Qed.

Lemma new_with_handshake_known_device_witness :
  exists c' w',
    lockdownd_client_new_with_handshake demo_pki demo_device (Some "test")
      (known_device_world true) = Some ((LOCKDOWN_E_SUCCESS, Some c'), w') /\
    session_id c' = Some "S1" /\
    ssl_enabled c' = true /\
    label c' = None.
Proof.
  destruct (new_with_handshake_known_device demo_pki demo_device (Some "test")
              (known_device_world true) "1111-2222" "HOST-1" "S1" demo_key
              query_type_reply key_reply (reply_of "ValidatePair" "Success" [])
              (session_reply "S1" true) demo_key
              {| device_cert := Some demo_key; host_cert := Some []; root_cert := Some [] |}
              (ok_reply (session_reply "S1" true)) true [] [])
    as (c' & w' & Hrun & _ & Hsid & Hssl & Hlabel & _);
    [ reflexivity | reflexivity | reflexivity | vm_compute; reflexivity
    | reflexivity | reflexivity
    | intros _; exists "com.apple.mobile.lockdown"; reflexivity
    | reflexivity | reflexivity | reflexivity | reflexivity
    | vm_compute; discriminate | reflexivity | right; reflexivity | ].
  exists c', w'. auto.
Defined.

Lemma new_with_handshake_fresh_device_witness :
  exists c' w',
    lockdownd_client_new_with_handshake demo_pki demo_device (Some "test")
      (fresh_device_world true) = Some ((LOCKDOWN_E_SUCCESS, Some c'), w') /\
    session_id c' = Some "S1" /\
    ssl_enabled c' = true /\
    device_public_keys (store w') !! "1111-2222" = Some demo_key.
Proof.
  destruct (new_with_handshake_fresh_device demo_pki demo_device (Some "test")
              (fresh_device_world true) "1111-2222" "HOST-1" "S1"
              query_type_reply key_reply (reply_of "Pair" "Success" [])
              key_reply (reply_of "ValidatePair" "Success" [])
              (session_reply "S1" true) demo_key demo_key
              {| device_cert := Some demo_key; host_cert := Some []; root_cert := Some [] |}
              {| device_cert := Some demo_key; host_cert := Some []; root_cert := Some [] |}
              (ok_reply (session_reply "S1" true)) true [] [])
    as (c' & w' & Hrun & _ & Hsid & Hssl & Hkey & _);
    [ reflexivity | reflexivity | reflexivity | vm_compute; reflexivity
    | reflexivity | reflexivity
    | intros _; exists "com.apple.mobile.lockdown"; reflexivity
    | reflexivity | reflexivity | reflexivity
    | reflexivity | reflexivity | reflexivity | reflexivity
    | vm_compute; discriminate | reflexivity | right; reflexivity | ].
  exists c', w'. auto.
Defined.

Lemma new_with_handshake_session_refused_witness :
  (exists w',
     lockdownd_client_new_with_handshake demo_pki demo_device (Some "test")
       (refusing_session_world "InvalidHostID") = Some ((LOCKDOWN_E_SSL_ERROR, None), w')) /\
  (exists c' w',
     lockdownd_client_new_with_handshake demo_pki demo_device (Some "test")
       (refusing_session_world "SessionInactive") =
       Some ((LOCKDOWN_E_SUCCESS, Some c'), w') /\
     session_id c' = None).
Proof.
  split.
  - destruct (new_with_handshake_session_refused demo_pki demo_device (Some "test")
                (refusing_session_world "InvalidHostID") "1111-2222" "HOST-1" demo_key
                query_type_reply key_reply (reply_of "ValidatePair" "Success" [])
                (refused_reply "StartSession" "InvalidHostID") demo_key
                {| device_cert := Some demo_key; host_cert := Some []; root_cert := Some [] |}
                true [true] [])
      as [Hbad _];
      [ reflexivity | reflexivity | reflexivity | vm_compute; reflexivity
      | reflexivity | reflexivity
      | intros _; exists "com.apple.mobile.lockdown"; reflexivity
      | reflexivity | reflexivity | reflexivity | reflexivity | ].
    destruct (Hbad eq_refl) as (w' & Hrun & _). exists w'. exact Hrun.
  - destruct (new_with_handshake_session_refused demo_pki demo_device (Some "test")
                (refusing_session_world "SessionInactive") "1111-2222" "HOST-1" demo_key
                query_type_reply key_reply (reply_of "ValidatePair" "Success" [])
                (refused_reply "StartSession" "SessionInactive") demo_key
                {| device_cert := Some demo_key; host_cert := Some []; root_cert := Some [] |}
                true [true] [])
      as [_ Hother];
      [ reflexivity | reflexivity | reflexivity | vm_compute; reflexivity
      | reflexivity | reflexivity
      | intros _; exists "com.apple.mobile.lockdown"; reflexivity
      | reflexivity | reflexivity | reflexivity | reflexivity | ].
    destruct (Hother eq_refl) as (c' & w' & Hrun & Hsid & _). exists c', w'. auto.
Defined.
